(** * LoadCoreLib: a shallow embedding of the KPI evaluation, the start-test
    retry loop, the polling loop and the artifact retrieval of
    [LoadCoreLib.py], with the waits on the session and on the stop and
    reboot operations, the license check, the verification of the KPI
    results, the helpers of [Utils] and the mappings of [assignAgents],
    and [configSustainTime] of [reconfigLoadCore.py].

    Python values are modelled as the code has them: [str] as [string],
    [float] as IEEE binary64 ([PrimFloat.float]), [int] as [Z], a raised
    exception as the [Raise] case of [result].  Remote calls (the REST
    middleware) and library calls whose code is not in the repository
    ([re.match], [float(str)], [csv.reader], [json.dumps]) are inputs of
    the model. *)

From Stdlib Require Import ZArith Floats String Ascii List Bool Lia DecimalString.
From stdpp Require Import gmap strings list.

Local Open Scope string_scope.
Local Open Scope Z_scope.

(** ** Python primitives *)

Module Py.

(** Exceptions the modelled code can raise.  [AbortTest msg] is the
    exception of [Logger.logError]: [raise Exception(f'Aborting test: {msg}')]. *)
Inductive exn : Type :=
| ValueError
| KeyError (key : string)
| IndexError
| TypeError
| UnboundLocalError (var : string)
| AssertionError
| ReError
| OSError
| AbortTest (msg : string).

Inductive result (A : Type) : Type :=
| Ok (a : A)
| Raise (e : exn).

Arguments Ok {A} a.
Arguments Raise {A} e.

Definition bind {A B : Type} (m : result A) (k : A -> result B) : result B :=
  match m with
  | Ok a => k a
  | Raise e => Raise e
  end.

Definition of_option {A : Type} (e : exn) (o : option A) : result A :=
  match o with
  | Some a => Ok a
  | None => Raise e
  end.

(** [for x in l: body] over an accumulator, stopping at the first exception. *)
Fixpoint for_each {A S : Type} (body : S -> A -> result S) (l : list A) (s : S) : result S :=
  match l with
  | [] => Ok s
  | x :: r => bind (body s x) (for_each body r)
  end.

(** Computations over a state [S] that may raise: the state reached is
    kept when an exception is raised. *)
Definition St (S A : Type) : Type := S -> result A * S.

Definition ret {S A : Type} (a : A) : St S A := fun s => (Ok a, s).

Definition raise {S A : Type} (e : exn) : St S A := fun s => (Raise e, s).

Definition lift {S A : Type} (r : result A) : St S A := fun s => (r, s).

Definition sbind {S A B : Type} (m : St S A) (k : A -> St S B) : St S B :=
  fun s =>
    match m s with
    | (Ok a, s') => k a s'
    | (Raise e, s') => (Raise e, s')
    end.

(** [for x in l: body] in [St]. *)
Fixpoint sfor {S A : Type} (body : A -> St S unit) (l : list A) : St S unit :=
  match l with
  | [] => ret tt
  | x :: r => sbind (body x) (fun _ => sfor body r)
  end.

(** *** Strings *)

(** [sub in s] for strings. *)
Fixpoint contains (sub s : string) : bool :=
  if String.prefix sub s then true
  else match s with
       | EmptyString => false
       | String _ r => contains sub r
       end.

Fixpoint drop (n : nat) (s : string) : string :=
  match n, s with
  | O, _ => s
  | S k, String _ r => drop k r
  | S _, EmptyString => EmptyString
  end.

(** The text before and after the first occurrence of [sep] in [s]. *)
Fixpoint partition (sep s : string) : option (string * string) :=
  if String.prefix sep s then Some (EmptyString, drop (String.length sep) s)
  else match s with
       | EmptyString => None
       | String c r =>
           match partition sep r with
           | Some (b, a) => Some (String c b, a)
           | None => None
           end
       end.

Fixpoint split_fuel (fuel : nat) (sep s : string) : list string :=
  match fuel with
  | O => [s]
  | S k =>
      match partition sep s with
      | Some (b, a) => b :: split_fuel k sep a
      | None => [s]
      end
  end.

(** [s.split(sep)] for a non-empty separator (the code only splits on
    non-empty literals): every occurrence consumes at least one character,
    so [length s] rounds are enough. *)
Definition split (sep s : string) : list string :=
  split_fuel (String.length s) sep s.

(** [sep.join(l)] *)
Fixpoint join (sep : string) (l : list string) : string :=
  match l with
  | [] => EmptyString
  | [x] => x
  | x :: r => x ++ sep ++ join sep r
  end.

(** [s.replace(old, new)] for a non-empty [old]. *)
Definition replace (old new s : string) : string := join new (split old s).

(** [l[i]] *)
Definition index {A : Type} (l : list A) (i : nat) : result A :=
  of_option IndexError (nth_error l i).

(** [str.isspace] on one character, a string being the sequence of its
    code points, each below 256: tab, LF, VT, FF, CR, the separators 28
    to 31, the blank, NEL (133) and the no-break space (160). *)
Definition isspace (c : ascii) : bool :=
  let n := nat_of_ascii c in
  ((9 <=? n)%nat && (n <=? 13)%nat) || ((28 <=? n)%nat && (n <=? 32)%nat)
  || (n =? 133)%nat || (n =? 160)%nat.

Fixpoint lstrip (s : string) : string :=
  match s with
  | String c r => if isspace c then lstrip r else s
  | EmptyString => EmptyString
  end.

Fixpoint rstrip (s : string) : string :=
  match s with
  | String c r =>
      match rstrip r with
      | EmptyString => if isspace c then EmptyString else String c EmptyString
      | r' => String c r'
      end
  | EmptyString => EmptyString
  end.

(** [s.strip()] *)
Definition strip (s : string) : string := rstrip (lstrip s).

(** *** Numbers *)

Definition digit_of (c : ascii) : option Z :=
  let n := nat_of_ascii c in
  if ((48 <=? n)%nat && (n <=? 57)%nat)%bool then Some (Z.of_nat n - 48) else None.

(** Digits with single underscores between them, as [int] accepts.
    [prev_digit] tells whether the previous character was a digit. *)
Fixpoint int_digits (s : string) (acc : Z) (prev_digit : bool) : option Z :=
  match s with
  | EmptyString => if prev_digit then Some acc else None
  | String c r =>
      match digit_of c with
      | Some d => int_digits r (10 * acc + d) true
      | None =>
          if (Ascii.eqb c "_" && prev_digit)%bool
          then match r with
               | EmptyString => None
               | String c' _ =>
                   match digit_of c' with
                   | Some _ => int_digits r acc false
                   | None => None
                   end
               end
          else None
      end
  end.

(** [int(s)] for a string in base ten: blanks around, an optional sign,
    then digits.  Anything else raises [ValueError]. *)
Definition int (s : string) : result Z :=
  match strip s with
  | String "-" r => of_option ValueError (option_map Z.opp (int_digits r 0 false))
  | String "+" r => of_option ValueError (int_digits r 0 false)
  | r => of_option ValueError (int_digits r 0 false)
  end.

(** [range(a, b)] as the list it iterates over. *)
Definition range (a b : Z) : list Z :=
  map (fun i => a + Z.of_nat i) (seq 0 (Z.to_nat (b - a))).

(** [f == k] for a float and an int: Python compares the exact values. *)
Definition float_eq_int (f : float) (k : Z) : bool :=
  match Prim2SF f with
  | S754_zero _ => Z.eqb k 0
  | S754_finite s m e =>
      let mz := if s then Z.neg m else Z.pos m in
      if 0 <=? e then Z.eqb (mz * 2 ^ e) k else Z.eqb mz (k * 2 ^ (- e))
  | _ => false
  end.

(** [f in range(a, b)]: for a float the membership test walks the range
    and compares with [==]. *)
Definition float_in_range (f : float) (a b : Z) : bool :=
  existsb (float_eq_int f) (range a b).

(** [max(l)]: the first item, replaced by each later item that compares
    greater; [ValueError] on an empty list. *)
Definition max (l : list float) : result float :=
  match l with
  | [] => Raise ValueError
  | x :: r => Ok (fold_left (fun m item => if PrimFloat.ltb m item then item else m) r x)
  end.

(** [sum(l)]: a left fold from zero. *)
Definition sum (l : list float) : float :=
  fold_left PrimFloat.add l PrimFloat.zero.

(** *** Dictionaries in insertion order

    A [dict] whose iteration order matters is an association list with
    unique keys: [d[k] = v] replaces the value in place when [k] is
    present and appends the pair otherwise. *)

Fixpoint dict_set {V : Type} (k : string) (v : V) (d : list (string * V)) : list (string * V) :=
  match d with
  | [] => [(k, v)]
  | (k', v') :: r => if String.eqb k k' then (k, v) :: r else (k', v') :: dict_set k v r
  end.

Fixpoint dict_get {V : Type} (k : string) (d : list (string * V)) : option V :=
  match d with
  | [] => None
  | (k', v') :: r => if String.eqb k k' then Some v' else dict_get k r
  end.

(** [l.index(x)]: the first position holding a string equal to [x]. *)
Fixpoint list_index (x : string) (l : list string) : option nat :=
  match l with
  | [] => None
  | y :: r => if String.eqb x y then Some O else option_map S (list_index x r)
  end.

(** Library calls whose code is outside the repository. *)
Class Runtime : Type := {
  (** [float(s)]; [None] when it raises [ValueError] *)
  float_of_str : string -> option float;
  (** [bool(re.match(pattern, s, re.I))]; [None] when [pattern] does not
      compile ([re.error]) *)
  re_match_I : string -> string -> option bool;
  (** [list(csv.reader(text))] *)
  csv_rows : string -> list (list string);
  (** [json.dumps(rows, indent=4)] *)
  json_dumps : list (list string) -> string;
  (** the members [ZipFile(..).extractall] writes, as names and
      contents; [None] when the archive cannot be read *)
  zip_members : string -> option (list (string * string))
}.

End Py.

Notation "x <- m ;; k" := (Py.bind m (fun x => k))
  (at level 20, m at level 99, k at level 200, only parsing).
Notation "x <~ m ;; k" := (Py.sbind m (fun x => k))
  (at level 20, m at level 99, k at level 200, only parsing).

(** ** [MW.getAllStats] *)

Module Stats.
Import Py.

(** A JSON cell of a snapshot row, as [float()] receives it. *)
Inductive Cell : Type :=
| CNum (f : float)
| CStr (s : string)
| CNull.

Record Snapshot : Type := { values : list (list Cell) }.

(** The response of [GET /api/v2/results/<testId>/stats/<statName>]:
    [columns] is [None] for a JSON null. *)
Record Response : Type := {
  status_code : Z;
  columns : option (list string);
  snapshots : list Snapshot
}.

(** A value of the returned dictionary: the list of samples of a
    time series, or the sum computed for the other statistics. *)
Inductive StatValue : Type :=
| Series (samples : list float)
| Total (total : float).

Definition to_float `{Runtime} (c : Cell) : result float :=
  match c with
  | CNum f => Ok f
  | CStr s => of_option ValueError (float_of_str s)
  | CNull => Raise TypeError
  end.

(** Inner loop of the time-series branch for column [i+1]:
    [statList.append(float(snapshots[j]['values'][0][i+1]))] for every [j]. *)
Definition seriesColumn `{Runtime} (snaps : list Snapshot) (i : nat) : result (list float) :=
  for_each
    (fun statList j =>
       snap <- index snaps j ;;
       row <- index (values snap) 0 ;;
       c <- index row (i + 1) ;;
       f <- to_float c ;;
       Ok (statList ++ [f])%list)
    (seq 0 (length snaps)) [].

(** Inner loop of the other branch for column [i+1]:
    [statList.append(float(snapshots[0]['values'][j][i+1]))] for every row [j]
    of the first snapshot. *)
Definition totalColumn `{Runtime} (snaps : list Snapshot) (i : nat) : result (list float) :=
  snap0 <- index snaps 0 ;;
  for_each
    (fun statList j =>
       snap <- index snaps 0 ;;
       row <- index (values snap) j ;;
       c <- index row (i + 1) ;;
       f <- to_float c ;;
       Ok (statList ++ [f])%list)
    (seq 0 (length (values snap0))) [].

Definition seriesBranch `{Runtime} (cols : list string) (snaps : list Snapshot)
  : result (list (string * StatValue)) :=
  for_each
    (fun col i =>
       n <- index cols (i + 1) ;;
       statList <- seriesColumn snaps i ;;
       Ok (dict_set n (Series statList) col))
    (seq 0 (length cols - 1)) [].

Definition totalBranch `{Runtime} (cols : list string) (snaps : list Snapshot)
  : result (list (string * StatValue)) :=
  for_each
    (fun col i =>
       n <- index cols (i + 1) ;;
       statList <- totalColumn snaps i ;;
       Ok (dict_set n (Total (sum statList)) col))
    (seq 0 (length cols - 1)) [].

Definition noStatsMsg (statName : string) : string :=
  "Exception raised: No stats available for " ++ statName ++ ". Test didn't run as expected".

(** [getAllStats(statName, statusCode=200)] on the response it received.
    [Ok None] is the Python [None]. *)
Definition getAllStats `{Runtime} (statName : string) (response : Response) (statusCode : Z)
  : result (option (list (string * StatValue))) :=
  if negb (status_code response =? statusCode) then Ok None
  else
    match columns response with
    | None => Ok None
    | Some cols =>
        c0 <- index cols 0 ;;
        if String.eqb c0 "timestamp" then
          match seriesBranch cols (snapshots response) with
          | Ok col => Ok (Some col)
          | Raise _ => Raise (AbortTest (noStatsMsg statName))
          end
        else
          match totalBranch cols (snapshots response) with
          | Ok col => Ok (Some col)
          | Raise _ => Ok None
          end
    end.

End Stats.

(** ** KPI expectations: [Main.createKpiTracker] and the evaluation in
    [Main.runTestcase] *)

Module Kpi.
Import Py Stats.

(** One value of [kpiStatTracker[testcase][statName]]:
    [{'result': .., 'expectedValue': .., 'maxValue': ..}]. *)
Record Entry : Type := {
  kpi_result : option string;
  kpi_expectedValue : option string;
  kpi_maxValue : option float
}.

Definition blank : Entry :=
  {| kpi_result := None; kpi_expectedValue := None; kpi_maxValue := None |}.

(** The [if]/[elif] chain of [createKpiTracker].  The local [kpi] keeps
    its previous value when no branch is taken. *)
Definition trackerKpi (kpi : option string) (kpiKeyValue : string) : result (option string) :=
  if contains "<=" kpiKeyValue then k <- index (split "<=" kpiKeyValue) 0 ;; Ok (Some k)
  else if contains ">=" kpiKeyValue then k <- index (split ">=" kpiKeyValue) 0 ;; Ok (Some k)
  else if contains "<" kpiKeyValue then k <- index (split "<" kpiKeyValue) 0 ;; Ok (Some k)
  else if contains ">" kpiKeyValue then k <- index (split ">" kpiKeyValue) 0 ;; Ok (Some k)
  else if contains "==" kpiKeyValue then k <- index (split "==" kpiKeyValue) 0 ;; Ok (Some k)
  else if contains "=" kpiKeyValue then k <- index (split "=" kpiKeyValue) 0 ;; Ok (Some k)
  else Ok kpi.

(** Body of [for kpiKeyValue in ...]: parse, then
    [kpiStatTracker[testcase][statName][kpi] = {...}]. *)
Definition trackerEntry (st : option string * gmap string Entry) (kpiKeyValue : string)
  : result (option string * gmap string Entry) :=
  kpi <- trackerKpi (fst st) kpiKeyValue ;;
  match kpi with
  | Some k => Ok (kpi, <[k := blank]> (snd st))
  | None => Raise (UnboundLocalError "kpi")
  end.

(** [createKpiTracker] for one testcase, whose ['KPI'] dictionary maps a
    stat name to its list of expressions. *)
Definition createKpiTracker (KPI : list (string * list string)) (kpi : option string)
  : result (option string * gmap string (gmap string Entry)) :=
  for_each
    (fun st item =>
       let statName := strip (fst item) in
       kpiList <- of_option (KeyError statName) (dict_get statName KPI) ;;
       if existsb (String.eqb "NA") kpiList then Ok st
       else
         r <- for_each trackerEntry kpiList (fst st, ∅) ;;
         Ok (fst r, <[statName := snd r]> (snd st)))
    KPI (kpi, ∅).

(** Modelled from the spec: [mainObj.operators], the operator table of the
    host framework, is not in the repository.  The spec lists the
    comparisons [<=], [>=], [<], [>], [==]; the run-time parser looks the
    last one up under the key [=]. *)
Definition operators (op : string) : option (float -> float -> bool) :=
  if String.eqb op "<=" then Some (fun a b => PrimFloat.leb a b)
  else if String.eqb op ">=" then Some (fun a b => PrimFloat.leb b a)
  else if String.eqb op "<" then Some (fun a b => PrimFloat.ltb a b)
  else if String.eqb op ">" then Some (fun a b => PrimFloat.ltb b a)
  else if String.eqb op "=" then Some (fun a b => PrimFloat.eqb a b)
  else None.

(** Body of the inner [for userDefinedKpi in kpiList] of [runTestcase]:
    [if bool(re.match(runtimeKpi, userDefinedKpi, re.I)):
     index = kpiList.index(userDefinedKpi)]. *)
Definition matchStep `{Runtime} (runtimeKpi : string) (kpiList : list string)
  (idx : option nat) (userDefinedKpi : string) : result (option nat) :=
  m <- of_option ReError (re_match_I runtimeKpi userDefinedKpi) ;;
  if (m : bool) then
    i <- of_option ValueError (list_index userDefinedKpi kpiList) ;;
    Ok (Some i)
  else Ok idx.

(** The inner loop, from [index = None]: [index] ends as a position of
    the last expression the runtime name matches. *)
Definition matchIndex `{Runtime} (runtimeKpi : string) (kpiList : list string)
  : result (option nat) :=
  for_each (matchStep runtimeKpi kpiList) kpiList None.

(** The [if]/[elif] chain of [runTestcase] setting [expectedKpiOperator]
    and [expectedValue]; both locals keep their previous values when no
    branch is taken. *)
Definition parseExpectation (locals : option (string * string)) (expr : string)
  : result (option (string * string)) :=
  if contains "<=" expr then v <- index (split "<=" expr) 1 ;; Ok (Some ("<=", v))
  else if contains ">=" expr then v <- index (split ">=" expr) 1 ;; Ok (Some (">=", v))
  else if contains ">" expr then v <- index (split ">" expr) 1 ;; Ok (Some (">", v))
  else if contains "<" expr then v <- index (split "<" expr) 1 ;; Ok (Some ("<", v))
  else if contains "==" expr then v <- index (split "==" expr) 1 ;; Ok (Some ("=", v))
  else if contains "=" expr then v <- index (split "=" expr) 1 ;; Ok (Some ("=", v))
  else Ok locals.

Definition verdict (b : bool) : string := if b then "passed" else "failed".

(** [max(currentStats[runtimeKpi])] *)
Definition maxOf (value : StatValue) : result float :=
  match value with
  | Series samples => max samples
  | Total _ => Raise TypeError
  end.

(** The comparison of the running maximum with the expectation. *)
Definition compareMax `{Runtime} (expectedKpiOperator expectedValue : string) (maxValue : float)
  : result string :=
  if contains "-" expectedValue then
    lo <- index (split "-" expectedValue) 0 ;;
    minimumValue <- int (strip lo) ;;
    hi <- index (split "-" expectedValue) 1 ;;
    maximumValue <- int (strip hi) ;;
    Ok (verdict (float_in_range maxValue minimumValue (maximumValue + 1)))
  else
    v <- of_option ValueError (float_of_str expectedValue) ;;
    match operators expectedKpiOperator with
    | Some op => Ok (verdict (op maxValue v))
    | None => Raise TypeError
    end.

(** Lines 2012 to 2063 for the matched expression [expr]: the new values
    of the two locals, the key [kpi] and the entry to record. *)
Definition evaluate `{Runtime} (locals : option (string * string)) (expr : string)
  (value : StatValue) : result (option (string * string) * string * Entry) :=
  locals' <- parseExpectation locals expr ;;
  match locals' with
  | None => Raise (UnboundLocalError "expectedKpiOperator")
  | Some (expectedKpiOperator, expectedValue) =>
      name <- index (split expectedKpiOperator expr) 0 ;;
      let kpi := strip name in
      maxValue <- maxOf value ;;
      res <- compareMax expectedKpiOperator expectedValue maxValue ;;
      Ok (locals', kpi,
          {| kpi_result := Some res;
             kpi_expectedValue := Some (expectedKpiOperator ++ expectedValue);
             kpi_maxValue := Some maxValue |})
  end.

(** [kpiStatTracker[testcase][statName][kpi].update({...})] *)
Definition recordResult (tracker : gmap string (gmap string Entry))
  (statName kpi : string) (e : Entry) : result (gmap string (gmap string Entry)) :=
  match tracker !! statName with
  | None => Raise (KeyError statName)
  | Some t =>
      match t !! kpi with
      | None => Raise (KeyError kpi)
      | Some _ => Ok (<[statName := <[kpi := e]> t]> tracker)
      end
  end.

(** Body of [for runtimeKpi, value in currentStats.items()]. *)
Definition kpiStep `{Runtime} (statName : string) (kpiList : list string)
  (st : option (string * string) * gmap string (gmap string Entry))
  (item : string * StatValue)
  : result (option (string * string) * gmap string (gmap string Entry)) :=
  idx <- matchIndex (fst item) kpiList ;;
  match idx with
  | None => Ok st
  | Some i =>
      expr <- index kpiList i ;;
      r <- evaluate (fst st) expr (snd item) ;;
      tracker <- recordResult (snd st) statName (snd (fst r)) (snd r) ;;
      Ok (fst (fst r), tracker)
  end.

(** Body of [for statName in loadcoreCsvResultsToVerify]; [responses]
    gives the middleware's answer to this poll of each stat. *)
Definition statStep `{Runtime} (KPI : list (string * list string))
  (responses : string -> Response)
  (st : option (string * string) * gmap string (gmap string Entry))
  (statName : string)
  : result (option (string * string) * gmap string (gmap string Entry)) :=
  currentStats <- getAllStats statName (responses statName) 200 ;;
  match currentStats with
  | None => Ok st
  | Some stats =>
      kpiList <- of_option (KeyError statName) (dict_get statName KPI) ;;
      for_each (kpiStep statName kpiList) stats st
  end.

(** One pass of the [for] loop over all stats of the testcase. *)
Definition pollStats `{Runtime} (KPI : list (string * list string))
  (responses : string -> Response)
  (st : option (string * string) * gmap string (gmap string Entry))
  : result (option (string * string) * gmap string (gmap string Entry)) :=
  for_each (statStep KPI responses) (map fst KPI) st.

End Kpi.

(** ** The polling loop of [Main.runTestcase] *)

Module PollLoop.
Import Py.

(** What the middleware answers during one pass of the [while True] loop:
    the stats of every stat name, then the response of
    [GET /api/v2/sessions/<id>/test] read by [getSessionStatus]. *)
Record Round : Type := {
  stat_responses : string -> Stats.Response;
  session_code : Z;
  session_status : string
}.

(** What a pass of the loop does, for the trace: the [for] loop over the
    stats has been run, [time.sleep(secs)] has been called. *)
Inductive Event : Type :=
| PolledStats
| Slept (secs : float).

(** The variables the loop reads and writes, and the trace of the passes
    (the most recent event first).  [time.sleep] is taken to accept its
    argument.  Line 2083 stores under [testcaseData['KPIs']] the tracker
    dict of the testcase itself, not a copy of it: [KPIs_is_tracker] tells
    whether the loop has done so. *)
Record LoopState : Type := {
  locals : option (string * string);
  kpiStatTracker : gmap string (gmap string Kpi.Entry);
  testConfiguredDuration : float;
  KPIs_is_tracker : bool;
  moduleStatus : string;
  trace : list Event
}.

(** What [testcaseData['KPIs']] shows once the loop has stored the
    tracker: the tracker as it is now, since line 2061 updates the shared
    dict in place. *)
Definition testcaseDataKPIs (s : LoopState) : option (gmap string (gmap string Kpi.Entry)) :=
  if KPIs_is_tracker s then Some (kpiStatTracker s) else None.

Inductive Step : Type :=
| Break (s : LoopState)
| Continue (s : LoopState).

(** [MW.getSessionStatus] *)
Definition getSessionStatus (r : Round) : result string :=
  if session_code r =? 200 then Ok (session_status r) else Raise AssertionError.

(** The literal [.30] of the source, the binary64 number nearest to 3/10. *)
Definition default_interval : float := 0x1.3333333333333p-2%float.

(** One pass of the loop body. *)
Definition iteration `{Runtime} (KPI : list (string * list string))
  (pollStatInterval : option float) (r : Round) (s : LoopState) : result Step :=
  st <- Kpi.pollStats KPI (stat_responses r) (locals s, kpiStatTracker s) ;;
  status <- getSessionStatus r ;;
  if existsb (String.eqb status) ["STOPPING"; "STOPPED"] then
    Ok (Break {| locals := fst st;
                 kpiStatTracker := snd st;
                 testConfiguredDuration := testConfiguredDuration s;
                 KPIs_is_tracker := KPIs_is_tracker s;
                 moduleStatus := "Stopping";
                 trace := PolledStats :: trace s |})
  else
    let setPollInterval :=
      match pollStatInterval with
      | None => PrimFloat.mul default_interval 100
      | Some p => PrimFloat.mul p 100
      end in
    let pollInterval :=
      match pollStatInterval with
      | None => default_interval
      | Some p => p
      end in
    Ok (Continue {| locals := fst st;
                    kpiStatTracker := snd st;
                    testConfiguredDuration :=
                      PrimFloat.sub (testConfiguredDuration s) pollInterval;
                    KPIs_is_tracker := true;
                    moduleStatus := moduleStatus s;
                    trace := Slept setPollInterval :: PolledStats :: trace s |}).

(** How a run over a finite script of rounds ends: the loop left by
    [break], an exception, or the loop still polling when the script is
    used up. *)
Inductive Outcome : Type :=
| Exited (s : LoopState)
| Aborted (e : exn)
| Polling (s : LoopState).

(** [while True: ...] against the rounds of [script]. *)
Fixpoint pollLoop `{Runtime} (KPI : list (string * list string))
  (pollStatInterval : option float) (script : list Round) (s : LoopState) : Outcome :=
  match script with
  | [] => Polling s
  | r :: rest =>
      match iteration KPI pollStatInterval r s with
      | Raise e => Aborted e
      | Ok (Break s') => Exited s'
      | Ok (Continue s') => pollLoop KPI pollStatInterval rest s'
      end
  end.

End PollLoop.

(** ** [MW.startTest] *)

Module StartTest.
Import Py.

(** [state.json()] of a poll of the start operation; a key the
    middleware left out is [None]. *)
Record StateJson : Type := {
  state : option string;
  message : option string
}.

(** The calls [startTest] makes, in the order it makes them. *)
Inductive Event : Type :=
| PostStart
| GetState (operation poll : nat)
| GetTestId
| VerifyLicenseSettings
| CheckSessionState
| RebootAgents
| VerifyAllAgentsStatusUp
| StopTest
| Sleep.

(** The middleware as [startTest] sees it.  The [k]-th POST of the start
    operation creates operation [k] and answers [start_code k];
    [get_state k n] is the [n]-th poll of operation [k].  The helper
    methods are given by their outcome: they return or raise. *)
Record Middleware : Type := {
  start_code : nat -> Z;
  get_state : nat -> nat -> StateJson;
  getTestId : result string;
  verifyLicenseSettings : result unit;
  checkSessionState : result bool;
  rebootAgents : result unit;
  verifyAllAgentsStatusUp : result unit;
  stopTest : result unit
}.

(** The object state [startTest] touches and the trace of its calls,
    the most recent first. *)
Record MW : Type := {
  testId : option string;
  trace : list Event
}.

(** A call: it is recorded, then it returns or raises. *)
Definition call {A : Type} (ev : Event) (r : result A) : St MW A :=
  fun s => (r, {| testId := testId s; trace := ev :: trace s |}).

Definition set_testId (t : string) : St MW unit :=
  fun s => (Ok tt, {| testId := Some t; trace := trace s |}).

End StartTest.

Module StartTestLoop.
Import Py StartTest.

(** The locals of [startTest] the loop changes: [wait], [retry], the
    operation [rest_url] points to, the number of polls made of it, and
    the last [state] read. *)
Record Locals : Type := {
  wait : Z;
  retry : nat;
  operation : nat;
  polls : nat;
  last : option StateJson
}.

(** [response = self.post(.../operations/start)] followed by
    [assert response.status_code == statusCode]. *)
Definition postStart (W : Middleware) (k : nat) (statusCode : Z) : St MW unit :=
  call PostStart (if start_code W k =? statusCode then Ok tt else Raise AssertionError).

(** The recovery of the [ERROR] branch (lines 810 to 833).
    [verifyLicenseSettings] has no [return], so the comparisons of its
    value with [False] fail and [setLicenseServer] is not called. *)
Definition recoverFromError (W : Middleware) (statusCode : Z) : St MW unit :=
  _ <~ call VerifyLicenseSettings (verifyLicenseSettings W) ;;
  _ <~ call CheckSessionState (checkSessionState W) ;;
  _ <~ call RebootAgents (rebootAgents W) ;;
  _ <~ call VerifyAllAgentsStatusUp (verifyAllAgentsStatusUp W) ;;
  _ <~ call VerifyLicenseSettings (verifyLicenseSettings W) ;;
  postStart W 1 statusCode.

(** The recovery of the [else] clause of the loop (lines 855 to 876). *)
Definition recoverFromTimeout (W : Middleware) (statusCode : Z) : St MW unit :=
  _ <~ call StopTest (stopTest W) ;;
  _ <~ call CheckSessionState (checkSessionState W) ;;
  _ <~ call VerifyLicenseSettings (verifyLicenseSettings W) ;;
  _ <~ call RebootAgents (rebootAgents W) ;;
  _ <~ call VerifyAllAgentsStatusUp (verifyAllAgentsStatusUp W) ;;
  _ <~ call VerifyLicenseSettings (verifyLicenseSettings W) ;;
  postStart W 1 statusCode.

(** ['Test failed to start in {} sec'.format(waitTime)] *)
Definition failedToStartMsg (waitTime : Z) : string :=
  "Test failed to start in " ++ NilZero.string_of_int (Z.to_int waitTime) ++ " sec".

(** Lines 883 and 884, after the loop: the message needs both keys of the
    last [state]; [logError] raises. *)
Definition afterLoop {A : Type} (l : Locals) : St MW A :=
  match last l with
  | None => raise (UnboundLocalError "state")
  | Some st =>
      match state st, message st with
      | None, _ => raise (KeyError "state")
      | Some _, None => raise (KeyError "message")
      | Some s, Some m => raise (AbortTest ("startTraffic: State: " ++ s ++ " - Error MSG: " ++ m))
      end
  end.

(** The [while wait > 0: ... else: ...] loop and what follows it.  [None]
    tells that [fuel] rounds were not enough. *)
Fixpoint loop (fuel : nat) (W : Middleware) (result : string) (waitTime statusCode : Z)
  (l : Locals) : St MW (option StateJson) :=
  match fuel with
  | O => ret None
  | S fuel' =>
      if 0 <? wait l then
        st <~ call (GetState (operation l) (polls l)) (Ok (get_state W (operation l) (polls l))) ;;
        match state st with
        | None => raise (KeyError "state")
        | Some s =>
            if String.eqb s result then
              t <~ call GetTestId (getTestId W) ;;
              _ <~ set_testId t ;;
              ret (Some st)
            else if String.eqb s "ERROR" then
              if Nat.eqb (retry l) 0 then
                _ <~ recoverFromError W statusCode ;;
                _ <~ call Sleep (Ok tt) ;;
                loop fuel' W result waitTime statusCode
                  {| wait := waitTime - 1; retry := 1; operation := 1; polls := 0;
                     last := Some st |}
              else
                match message st with
                | None => raise (KeyError "message")
                | Some m => raise (AbortTest m)
                end
            else
              _ <~ call Sleep (Ok tt) ;;
              loop fuel' W result waitTime statusCode
                {| wait := wait l - 1; retry := retry l; operation := operation l;
                   polls := S (polls l); last := Some st |}
        end
      else if Nat.eqb (retry l) 0 then
        _ <~ recoverFromTimeout W statusCode ;;
        afterLoop l
      else raise (AbortTest (failedToStartMsg waitTime))
  end.

(** [startTest(result='SUCCESS', wait=90, statusCode=202)] *)
Definition startTest (W : Middleware) (result : string) (wait statusCode : Z)
  : St MW (option StateJson) :=
  _ <~ postStart W 0 statusCode ;;
  loop (2 * Z.to_nat wait + 1) W result wait statusCode
    {| wait := wait; retry := 0; operation := 0; polls := 0; last := None |}.

End StartTestLoop.

(** ** Files and the log *)

Module Host.
Import Py.

(** The files by path, the paths that cannot be opened for writing, the
    paths whose mode cannot be changed, and the warnings logged (the most
    recent first). *)
Record Env : Type := {
  files : gmap string string;
  readonly : gset string;
  foreign : gset string;
  warnings : list string
}.

Definition with_files (f : gmap string string) (env : Env) : Env :=
  {| files := f; readonly := readonly env; foreign := foreign env; warnings := warnings env |}.

(** [open(path).read()] *)
Definition read_file (path : string) : St Env string :=
  fun env => (of_option OSError (files env !! path), env).

(** [with open(path, 'w') as f: f.write(content)] *)
Definition write_file (path content : string) : St Env unit :=
  fun env =>
    if decide (path ∈ readonly env) then (Raise OSError, env)
    else (Ok tt, with_files (<[path := content]> (files env)) env).

(** [os.chmod(path, 0o774)] *)
Definition chmod (path : string) : St Env unit :=
  fun env =>
    match files env !! path with
    | None => (Raise OSError, env)
    | Some _ => if decide (path ∈ foreign env) then (Raise OSError, env) else (Ok tt, env)
    end.

(** [os.rename(src, dst)] *)
Definition rename (src dst : string) : St Env unit :=
  fun env =>
    match files env !! src with
    | None => (Raise OSError, env)
    | Some c => (Ok tt, with_files (<[dst := c]> (delete src (files env))) env)
    end.

(** [os.path.getsize(path)] *)
Definition getsize (path : string) : St Env nat :=
  fun env => (of_option OSError (option_map String.length (files env !! path)), env).

(** [shutil.rmtree(folder)]: every file below [folder] goes. *)
Definition rmtree (folder : string) : St Env unit :=
  fun env =>
    (Ok tt,
     with_files (filter (fun kv => String.prefix (folder ++ "/") (fst kv) = false) (files env)) env).

(** [Logger.logWarning] *)
Definition logWarning (msg : string) : St Env unit :=
  fun env =>
    (Ok tt, {| files := files env; readonly := readonly env; foreign := foreign env;
               warnings := msg :: warnings env |}).

(** [try: body / except Exception: handler] *)
Definition try_except {A : Type} (body : St Env A) (handler : exn -> St Env A) : St Env A :=
  fun env =>
    match body env with
    | (Ok a, env') => (Ok a, env')
    | (Raise e, env') => handler e env'
    end.

End Host.

(** ** [Utils.convertCsvFileToJsonFile] *)

Module Csv.
Import Py Host.

(** [for row in csvReader: jsonArray.append(row)] *)
Definition collectRows (rows : list (list string)) : list (list string) :=
  fold_left (fun jsonArray row => (jsonArray ++ [row])%list) rows [].

(** The warning of the [except] clause up to the text of the exception:
    the code logs [f'convertCsvFileToJson failed: {errMsg}'], and the text
    of an [OSError] is the operating system's. *)
Definition convertFailedMsg : string := "convertCsvFileToJson failed".

Definition convertCsvFileToJsonFile `{Runtime} (csvFilePath jsonFilePath : string)
  : St Env bool :=
  text <~ read_file csvFilePath ;;
  let jsonArray := collectRows (csv_rows text) in
  try_except
    (_ <~ write_file jsonFilePath (json_dumps jsonArray) ;;
     _ <~ chmod jsonFilePath ;;
     ret true)
    (fun _ =>
       _ <~ logWarning convertFailedMsg ;;
       ret false).

End Csv.

(** ** Artifact retrieval: [MW.getPDFreport], [MW.getCSVs], [MW.getCapturedLogs] *)

Module Artifacts.
Import Py Host.

(** The response of [GET resultUrl]. *)
Record Download : Type := {
  content : string;
  headers : list (string * string)
}.

(** The middleware's side of one retrieval: the outcome of [getTestId],
    the status code of the generate request, the ['state'] of the [n]-th
    poll of the operation ([None] when the key is absent) and the
    download behind ['resultUrl']. *)
Record Operation : Type := {
  testId_reply : result string;
  generate_code : Z;
  states : nat -> option string;
  download : Download
}.

(** The fields of the [MW] object the file names are built from. *)
Record Names : Type := {
  testcaseResultsFolder : string;
  testcaseName : string
}.

(** How the [while wait > 0] loop of the three operations ends: ['SUCCESS']
    read at some poll, ['ERROR'] read, the budget used up, an exception,
    or [fuel] rounds not being enough. *)
Inductive Polled : Type :=
| Succeeded (poll : nat)
| Errored
| Expired (wait : Z)
| Broke (e : exn)
| Unfinished.

(** The same loop stands in the three operations (lines 1592 to 1606,
    1641 to 1655, 1746 to 1760). *)
Fixpoint pollOperation (fuel : nat) (states : nat -> option string) (wait : Z) (n : nat)
  : Polled :=
  match fuel with
  | O => if 0 <? wait then Unfinished else Expired wait
  | S fuel' =>
      if 0 <? wait then
        match states n with
        | None => Broke (KeyError "state")
        | Some s =>
            if String.eqb s "SUCCESS" then Succeeded n
            else if String.eqb s "ERROR" then Errored
            else pollOperation fuel' states (wait - 5) (S n)
        end
      else Expired wait
  end.

(** [f'{wait}'] for the integer left of the budget. *)
Definition str (wait : Z) : string := NilZero.string_of_int (Z.to_int wait).

Definition warnPdfPost : string := "getPDFreport failed to get from LoadCore middleware".
Definition warnPdfError : string := "getPDFreport: Could not get the pdf report".
Definition warnPdfWait (wait : Z) : string :=
  "GetPDFreport: Failed to download the pdf report after " ++ str wait
  ++ " seconds. Try increasing the wait time.".

(** [getPDFreport(wait=120, statusCode=202)]; [Some None] is the Python
    [None], and the outer [None] tells that the loop was not run to its
    end. *)
Definition getPDFreport (W : Operation) (mw : Names) (wait statusCode : Z)
  : St Env (option (option string)) :=
  testID <~ lift (testId_reply W) ;;
  if negb (generate_code W =? statusCode) then
    _ <~ logWarning warnPdfPost ;; ret (Some None)
  else
    match pollOperation (Z.to_nat wait) (states W) wait 0 with
    | Unfinished => ret None
    | Broke e => raise e
    | Errored => _ <~ logWarning warnPdfError ;; ret (Some None)
    | Expired wait' => _ <~ logWarning (warnPdfWait wait') ;; ret (Some None)
    | Succeeded _ =>
        let filename := testcaseResultsFolder mw ++ "/" ++ testcaseName mw ++ ".pdf" in
        _ <~ write_file filename (content (download W)) ;;
        _ <~ chmod filename ;;
        ret (Some (Some filename))
    end.

Definition dquote : string := String "034"%char EmptyString.

Definition warnLogsPost : string := "getCapturedLogs: Failed to get from LoadCore middleware".
Definition warnLogsError : string := "getCapturedLogs: Could not get the captures/logs archive".
Definition warnLogsWait (wait : Z) : string :=
  "getCapturedLogs: Failed to download the capture and log report after " ++ str wait
  ++ " seconds. Try increasing the timeout value.".

(** [getCapturedLogs(wait=120, statusCode=202)] *)
Definition getCapturedLogs (W : Operation) (mw : Names) (wait statusCode : Z)
  : St Env (option (option string)) :=
  testID <~ lift (testId_reply W) ;;
  if negb (generate_code W =? statusCode) then
    _ <~ logWarning warnLogsPost ;; ret (Some None)
  else
    match pollOperation (Z.to_nat wait) (states W) wait 0 with
    | Unfinished => ret None
    | Broke e => raise e
    | Errored => _ <~ logWarning warnLogsError ;; ret (Some None)
    | Expired wait' => _ <~ logWarning (warnLogsWait wait') ;; ret (Some None)
    | Succeeded _ =>
        disposition <~ lift (of_option (KeyError "Content-Disposition")
                               (dict_get "Content-Disposition" (headers (download W)))) ;;
        part <~ lift (index (split "=" disposition) 1) ;;
        let filename :=
          testcaseResultsFolder mw ++ "/" ++ testcaseName mw ++ "-"
          ++ replace dquote EmptyString part in
        _ <~ write_file filename (content (download W)) ;;
        _ <~ chmod filename ;;
        ret (Some (Some filename))
    end.

(** The argument [csvFilesToGet]: the string ['all'] by default, a list
    of stat names when [runTestcase] calls. *)
Inductive CsvFilter : Type :=
| FilterStr (s : string)
| FilterList (l : list string).

(** [currentFilename in csvFilesToGet] *)
Definition selected (currentFilename : string) (csvFilesToGet : CsvFilter) : bool :=
  match csvFilesToGet with
  | FilterStr s => contains currentFilename s
  | FilterList l => existsb (String.eqb currentFilename) l
  end.

(** [l[-1]] *)
Definition last_item (l : list string) : result string :=
  of_option IndexError (List.last (map Some l) None).

(** Body of [for eachCsvFile in os.listdir(testcaseCsvFolder)] (lines 1696
    to 1725).  The two folders are bound only when [convertCsvToJson] is
    true. *)
Definition convertOne `{Runtime} (testcaseCsvFolder : string)
  (allKpiJsonFolder testcaseJsonFolder : option string) (csvFilesToGet : CsvFilter)
  (eachCsvFile : string) : St Env unit :=
  if negb (contains ".csv" eachCsvFile) then ret tt
  else
    currentFilename <~ lift (index (split ".csv" eachCsvFile) 0) ;;
    renamedFile <~ lift (last_item (split "Fullcore" eachCsvFile)) ;;
    let renamedFilePath := testcaseCsvFolder ++ "/" ++ renamedFile in
    _ <~ rename (testcaseCsvFolder ++ "/" ++ eachCsvFile) renamedFilePath ;;
    folder <~ lift (of_option (UnboundLocalError "allKpiJsonFolder") allKpiJsonFolder) ;;
    let renamedToJsonExtension := replace ".csv" ".json" (folder ++ "/" ++ renamedFile) in
    converted <~ Csv.convertCsvFileToJsonFile renamedFilePath renamedToJsonExtension ;;
    if negb converted then ret tt
    else
      _ <~ chmod renamedToJsonExtension ;;
      if selected currentFilename csvFilesToGet then
        size <~ getsize renamedFilePath ;;
        if Nat.eqb size 0 then ret tt
        else
          folder' <~ lift (of_option (UnboundLocalError "testcaseJsonFolder")
                             testcaseJsonFolder) ;;
          let renamedToJsonExtension' :=
            replace ".csv" ".json" (folder' ++ "/" ++ renamedFile) in
          _ <~ Csv.convertCsvFileToJsonFile renamedFilePath renamedToJsonExtension' ;;
          chmod renamedToJsonExtension'
      else ret tt.

(** [ZipFile(filename).extractall(folder)] *)
Definition extractall `{Runtime} (filename folder : string) : St Env (list string) :=
  archive <~ read_file filename ;;
  members <~ lift (of_option OSError (zip_members archive)) ;;
  _ <~ sfor (fun m => write_file (folder ++ "/" ++ fst m) (snd m)) members ;;
  ret (map fst members).

Definition warnCsvPost : string := "getCSVs: Failed to get from LoadCore middleware".
Definition warnCsvError : string := "getCSV: Could not get the results archive".
Definition warnCsvWait (wait : Z) : string :=
  "getCSVs: Failed to download the csv report after " ++ str wait
  ++ " seconds. Try increasing the wait time.".

(** [getCSVs(csvFilesToGet='all', convertCsvToJson=False, wait=180,
    statusCode=202)].  The folder [CSV] is made by this call, so
    [os.listdir] gives the extracted members. *)
Definition getCSVs `{Runtime} (W : Operation) (mw : Names) (csvFilesToGet : CsvFilter)
  (convertCsvToJson : bool) (wait statusCode : Z) : St Env (option (option string)) :=
  testID <~ lift (testId_reply W) ;;
  if negb (generate_code W =? statusCode) then
    _ <~ logWarning warnCsvPost ;; ret (Some None)
  else
    match pollOperation (Z.to_nat wait) (states W) wait 0 with
    | Unfinished => ret None
    | Broke e => raise e
    | Errored => _ <~ logWarning warnCsvError ;; ret (Some None)
    | Expired wait' => _ <~ logWarning (warnCsvWait wait') ;; ret (Some None)
    | Succeeded _ =>
        csvHeaders <~ lift (of_option (KeyError "Content-Disposition")
                              (dict_get "Content-Disposition" (headers (download W)))) ;;
        let filename := testcaseResultsFolder mw ++ "/" ++ testcaseName mw ++ "_csv.zip" in
        _ <~ write_file filename (content (download W)) ;;
        _ <~ chmod filename ;;
        let testcaseCsvFolder := testcaseResultsFolder mw ++ "/CSV" in
        listing <~ extractall filename testcaseCsvFolder ;;
        let allKpiJsonFolder :=
          if convertCsvToJson then Some (testcaseResultsFolder mw ++ "/JSON_KPIs") else None in
        let testcaseJsonFolder :=
          if convertCsvToJson then Some (testcaseResultsFolder mw ++ "/JSON_KPIResults")
          else None in
        _ <~ sfor (convertOne testcaseCsvFolder allKpiJsonFolder testcaseJsonFolder
                     csvFilesToGet) listing ;;
        _ <~ rmtree testcaseCsvFolder ;;
        ret (Some (Some filename))
    end.

End Artifacts.

(** ** The state of the session: [MW.checkSessionState],
    [MW.getSessionStatus], [MW.getTestDuration], [MW.modifySessionState]
    and [Main.verifySessionForStoppedState] *)

Module Session.
Import Py.

(** The JSON values ['status'] is compared with: a string, a boolean or
    null. *)
Inductive Json : Type :=
| JStr (s : string)
| JBool (b : bool)
| JNull.

(** [v == s] for a string [s] *)
Definition is_str (v : Json) (s : string) : bool :=
  match v with
  | JStr t => String.eqb t s
  | _ => false
  end.

(** [v == False] *)
Definition is_false (v : Json) : bool :=
  match v with
  | JBool false => true
  | _ => false
  end.

(** [f'{v}'] *)
Definition str_of (v : Json) : string :=
  match v with
  | JStr s => s
  | JBool true => "True"
  | JBool false => "False"
  | JNull => "None"
  end.

(** [response.json()] of [GET /api/v2/sessions/<id>/test]; a key the
    middleware left out is [None]. *)
Record TestJson : Type := {
  status : option Json;
  testDuration : option Z
}.

(** What a GET of that URL gives: a response with its status code, the
    built-in [ConnectionError], or another exception. *)
Inductive Reply : Type :=
| Answer (code : Z) (json : TestJson)
| ConnectionError
| Failure (e : exn).

(** The middleware: the reply to the [n]-th GET of the test URL and the
    status code of a PATCH of it. *)
Record Server : Type := {
  test_reply : nat -> Reply;
  patch_code : Z
}.

Inductive Event : Type :=
| GetTest
| Sleep (secs : Z)
| PatchStatus (state : string).

(** The number of GETs made so far and the trace of the calls, the most
    recent first. *)
Record MW : Type := {
  gets : nat;
  trace : list Event
}.

(** [self.get('/api/v2/sessions/{0}/test')] *)
Definition get (W : Server) : St MW Reply :=
  fun s => (Ok (test_reply W (gets s)), {| gets := S (gets s); trace := GetTest :: trace s |}).

(** [time.sleep(secs)] *)
Definition sleep (secs : Z) : St MW unit :=
  fun s => (Ok tt, {| gets := gets s; trace := Sleep secs :: trace s |}).

(** A reply where no handler stands: [ConnectionError] is an [OSError]. *)
Definition response (r : Reply) : result (Z * TestJson) :=
  match r with
  | Answer code json => Ok (code, json)
  | ConnectionError => Raise OSError
  | Failure e => Raise e
  end.

(** [testResponse.json()['status']] *)
Definition key_status (j : TestJson) : result Json :=
  of_option (KeyError "status") (status j).

(** The [while elapsedTime < waitTime and ... != status] loop of
    [checkSessionState] (lines 941 to 948); it gives the last
    [testResponse], and [None] when [fuel] rounds were not enough. *)
Fixpoint waitLoop (fuel : nat) (W : Server) (status : string) (waitTime elapsedTime : Z)
  (testResponse : TestJson) : St MW (option TestJson) :=
  match fuel with
  | O => ret None
  | S fuel' =>
      if elapsedTime <? waitTime then
        v <~ lift (key_status testResponse) ;;
        if is_str v status then ret (Some testResponse)
        else
          r <~ get W ;;
          match r with
          | ConnectionError => ret (Some testResponse)
          | Failure e => raise e
          | Answer _ json =>
              _ <~ sleep 5 ;;
              waitLoop fuel' W status waitTime (elapsedTime + 5) json
          end
      else ret (Some testResponse)
  end.

Definition failedToStart : string := "The test failed to start".

(** [checkSessionState(status, waitTime=300)] *)
Definition checkSessionState (W : Server) (status : string) (waitTime : Z)
  : St MW (option bool) :=
  r <~ get W ;;
  first <~ lift (response r) ;;
  final <~ waitLoop (S (Z.to_nat waitTime)) W status waitTime 0 (snd first) ;;
  match final with
  | None => ret None
  | Some testResponse =>
      v <~ lift (key_status testResponse) ;;
      if is_false v then raise (AbortTest failedToStart)
      else ret (Some (is_str v status))
  end.

(** [getSessionStatus()] *)
Definition getSessionStatus (W : Server) : St MW Json :=
  r <~ get W ;;
  a <~ lift (response r) ;;
  if fst a =? 200 then lift (key_status (snd a)) else raise AssertionError.

(** [getTestDuration(multiplier=2)] *)
Definition getTestDuration (W : Server) (multiplier : Z) : St MW Z :=
  r <~ get W ;;
  a <~ lift (response r) ;;
  if fst a =? 200 then
    d <~ lift (of_option (KeyError "testDuration") (testDuration (snd a))) ;;
    ret (d * multiplier)
  else raise AssertionError.

(** [modifySessionState(state='STOPPED')] *)
Definition modifySessionState (W : Server) (state : string) : St MW unit :=
  fun s =>
    (if patch_code W =? 204 then Ok tt
     else Raise (AbortTest ("Failed to modify session state: " ++ state)),
     {| gets := gets s; trace := PatchStatus state :: trace s |}).

Definition stuckMsg (v : Json) : string :=
  "LoadCore is stuck in status: " ++ str_of v
  ++ ". It will not be able to run anymore testing.  Please go troubleshoot LoadCore to find out why the session is stuck in status "
  ++ str_of v ++ ".".

(** [Main.verifySessionForStoppedState()]; [None] when a wait was not run
    to its end. *)
Definition verifySessionForStoppedState (W : Server) : St MW (option unit) :=
  waitTime <~ getTestDuration W 2 ;;
  waited <~ checkSessionState W "STOPPED" waitTime ;;
  match waited with
  | None => ret None
  | Some _ =>
      loadCoreCurrentStatus <~ getSessionStatus W ;;
      recovered <~
        (if is_str loadCoreCurrentStatus "STOPPING" then
           _ <~ modifySessionState W "STOPPED" ;;
           waited' <~ checkSessionState W "STOPPED" 60 ;;
           match waited' with
           | None => ret None
           | Some _ => v <~ getSessionStatus W ;; ret (Some v)
           end
         else ret (Some loadCoreCurrentStatus)) ;;
      match recovered with
      | None => ret None
      | Some v =>
          if is_str v "STOPPED" then ret (Some tt) else raise (AbortTest (stuckMsg v))
      end
  end.

End Session.

(** ** [MW.stopTest] *)

Module Stop.
Import Py.
Import StartTest (StateJson, state, message).

(** The response of the POST of the stop operation: its status code and
    the ['id'] of its JSON ([None] when the key is absent). *)
Record Posted : Type := {
  stop_code : Z;
  stop_id : option string
}.

(** A poll of the stop operation: the JSON of its state, or an exception
    raised by the GET or by reading its JSON. *)
Inductive Poll : Type :=
| Polled (st : StateJson)
| PollRaises.

Record Server : Type := {
  posted : Posted;
  poll : nat -> Poll
}.

Inductive Event : Type :=
| PostStop
| GetStop (n : nat)
| Sleep (secs : Z).

(** What [stopTest] returns: [state.json()] of a poll, or
    [response.json()] of the POST. *)
Inductive Returned : Type :=
| StateOfPoll (st : StateJson)
| JsonOfPost (p : Posted).

(** A call, recorded in the trace (the most recent first). *)
Definition emit (ev : Event) : St (list Event) unit := fun tr => (Ok tt, ev :: tr).

Definition failedToStop : string := "Test failed to stop".

(** Lines 920 and 921, reached by [break]. *)
Definition afterBreak {A : Type} (st : StateJson) : St (list Event) A :=
  match state st, message st with
  | None, _ => raise (KeyError "state")
  | Some _, None => raise (KeyError "message")
  | Some s, Some m => raise (AbortTest ("State: " ++ s ++ " - Error MSG: " ++ m))
  end.

(** The [while wait > 0: try: ... except: return response.json()] loop
    with its [else] clause; [None] when [fuel] rounds were not enough. *)
Fixpoint stopLoop (fuel : nat) (W : Server) (result : string) (wait : Z) (n : nat)
  : St (list Event) (option Returned) :=
  match fuel with
  | O => ret None
  | S fuel' =>
      if 0 <? wait then
        _ <~ emit (GetStop n) ;;
        match poll W n with
        | PollRaises => ret (Some (JsonOfPost (posted W)))
        | Polled st =>
            match state st with
            | None => ret (Some (JsonOfPost (posted W)))
            | Some s =>
                if String.eqb s result then ret (Some (StateOfPoll st))
                else if String.eqb s "ERROR" then afterBreak st
                else
                  _ <~ emit (Sleep 2) ;;
                  stopLoop fuel' W result (wait - 1) (S n)
            end
        end
      else raise (AbortTest failedToStop)
  end.

(** [stopTest(result='SUCCESS', wait=40, statusCode=202)] *)
Definition stopTest (W : Server) (result : string) (wait statusCode : Z)
  : St (list Event) (option Returned) :=
  _ <~ emit PostStop ;;
  if stop_code (posted W) =? statusCode then
    _ <~ lift (of_option (KeyError "id") (stop_id (posted W))) ;;
    stopLoop (S (Z.to_nat wait)) W result wait 0
  else raise AssertionError.

End Stop.

(** ** [MW.deleteSession] and [MW.getAllSessions] *)

Module Sessions.
Import Py.

(** The middleware: the status code of the DELETE, and the status code
    and the items of the list of sessions, each with its ['id'] ([None]
    when the key is absent). *)
Record Server : Type := {
  delete_code : Z;
  list_code : Z;
  listed : list (option string)
}.

Inductive Event : Type :=
| Delete (sessionId : string)
| GetSessions.

(** What [deleteSession] returns: [None], the response of the DELETE, or
    its status code alone. *)
Inductive Returned : Type :=
| NoSession
| TheResponse (code : Z)
| TheCode (code : Z).

Definition emit (ev : Event) : St (list Event) unit := fun tr => (Ok tt, ev :: tr).

(** [getAllSessions()] *)
Definition getAllSessions (W : Server) : St (list Event) (list string) :=
  _ <~ emit GetSessions ;;
  if list_code W =? 200 then
    lift (for_each
            (fun sessions item =>
               id <- of_option (KeyError "id") item ;;
               Ok (sessions ++ [id])%list)
            (listed W) [])
  else raise AssertionError.

(** [str(code)] *)
Definition str (code : Z) : string := NilZero.string_of_int (Z.to_int code).

(** [assert (True if self.sessionId not in self.getAllSessions() else False)] *)
Definition assertGone (W : Server) (sessionId : string) : St (list Event) unit :=
  sessions <~ getAllSessions W ;;
  if existsb (String.eqb sessionId) sessions then raise AssertionError else ret tt.

(** [deleteSession(statusCode=204)] for the value of [self.sessionId]. *)
Definition deleteSession (W : Server) (sessionId : option string) (statusCode : Z)
  : St (list Event) Returned :=
  match sessionId with
  | None => ret NoSession
  | Some id =>
      _ <~ emit (Delete id) ;;
      if delete_code W =? statusCode then
        if contains "200" (str (delete_code W)) then
          _ <~ assertGone W id ;; ret (TheResponse (delete_code W))
        else if contains "204" (str (delete_code W)) then
          _ <~ assertGone W id ;; ret (TheResponse (delete_code W))
        else ret (TheCode (delete_code W))
      else raise AssertionError
  end.

End Sessions.

(** ** [MW.rebootAgents], with [MW.getAllAgents] and [MW.getAgentInfo] *)

Module Reboot.
Import Py.

(** [response] of [GET /api/v2/agents/<id>]: the status code and the
    keys of the JSON that are read ([None] when absent). *)
Record AgentReply : Type := {
  info_code : Z;
  info_message : option string;
  info_id : option string;
  info_IP : option string
}.

(** An item of [envParams['agents']]: a string, or a value no string is
    equal to. *)
Inductive EnvAgent : Type :=
| EnvIp (ip : string)
| EnvEntry.

(** The middleware and the environment as [rebootAgents] sees them: the
    list of agents (status code, ['message'], the ['id'] of each item),
    the reply for each agent, [envParams.get('agents')], the response of
    the reboot request (status code, ['message'], ['id']), the ['state']
    of the [n]-th poll of the reboot operation, and the outcome of
    [verifyAllAgentsStatusUp()]: whether what it returns equals [True],
    or the exception it raises. *)
Record Server : Type := {
  agents_code : Z;
  agents_message : option string;
  agents : list (option string);
  agent_reply : string -> AgentReply;
  envAgents : option (list EnvAgent);
  reboot_code : Z;
  reboot_message : option string;
  reboot_id : option string;
  reboot_state : nat -> option string;
  verifyAllAgentsStatusUp : result bool
}.

Inductive Event : Type :=
| GetAgents
| GetAgent (agentId : string)
| PostReboot (agentIdList : list string)
| GetReboot (n : nat)
| Sleep (secs : Z)
| VerifyAllAgentsStatusUp.

Definition emit (ev : Event) : St (list Event) unit := fun tr => (Ok tt, ev :: tr).

(** [logError(f'<what> failed: {response.json()["message"]}')] *)
Definition failed {A : Type} (what : string) (message : option string) : St (list Event) A :=
  match message with
  | None => raise (KeyError "message")
  | Some m => raise (AbortTest (what ++ m))
  end.

(** [getAllAgents()] *)
Definition getAllAgents (W : Server) : St (list Event) (list (option string)) :=
  _ <~ emit GetAgents ;;
  if negb (agents_code W =? 200) then failed "getAllAgents failed: " (agents_message W)
  else ret (agents W).

(** [getAgentInfo(agentID)]; [None] is the Python [None]. *)
Definition getAgentInfo (W : Server) (agentID : string) : St (list Event) (option AgentReply) :=
  _ <~ emit (GetAgent agentID) ;;
  let response := agent_reply W agentID in
  if negb (info_code response =? 200) then failed "getAgentInfo failed: " (info_message response)
  else
    id <~ lift (of_option (KeyError "id") (info_id response)) ;;
    if (0 <? String.length id)%nat then ret (Some response) else ret None.

(** [agentIp in envParams['agents']] *)
Definition in_env (agentIp : string) (l : list EnvAgent) : bool :=
  existsb (fun a => match a with EnvIp ip => String.eqb agentIp ip | EnvEntry => false end) l.

(** Body of [for agent in allAgentInfo] (lines 613 to 620). *)
Definition listAgent (W : Server) (agentIdList : list string) (agent : option string)
  : St (list Event) (list string) :=
  agentId <~ lift (of_option (KeyError "id") agent) ;;
  agentInfo <~ getAgentInfo W agentId ;;
  match agentInfo with
  | None => raise TypeError
  | Some info =>
      agentIp <~ lift (of_option (KeyError "IP") (info_IP info)) ;;
      match envAgents W with
      | Some l => if in_env agentIp l then ret (agentIdList ++ [agentId])%list
                  else ret agentIdList
      | None => ret agentIdList
      end
  end.

Fixpoint listAgents (W : Server) (allAgentInfo : list (option string))
  (agentIdList : list string) : St (list Event) (list string) :=
  match allAgentInfo with
  | [] => ret agentIdList
  | agent :: rest =>
      l <~ listAgent W agentIdList agent ;;
      listAgents W rest l
  end.

(** The [while True] loop (lines 632 to 650); [None] when [fuel] passes
    were not enough. *)
Fixpoint rebootLoop (fuel : nat) (W : Server) (counter : Z) (n : nat)
  : St (list Event) (option unit) :=
  match fuel with
  | O => ret None
  | S fuel' =>
      _ <~ emit (GetReboot n) ;;
      status <~ lift (of_option (KeyError "state") (reboot_state W n)) ;;
      counter' <~
        (if (counter <? 160) && negb (String.eqb status "SUCCESS") then
           _ <~ emit (Sleep 1) ;; ret (counter + 1)
         else ret counter) ;;
      if (counter' <? 160) && String.eqb status "SUCCESS" then ret (Some tt)
      else if (counter' =? 160) && negb (String.eqb status "SUCCESS") then
        _ <~ emit VerifyAllAgentsStatusUp ;;
        up <~ lift (verifyAllAgentsStatusUp W) ;;
        if (up : bool) then ret (Some tt) else rebootLoop fuel' W counter' (S n)
      else rebootLoop fuel' W counter' (S n)
  end.

Definition rebootFailedMsg (code : Z) : string :=
  "Rebooting agents failed on LoadCore MW with status code "
  ++ NilZero.string_of_int (Z.to_int code) ++ ": ".

(** [rebootAgents(agentIdList=None)] run for [fuel] passes of its loop. *)
Definition rebootAgents (fuel : nat) (W : Server) (agentIdList : option (list string))
  : St (list Event) (option unit) :=
  agentIdList <~
    match agentIdList with
    | Some l => ret l
    | None =>
        allAgentInfo <~ getAllAgents W ;;
        listAgents W allAgentInfo []
    end ;;
  _ <~ emit (PostReboot agentIdList) ;;
  if negb (reboot_code W =? 202) then failed (rebootFailedMsg (reboot_code W)) (reboot_message W)
  else
    _ <~ lift (of_option (KeyError "id") (reboot_id W)) ;;
    rebootLoop fuel W 0 0.

End Reboot.

(** ** [LoadCoreLicense.checkForLicenses] *)

Module License.
Import Py.

(** A count of the license server's JSON, as [int()] receives it. *)
Inductive Count : Type :=
| CountInt (z : Z)
| CountStr (s : string).

Definition int_of (c : Count) : result Z :=
  match c with
  | CountInt z => Ok z
  | CountStr s => int s
  end.

(** One item of [payload.floatingFeatureStats]; a key the server left
    out is [None]. *)
Record Feature : Type := {
  featureName : option string;
  availableCount : option Count;
  installedCount : option Count
}.

(** The response of [getLicenseDetails()]: its status code and the list
    under [payload.floatingFeatureStats] ([None] when the JSON has no
    such list). *)
Record Response : Type := {
  status_code : Z;
  floatingFeatureStats : option (list Feature)
}.

(** One item of the list returned. *)
Record Failure : Type := {
  RequiredLicenseFeatureName : string;
  RequiredCount : Z;
  failure_availableCount : Z;
  failure_installedCount : Z
}.

(** Body of [for eachLicense in ...] (lines 365 to 373). *)
Definition checkLicense (licenseFeatureName : string) (requiredLicenseCount : Z)
  (licenseFailures : list Failure) (eachLicense : Feature) : result (list Failure) :=
  name <- of_option (KeyError "featureName") (featureName eachLicense) ;;
  if String.eqb name licenseFeatureName then
    a <- of_option (KeyError "availableCount") (availableCount eachLicense) ;;
    available <- int_of a ;;
    i <- of_option (KeyError "installedCount") (installedCount eachLicense) ;;
    installed <- int_of i ;;
    if available =? 0 then
      Ok (licenseFailures
          ++ [{| RequiredLicenseFeatureName := licenseFeatureName;
                 RequiredCount := requiredLicenseCount;
                 failure_availableCount := available;
                 failure_installedCount := installed |}])%list
    else Ok licenseFailures
  else Ok licenseFailures.

(** Body of [for eachRequiredLicense in requiredLicenses]: the name and
    the count are the first key and the first value of the dictionary. *)
Definition checkRequired (response : Response) (licenseFailures : list Failure)
  (eachRequiredLicense : list (string * Z)) : result (list Failure) :=
  first <- index eachRequiredLicense 0 ;;
  stats <- of_option (KeyError "payload") (floatingFeatureStats response) ;;
  for_each (checkLicense (fst first) (snd first)) stats licenseFailures.

(** [checkForLicenses(requiredLicenses)] on the response
    [getLicenseDetails()] returned; [requiredLicenses] is [None] for the
    Python [None]. *)
Definition checkForLicenses (response : Response)
  (requiredLicenses : option (list (list (string * Z)))) : result (list Failure) :=
  match requiredLicenses with
  | Some (lic :: rest) =>
      if status_code response =? 200 then for_each (checkRequired response) (lic :: rest) []
      else Ok []
  | _ => Ok []
  end.

End License.

(** ** [MW.getAvgNonZeroStat] *)

Module Average.
Import Py.

(** What the method returns: the [int] zero or a [float]. *)
Inductive Number : Type :=
| IntOf (z : Z)
| FloatOf (f : float).

(** [i != 0] *)
Definition nonzero (i : float) : bool := negb (PrimFloat.eqb i 0).

(** [len(statList)] as the float the division converts it to. *)
Definition float_of_len {A : Type} (l : list A) : float :=
  PrimFloat.of_uint63 (Uint63.of_Z (Z.of_nat (length l))).

(** [getAvgNonZeroStat(stat)]; [round2] is the built-in [round(x, 2)]. *)
Definition getAvgNonZeroStat (round2 : float -> float) (stat : list float) : Number :=
  let statList :=
    fold_left (fun statList i => if nonzero i then (statList ++ [i])%list else statList)
      stat [] in
  if Nat.eqb (length statList) 0 then IntOf 0
  else FloatOf (round2 (PrimFloat.div (sum statList) (float_of_len statList))).

End Average.

(** ** [Utils.waitForState] *)

Module Wait.
Import Py.

Inductive Event : Type :=
| LogError (msg : string)
| Sleep (secs : float).

(** The literal [0.2], the binary64 number nearest to 1/5. *)
Definition tick : float := 0x1.999999999999ap-3%float.

(** ['Utils:waitForState: %s != %s'.format(what, equalToWhat)]: the
    text has no replacement field, so [format] returns it as it is. *)
Definition differMsg : string := "Utils:waitForState: %s != %s".

Definition emit (ev : Event) : St (list Event) unit := fun tr => (Ok tt, ev :: tr).

(** [waitForState(what, equalToWhat, timeout)]: [logError] raises, the
    bare [except] takes the exception, shortens the timeout and sleeps.
    [None] when [fuel] passes were not enough. *)
Fixpoint waitForState (fuel : nat) (what equalToWhat : string) (timeout : float)
  : St (list Event) (option bool) :=
  match fuel with
  | O => ret None
  | S fuel' =>
      if PrimFloat.ltb 0 timeout then
        if negb (String.eqb what equalToWhat) then
          _ <~ emit (LogError differMsg) ;;
          _ <~ emit (Sleep tick) ;;
          waitForState fuel' what equalToWhat (PrimFloat.sub timeout tick)
        else ret (Some true)
      else ret (Some false)
  end.

End Wait.

(** ** The verification of the KPI results at the end of
    [Main.runTestcase] *)

Module Verdicts.
Import Py Kpi.

(** One item of [testcaseData['failures']] or [testcaseData['passed']]:
    [{csvResultFile: {kpi: f"Result=..  ExpectedValue..  MaxValue=.."}}],
    kept as the stat, the KPI and the entry whose three values the text
    is written from. *)
Record Report : Type := {
  report_stat : string;
  report_kpi : string;
  report_entry : Entry
}.

(** What the verification reads and writes: [mainObj.testcaseResult],
    [testcaseData['failures']], [testcaseData['passed']],
    [testcaseData['result']], [moduleSummaryData['result']] and the three
    [totalFailures] counters. *)
Record Summary : Type := {
  testcaseResult : string;
  failures : list Report;
  passed : list Report;
  testcaseDataResult : string;
  moduleResult : string;
  overallTotalFailures : Z;
  moduleTotalFailures : Z;
  testcaseTotalFailures : Z
}.

(** [values['result'] == text] *)
Definition result_is (text : string) (values : Entry) : bool :=
  match kpi_result values with
  | Some r => String.eqb r text
  | None => false
  end.

(** Body of [for kpi, values in values.items()] (lines 2117 to 2135). *)
Definition verifyEntry (csvResultFile : string) (s : Summary) (item : string * Entry)
  : Summary :=
  let report :=
    {| report_stat := csvResultFile; report_kpi := fst item; report_entry := snd item |} in
  let s1 :=
    if result_is "failed" (snd item) then
      {| testcaseResult := "Failed";
         failures := (failures s ++ [report])%list;
         passed := passed s;
         testcaseDataResult := "Failed";
         moduleResult :=
           if negb (String.eqb (moduleResult s) "Incomplete") then "Failed"
           else moduleResult s;
         overallTotalFailures := overallTotalFailures s + 1;
         moduleTotalFailures := moduleTotalFailures s + 1;
         testcaseTotalFailures := testcaseTotalFailures s + 1 |}
    else s in
  if result_is "passed" (snd item) then
    {| testcaseResult := testcaseResult s1;
       failures := failures s1;
       passed := (passed s1 ++ [report])%list;
       testcaseDataResult := testcaseDataResult s1;
       moduleResult := moduleResult s1;
       overallTotalFailures := overallTotalFailures s1;
       moduleTotalFailures := moduleTotalFailures s1;
       testcaseTotalFailures := testcaseTotalFailures s1 |}
  else s1.

(** Lines 2115 to 2137 over the items of [kpiStatTracker[testcase]], in
    the order of the two dictionaries. *)
Definition verifyKpiResults (items : list (string * list (string * Entry))) (s : Summary)
  : Summary :=
  let s' :=
    fold_left
      (fun acc stat => fold_left (verifyEntry (fst stat)) (snd stat) acc)
      items s in
  {| testcaseResult := testcaseResult s';
     failures := failures s';
     passed := passed s';
     testcaseDataResult := testcaseResult s';
     moduleResult := moduleResult s';
     overallTotalFailures := overallTotalFailures s';
     moduleTotalFailures := moduleTotalFailures s';
     testcaseTotalFailures := testcaseTotalFailures s' |}.

End Verdicts.

(** ** Agents and their interfaces: [MW.getAgentNodeID],
    [MW.getInterfaceMAC], [MW.getAgentInterfaces],
    [MW.getTopologyFromSessionConfig] and the helper [__create_Mappings]
    of [MW.assignAgents] *)

Module Agents.
Import Py.

(** An item of the list [getAgentsInfo()] returns. *)
Record Interface : Type := {
  Name : string;
  Mac : string
}.

Record AgentInfo : Type := {
  id : string;
  IP : string;
  Interfaces : list Interface
}.

(** [getAgentNodeID(agentsInfo, agentIP)]; [None] is the Python [None]. *)
Fixpoint getAgentNodeID (agentsInfo : list AgentInfo) (agentIP : string) : option string :=
  match agentsInfo with
  | [] => None
  | agent :: rest =>
      if String.eqb (IP agent) agentIP then Some (id agent)
      else getAgentNodeID rest agentIP
  end.

(** The inner loop of [getInterfaceMAC]. *)
Fixpoint macOf (interfaces : list Interface) (interfaceName : string) : option string :=
  match interfaces with
  | [] => None
  | interface :: rest =>
      if String.eqb (Name interface) interfaceName then Some (Mac interface)
      else macOf rest interfaceName
  end.

(** [getInterfaceMAC(agentsInfo, agentIP, interfaceName)] *)
Fixpoint getInterfaceMAC (agentsInfo : list AgentInfo) (agentIP interfaceName : string)
  : option string :=
  match agentsInfo with
  | [] => None
  | agent :: rest =>
      if String.eqb (IP agent) agentIP then
        match macOf (Interfaces agent) interfaceName with
        | Some mac => Some mac
        | None => getInterfaceMAC rest agentIP interfaceName
        end
      else getInterfaceMAC rest agentIP interfaceName
  end.

(** [getAgentInterfaces(agentsInfo, agentIP)] *)
Fixpoint getAgentInterfaces (agentsInfo : list AgentInfo) (agentIP : string)
  : option (list Interface) :=
  match agentsInfo with
  | [] => None
  | agent :: rest =>
      if String.eqb (IP agent) agentIP then Some (Interfaces agent)
      else getAgentInterfaces rest agentIP
  end.

(** [getTopologyFromSessionConfig(config)] for the value of
    [config.get('ConfigType')]. *)
Definition getTopologyFromSessionConfig (ConfigType : option string) : result (option string) :=
  category <- of_option (KeyError "ConfigType") ConfigType ;;
  if String.eqb category "Full Core" then Ok (Some "Config")
  else if String.eqb category "SBA" then Ok (Some "sbaConfig")
  else if String.eqb category "UPF Isolation" then Ok (Some "upfIsolationConfig")
  else if String.eqb category "iRAT" then Ok (Some "IRATConfig")
  else Ok None.

Definition defaultFullcoreDict : list (string * list string) :=
  [ ("amf", ["n2"; "namf"; "n26"]); ("ausf", ["nausf"]); ("dn", ["n6"]);
    ("eir", ["n5geir"]); ("ims", ["n6"; "rx"]); ("mediaforwarder", ["n6"]); ("mme", []);
    ("nrf", ["nnrf"]); ("nssf", ["nnssf"]); ("pcf", ["npcf"; "rx"]);
    ("ran", ["n2"; "n3"; "passthroughDevice"; "s1u"; "n26"; "s6a"; "s5c"; "s5u"; "s11"; "s1"]);
    ("sgw", []); ("smf", ["n4"; "nsmf"; "s5c"; "s11"]); ("smsf", ["nsmsf"]);
    ("udm", ["nudm"; "s6a"]); ("udr", ["nudr"]); ("upf", ["n3"; "n4"; "n6"; "n9"]);
    ("sbaTester", ["namf"; "nsmf"; "npcf"]); ("chf", ["nchf"]) ].

Definition defaultSBATesterDict : list (string * list string) :=
  [ ("ausf", ["nausf"]); ("nrf", ["nnrf"]); ("nssf", ["nnssf"]); ("pcf", ["npcf"]);
    ("udm", ["nudm"]); ("udr", ["nudr"]); ("sbaTester", ["namf"; "nsmf"; "npcf"]);
    ("chf", ["nchf"]) ].

(** An item of [interfaceMappings]; the MAC is [None] for a Python
    [None]. *)
Record Mapping : Type := {
  agentInterface : string;
  agentInterfaceMac : option string;
  nodeInterface : string
}.

(** [networkSettings]: a dictionary from the id of an agent (which is
    [None] for an unknown address) to the list of its test interfaces,
    in insertion order. *)
Definition NetworkSettings : Type := list (option string * list string).

Definition key_eqb (a b : option string) : bool :=
  match a, b with
  | Some x, Some y => String.eqb x y
  | None, None => true
  | _, _ => false
  end.

Fixpoint ns_get (k : option string) (d : NetworkSettings) : option (list string) :=
  match d with
  | [] => None
  | (k', v) :: r => if key_eqb k k' then Some v else ns_get k r
  end.

Fixpoint ns_set (k : option string) (v : list string) (d : NetworkSettings) : NetworkSettings :=
  match d with
  | [] => [(k, v)]
  | (k', v') :: r => if key_eqb k k' then (k, v) :: r else (k', v') :: ns_set k v r
  end.

(** [interface == 'passthroughDevice' or (node == 'upf' and interface == 'n6')] *)
Definition unmapped (node interface : string) : bool :=
  String.eqb interface "passthroughDevice"
  || (String.eqb node "upf" && String.eqb interface "n6").

(** Body of [for interface in defaultDict[node]] (lines 1293 to 1304). *)
Definition mapInterface (agentsInfo : list AgentInfo) (node agentIP testInterface : string)
  (AgentNodeID : option string) (st : list Mapping * NetworkSettings) (interface : string)
  : result (list Mapping * NetworkSettings) :=
  let agentInterface := if unmapped node interface then "none" else testInterface in
  let agentInterfaceMac :=
    if unmapped node interface then Some "none"
    else getInterfaceMAC agentsInfo agentIP testInterface in
  let interfaceMappings :=
    (fst st ++ [{| agentInterface := agentInterface;
                   agentInterfaceMac := agentInterfaceMac;
                   nodeInterface := interface |}])%list in
  current <- of_option (KeyError "AgentNodeID") (ns_get AgentNodeID (snd st)) ;;
  if negb (existsb (String.eqb agentInterface) current)
     && negb (String.eqb agentInterface "none")
  then Ok (interfaceMappings, ns_set AgentNodeID (current ++ [agentInterface])%list (snd st))
  else Ok (interfaceMappings, snd st).

(** The helper [__create_Mappings(agentsInfo, agentIP, testInterface,
    networkSettings)] of [assignAgents], with the variables of the
    enclosing call it reads: [config], [node] and [interfaceMappings].
    It gives the triple it returns and the dictionary as it leaves it. *)
Definition create_Mappings (ConfigType : option string) (node : string)
  (interfaceMappings : list Mapping) (agentsInfo : list AgentInfo)
  (agentIP testInterface : string) (networkSettings : NetworkSettings)
  : result (option string * list Mapping * list string * NetworkSettings) :=
  topology <- getTopologyFromSessionConfig ConfigType ;;
  let defaultDict :=
    match topology with
    | Some t => if String.eqb t "sbaConfig" then defaultSBATesterDict else defaultFullcoreDict
    | None => defaultFullcoreDict
    end in
  let AgentNodeID := getAgentNodeID agentsInfo agentIP in
  let networkSettings :=
    match ns_get AgentNodeID networkSettings with
    | Some _ => networkSettings
    | None => ns_set AgentNodeID [] networkSettings
    end in
  interfaces <- of_option (KeyError node) (dict_get node defaultDict) ;;
  st <- for_each (mapInterface agentsInfo node agentIP testInterface AgentNodeID)
          interfaces (interfaceMappings, networkSettings) ;;
  current <- of_option (KeyError "AgentNodeID") (ns_get AgentNodeID (snd st)) ;;
  Ok (AgentNodeID, fst st, current, snd st).

End Agents.

(** ** [Utils.readCsvFile] *)

Module ReadCsv.
Import Py Host.

(** The line feed the cells are cut at. *)
Definition LF : string := String "010"%char EmptyString.

(** A row of [csv.DictReader]: the cells by column name, in the order of
    the header (every cell a string). *)
Definition Row : Type := list (string * string).

(** The dictionary returned: by test number, the lists of lines by
    column name. *)
Definition CsvData : Type := list (string * list (string * list string)).

(** Lines 274 to 279: the pieces of [value.split('\n')] that are not
    empty. *)
Definition valueListOf (value : string) : list string :=
  fold_left
    (fun valueList eachValue =>
       if String.eqb eachValue "" then valueList else (valueList ++ [eachValue])%list)
    (split LF value) [].

(** Body of [for key, value in row.items()]. *)
Definition storeCell (testNo : string) (csvData : CsvData) (item : string * string)
  : result CsvData :=
  if String.eqb (fst item) "" then Ok csvData
  else
    inner <- of_option (KeyError testNo) (dict_get testNo csvData) ;;
    Ok (dict_set testNo (dict_set (fst item) (valueListOf (snd item)) inner) csvData).

(** Body of [for row in csvContents]. *)
Definition storeRow (csvData : CsvData) (row : Row) : result CsvData :=
  testNo <- of_option (KeyError "Test No") (dict_get "Test No" row) ;;
  for_each (storeCell testNo) row (dict_set testNo [] csvData).

(** [readCsvFile(csvFile)]; [dict_rows] is [list(csv.DictReader(file))]. *)
Definition readCsvFile (dict_rows : string -> list Row) (csvFile : string) : St Env CsvData :=
  text <~ read_file csvFile ;;
  lift (for_each storeRow (dict_rows text) []).

End ReadCsv.

(** ** [reconfigLoadCore.configSustainTime] and [MW.configSustainTime] *)

Module Sustain.
Import Py.

(** A value of the testcase's parameter file. *)
Inductive Value : Type :=
| VInt (z : Z)
| VStr (s : string)
| VNone.

(** [if v:] *)
Definition truthy (v : Value) : bool :=
  match v with
  | VInt z => negb (z =? 0)
  | VStr s => negb (String.eqb s "")
  | VNone => false
  end.

(** An item of [testcaseParams]; a key that is absent is [None]. *)
Record Param : Type := {
  paramName : option string;
  value : option Value
}.

(** The response of the PATCH of the sustain time: its status code, and
    its JSON as [logError] prints it. *)
Record Server : Type := {
  patch_code : Z;
  patch_json : string
}.

Inductive Event : Type :=
| PatchSustain (sustainTime : Value).

Definition notFoundMsg : string :=
  "reconfigLoadCore: No sustainTestingTime paramName found in ConfigParameters file".

(** [MW.configSustainTime(sustainTime)] *)
Definition mw_configSustainTime (W : Server) (sustainTime : Value) : St (list Event) unit :=
  fun tr =>
    (if negb (patch_code W =? 204) then Raise (AbortTest (patch_json W)) else Ok tt,
     PatchSustain sustainTime :: tr).

(** Body of [for param in testcaseParams]. *)
Definition pick (sustainTestingTime : Value) (param : Param) : result Value :=
  name <- of_option (KeyError "paramName") (paramName param) ;;
  if String.eqb name "sustainTestingTime" then of_option (KeyError "value") (value param)
  else Ok sustainTestingTime.

(** [configSustainTime(mainObj, loadCoreObj, testcaseParams)] *)
Definition configSustainTime (W : Server) (testcaseParams : list Param)
  : St (list Event) unit :=
  sustainTestingTime <~ lift (for_each pick testcaseParams VNone) ;;
  if truthy sustainTestingTime then mw_configSustainTime W sustainTestingTime
  else raise (AbortTest notFoundMsg).

End Sustain.

(** ** A runtime for the examples

    A small instance of [Py.Runtime]: [float] reads integer literals,
    [re.match] takes the pattern literally (a name free of regular
    expression operators), [csv.reader] cuts lines at line feeds and cells
    at commas, [json.dumps] writes the cells between brackets and an
    archive lists one [name=content] member per line. *)

Module Sample.
Import Py.

Definition lower (c : ascii) : ascii :=
  let n := nat_of_ascii c in
  if ((65 <=? n)%nat && (n <=? 90)%nat)%bool then ascii_of_nat (n + 32) else c.

Fixpoint lower_str (s : string) : string :=
  match s with
  | EmptyString => EmptyString
  | String c r => String (lower c) (lower_str r)
  end.

Definition float_of_Z (z : Z) : float :=
  if z <? 0 then PrimFloat.opp (PrimFloat.of_uint63 (Uint63.of_Z (- z)))
  else PrimFloat.of_uint63 (Uint63.of_Z z).

Definition float_literal (s : string) : option float :=
  match int s with
  | Ok z => if Z.abs z <? 2 ^ 53 then Some (float_of_Z z) else None
  | Raise _ => None
  end.

Definition literal_match (pattern s : string) : option bool :=
  Some (String.prefix (lower_str pattern) (lower_str s)).

Definition newline : string := String "010"%char EmptyString.

Definition plain_rows (text : string) : list (list string) :=
  map (split ",") (split newline text).

Definition plain_dumps (rows : list (list string)) : string :=
  "[" ++ join "," (map (fun row => "[" ++ join "," row ++ "]") rows) ++ "]".

Definition plain_members (archive : string) : option (list (string * string)) :=
  Some (flat_map
          (fun line =>
             match partition "=" line with
             | Some (name, body) => [(name, body)]
             | None => []
             end)
          (split newline archive)).

#[export] Instance runtime : Runtime := {|
  float_of_str := float_literal;
  re_match_I := literal_match;
  csv_rows := plain_rows;
  json_dumps := plain_dumps;
  zip_members := plain_members
|}.

End Sample.

(** ** Words of the statements: expressions and operators *)

Module Words.
Import Py.

(** [has c s]: the character [c] occurs in [s]. *)
Fixpoint has (c : ascii) (s : string) : bool :=
  match s with
  | EmptyString => false
  | String a r => Ascii.eqb c a || has c r
  end.

(** [avoids chars s]: no character of [s] is one of [chars]. *)
Fixpoint avoids (chars s : string) : bool :=
  match s with
  | EmptyString => true
  | String a r => negb (has a chars) && avoids chars r
  end.

(** The characters the comparison operators are written with. *)
Definition opchars : string := "<>=".

(** The operators of the spec, as the testcase file writes them. *)
Definition comparison_ops : list string := ["<="; ">="; "<"; ">"; "=="].

(** The key under which the run-time parser stores an operator. *)
Definition operator_key (op : string) : string :=
  if String.eqb op "==" then "=" else op.

End Words.

(** ** Words of the statements: KPI expectations *)

Module KpiSpec.
Import Py Stats Kpi Words.

(** [m] is a maximum of [l]: it is one of the items and no item compares
    greater. *)
Definition is_maximum (m : float) (l : list float) : Prop :=
  In m l /\ forall x, In x l -> PrimFloat.ltb m x = false.

(** The comparison an operator of the testcase file stands for,
    [satisfies op m v] reading [m op v]. *)
Definition satisfies (op : string) (m v : float) : bool :=
  if String.eqb op "<=" then PrimFloat.leb m v
  else if String.eqb op ">=" then PrimFloat.leb v m
  else if String.eqb op "<" then PrimFloat.ltb m v
  else if String.eqb op ">" then PrimFloat.ltb v m
  else if String.eqb op "==" then PrimFloat.eqb m v
  else false.

(** The entry written for a threshold [op value] met by maximum [m]. *)
Definition recorded (op value : string) (m v : float) : Entry :=
  {| kpi_result := Some (verdict (satisfies op m v));
     kpi_expectedValue := Some (operator_key op ++ value);
     kpi_maxValue := Some m |}.

(** The statement about threshold expressions, for one expression
    [name ++ op ++ value] and one list of samples: whenever the expression
    is the one matched for a runtime KPI whose tracker entry exists and
    [value] reads as the float [v], the loop body tests the maximum of the
    samples and records [passed] exactly when the maximum satisfies
    [op v]. *)
Definition threshold_claim `{Runtime} (name op value : string) (samples : list float) : Prop :=
  forall statName kpiList i runtimeKpi locals
         (tracker : gmap string (gmap string Entry)) (t : gmap string Entry) v,
    matchIndex runtimeKpi kpiList = Ok (Some i) ->
    nth_error kpiList i = Some (name ++ op ++ value) ->
    tracker !! statName = Some t ->
    is_Some (t !! strip name) ->
    float_of_str value = Some v ->
    exists m,
      max samples = Ok m /\ is_maximum m samples /\
      kpiStep statName kpiList (locals, tracker) (runtimeKpi, Series samples)
      = Ok (Some (operator_key op, value),
            <[statName := <[strip name := recorded op value m v]> t]> tracker).

(** The tracker of a stat with the single KPI [kpi]. *)
Definition tracker_of (statName kpi : string) : gmap string (gmap string Entry) :=
  {[ statName := {[ kpi := blank ]} ]}.

End KpiSpec.

(** ** Words of the statements: the columns of a stats response *)

Module StatsSpec.
Import Py Stats.






(** Two snapshots of a time series with the columns [A] and [B]. *)
Definition series_response : Response :=
  {| status_code := 200;
     columns := Some ["timestamp"; "A"; "B"];
     snapshots :=
       [ {| values := [[CNum 0%float; CNum 1%float; CStr "2"]] |};
         {| values := [[CNum 2%float; CNum 3%float; CStr "4"]] |} ] |}.

End StatsSpec.

(** ** Words of the statements: the polling loop *)

Module PollSpec.
Import Py PollLoop.




(** The trace of [n] passes that did not end the loop, the most recent
    first: each one polled the stats, then slept. *)
Fixpoint passes (secs : float) (n : nat) : list Event :=
  match n with
  | O => []
  | S k => Slept secs :: PolledStats :: passes secs k
  end.





Definition start_state : LoopState :=
  {| locals := None; kpiStatTracker := ∅; testConfiguredDuration := 10%float;
     KPIs_is_tracker := false; moduleStatus := "Running"; trace := [] |}.

End PollSpec.

(** ** Words of the statements: [startTest] *)

Module StartSpec.
Import Py StartTest StartTestLoop.

(** The number of POSTs of the start operation in a trace. *)
Fixpoint posts (tr : list Event) : nat :=
  match tr with
  | [] => O
  | PostStart :: r => S (posts r)
  | _ :: r => posts r
  end.

(** The poll read a state that is neither the awaited one nor [ERROR]. *)
Definition pending (result : string) (st : StateJson) : Prop :=
  exists s, state st = Some s /\ String.eqb s result = false /\ String.eqb s "ERROR" = false.

Definition json (st msg : string) : StateJson :=
  {| state := Some st; message := Some msg |}.

(** A middleware whose helper calls all succeed and whose operation [k]
    reports [states k] at every poll. *)
Definition steady (states : nat -> StateJson) : Middleware :=
  {| start_code := fun _ => 202;
     get_state := fun k _ => states k;
     getTestId := Ok "wireless-1";
     verifyLicenseSettings := Ok tt;
     checkSessionState := Ok true;
     rebootAgents := Ok tt;
     verifyAllAgentsStatusUp := Ok tt;
     stopTest := Ok tt |}.

(** The first start operation stays in progress; the one posted after
    the recovery succeeds at once. *)
Definition slow_then_ready : Middleware :=
  steady (fun k => if Nat.eqb k 0 then json "IN_PROGRESS" "" else json "SUCCESS" "").

(** The first start operation fails; the one posted after the recovery
    succeeds at once. *)
Definition error_then_ready : Middleware :=
  steady (fun k => if Nat.eqb k 0 then json "ERROR" "race" else json "SUCCESS" "").

Definition fresh : MW := {| testId := None; trace := [] |}.

End StartSpec.

(** ** Words of the statements: files and retrievals *)

Module FileSpec.
Import Py Host Csv Artifacts Sample.

(** The statement about the conversion, for one pair of paths and one
    state of the files: with a readable CSV file, [True] is returned
    whenever the JSON file can be written, and a failure to write it
    gives a warning and [False]. *)
Definition conversion_claim `{Runtime} (csvFilePath jsonFilePath : string) (env : Env) : Prop :=
  forall text,
    files env !! csvFilePath = Some text ->
    (jsonFilePath ∉ readonly env ->
     fst (convertCsvFileToJsonFile csvFilePath jsonFilePath env) = Ok true) /\
    (jsonFilePath ∈ readonly env ->
     fst (convertCsvFileToJsonFile csvFilePath jsonFilePath env) = Ok false /\
     warnings (snd (convertCsvFileToJsonFile csvFilePath jsonFilePath env))
     = convertFailedMsg :: warnings env).

(** A poll that read neither [SUCCESS] nor [ERROR]. *)
Definition in_progress (st : option string) : Prop :=
  exists s, st = Some s /\ String.eqb s "SUCCESS" = false /\ String.eqb s "ERROR" = false.

(** The loop ended without [SUCCESS]: the generate request was refused,
    [ERROR] was read, or the budget was used up. *)
Definition not_retrieved (W : Operation) (wait statusCode : Z) : Prop :=
  generate_code W <> statusCode \/
  pollOperation (Z.to_nat wait) (states W) wait 0 = Errored \/
  exists w, pollOperation (Z.to_nat wait) (states W) wait 0 = Expired w.

(** A CSV file of two rows; nothing is protected. *)
Definition csv_env : Env :=
  {| files := {[ "/r/a.csv" := "x,y" ++ newline ++ "1,2" ]};
     readonly := ∅; foreign := ∅; warnings := [] |}.

(** The same files, the JSON path belonging to another user: it can be
    written through the group, its mode cannot be changed. *)
Definition shared_env : Env :=
  {| files := {[ "/r/a.csv" := "x,y" ++ newline ++ "1,2" ]};
     readonly := ∅; foreign := {[ "/r/a.json" ]}; warnings := [] |}.

(** An operation that reports [SUCCESS] at the first poll and whose
    archive holds one CSV file. *)
Definition ready : Operation :=
  {| testId_reply := Ok "wireless-1";
     generate_code := 202;
     states := fun _ => Some "SUCCESS";
     download := {| content := "Fullcore_a.csv=x,y";
                    headers := [("Content-Disposition", "attachment; filename=r.zip")] |} |}.

Definition names : Names := {| testcaseResultsFolder := "/r"; testcaseName := "tc" |}.

Definition empty_env : Env := {| files := ∅; readonly := ∅; foreign := ∅; warnings := [] |}.

End FileSpec.

(** ** Words of the statements: the state of the session *)

Module SessionSpec.
Import Py Session.

(** The seconds slept in a trace. *)
Fixpoint slept (tr : list Event) : Z :=
  match tr with
  | [] => 0
  | Sleep secs :: r => secs + slept r
  | _ :: r => slept r
  end.

(** The number of PATCH requests in a trace. *)
Fixpoint patches (tr : list Event) : nat :=
  match tr with
  | [] => O
  | PatchStatus _ :: r => S (patches r)
  | _ :: r => patches r
  end.

(** The reply is a response reporting a status other than [status]. *)
Definition other_status (status : string) (r : Reply) : Prop :=
  exists code json v, r = Answer code json /\ Session.status json = Some v /\ is_str v status = false.

(** The reply is a response reporting the string [status]. *)
Definition reports (status : string) (r : Reply) : Prop :=
  exists code json, r = Answer code json /\ Session.status json = Some (JStr status).

(** [k] rounds of the wait, the most recent first: a GET, then five
    seconds of sleep. *)
Fixpoint rounds (k : nat) : list Event :=
  match k with
  | O => []
  | S n => Sleep 5 :: GetTest :: rounds n
  end.

(** A session reporting [statuses] one GET after the other, the last one
    from then on. *)
Definition scripted (duration : Z) (statuses : list string) : Server :=
  {| test_reply := fun n =>
       Answer 200 {| status := Some (JStr (nth n statuses (List.last statuses "")));
                     testDuration := Some duration |};
     patch_code := 204 |}.

Definition idle : MW := {| gets := 0; trace := [] |}.

End SessionSpec.

(** ** Words of the statements: [stopTest] *)

Module StopSpec.
Import Py StartTest Stop.

(** The polls of the stop operation in a trace. *)
Fixpoint polls (tr : list Stop.Event) : nat :=
  match tr with
  | [] => O
  | GetStop _ :: r => S (polls r)
  | _ :: r => polls r
  end.

(** The seconds slept in a trace. *)
Fixpoint slept (tr : list Stop.Event) : Z :=
  match tr with
  | [] => 0
  | Stop.Sleep secs :: r => secs + slept r
  | _ :: r => slept r
  end.

(** The poll read a state that is neither the awaited one nor [ERROR]. *)
Definition stopping (result : string) (p : Poll) : Prop :=
  exists st s,
    p = Polled st /\ state st = Some s /\
    String.eqb s result = false /\ String.eqb s "ERROR" = false.

(** The poll raised, or its JSON has no ['state']. *)
Definition unreadable (p : Poll) : Prop :=
  p = PollRaises \/ exists st, p = Polled st /\ state st = None.

(** [k] polls from number [n] on, each followed by two seconds of sleep,
    the most recent first. *)
Fixpoint waited (n k : nat) : list Stop.Event :=
  match k with
  | O => []
  | S k' => (waited (S n) k' ++ [Stop.Sleep 2; GetStop n])%list
  end.

(** A stop operation accepted with code 202 whose polls read [busy]
    before poll [k] and raise from then on. *)
Definition drops_at (k : nat) : Server :=
  {| posted := {| stop_code := 202; stop_id := Some "7" |};
     poll := fun n =>
       if (n <? k)%nat then Polled {| state := Some "IN_PROGRESS"; message := Some "" |}
       else PollRaises |}.

(** A stop operation that stays in progress. *)
Definition never_stops : Server :=
  {| posted := {| stop_code := 202; stop_id := Some "7" |};
     poll := fun _ => Polled {| state := Some "IN_PROGRESS"; message := Some "" |} |}.

End StopSpec.

(** ** Words of the statements: the reboot of the agents *)

Module RebootSpec.
Import Py Reboot.

Fixpoint polls (tr : list Event) : nat :=
  match tr with
  | [] => O
  | GetReboot _ :: r => S (polls r)
  | _ :: r => polls r
  end.

Fixpoint slept (tr : list Event) : Z :=
  match tr with
  | [] => 0
  | Sleep secs :: r => secs + slept r
  | _ :: r => slept r
  end.

Fixpoint verifications (tr : list Event) : nat :=
  match tr with
  | [] => O
  | VerifyAllAgentsStatusUp :: r => S (verifications r)
  | _ :: r => verifications r
  end.

(** The reboot requests of a trace, the most recent first. *)
Fixpoint reboots (tr : list Event) : list (list string) :=
  match tr with
  | [] => []
  | PostReboot l :: r => l :: reboots r
  | _ :: r => reboots r
  end.

(** The agent is part of the test environment: the IP address the
    middleware reports for it is an item of [envParams['agents']]. *)
Definition in_environment (W : Server) (agentId : string) : bool :=
  match info_IP (agent_reply W agentId), envAgents W with
  | Some ip, Some l => in_env ip l
  | _, _ => false
  end.

(** What an item of the list of agents adds to the reboot request: its
    id when the agent is part of the environment. *)
Definition choice (W : Server) (agent : option string) : list string :=
  match agent with
  | Some agentId => if in_environment W agentId then [agentId] else []
  | None => []
  end.

(** The ids of the listed agents that are part of the environment. *)
Definition chosen (W : Server) : list string := flat_map (choice W) (agents W).

(** Two agents, of which the environment names the second; the reboot
    operation succeeds at its third poll. *)
Definition lab : Server :=
  {| agents_code := 200;
     agents_message := None;
     agents := [Some "a1"; Some "a2"];
     agent_reply := fun agentId =>
       {| info_code := 200; info_message := None; info_id := Some agentId;
          info_IP := Some (if String.eqb agentId "a1" then "10.0.0.1" else "10.0.0.2") |};
     envAgents := Some [EnvIp "10.0.0.2"];
     reboot_code := 202;
     reboot_message := None;
     reboot_id := Some "5";
     reboot_state := fun n => Some (if (n <? 2)%nat then "IN_PROGRESS" else "SUCCESS");
     verifyAllAgentsStatusUp := Ok true |}.

End RebootSpec.

(** ** Words of the statements: licenses *)

Module LicenseSpec.
Import Py License.

(** The failure reported for the required license [lic] and the listed
    feature [feature]. *)
Definition reported (failure : Failure) (lic : list (string * Z)) (feature : Feature) : Prop :=
  exists a i,
    nth_error lic 0 = Some (RequiredLicenseFeatureName failure, RequiredCount failure) /\
    featureName feature = Some (RequiredLicenseFeatureName failure) /\
    availableCount feature = Some a /\ int_of a = Ok 0 /\
    installedCount feature = Some i /\ int_of i = Ok (failure_installedCount failure) /\
    failure_availableCount failure = 0.

(** A server listing one feature in use up to its last seat, one with a
    single free seat, and nothing else. *)
Definition floating : Response :=
  {| status_code := 200;
     floatingFeatureStats :=
       Some [ {| featureName := Some "VMP-WRLS-5GC-UE";
                 availableCount := Some (CountInt 0); installedCount := Some (CountStr "4") |};
              {| featureName := Some "VMP-WRLS-5GC-INTERFACE";
                 availableCount := Some (CountInt 1); installedCount := Some (CountInt 13) |} ] |}.

Definition required : list (list (string * Z)) :=
  [[("VMP-WRLS-5GC-UE", 1)]; [("VMP-WRLS-5GC-INTERFACE", 13)]; [("WRLS-5GC-UPFLOW", 1)]].

(** The failure reported for the first of them. *)
Definition exhausted : Failure :=
  {| RequiredLicenseFeatureName := "VMP-WRLS-5GC-UE"; RequiredCount := 1;
     failure_availableCount := 0; failure_installedCount := 4 |}.

End LicenseSpec.

(** ** Words of the statements: [waitForState] *)

Module WaitSpec.
Import Py Wait.

(** The timeout left after [n] passes. *)
Definition remaining (n : nat) (timeout : float) : float :=
  Nat.iter n (fun t => PrimFloat.sub t tick) timeout.

(** The trace of [n] passes that found the values different, the most
    recent first. *)
Fixpoint passes (n : nat) : list Event :=
  match n with
  | O => []
  | S k => Sleep tick :: LogError differMsg :: passes k
  end.

End WaitSpec.

(** ** Words of the statements: the verification of the KPI results *)

Module VerdictSpec.
Import Py Kpi Verdicts.

(** The reports of the entries whose result is [text], in the order of
    the items. *)
Definition reports (text : string) (items : list (string * list (string * Entry)))
  : list Report :=
  flat_map
    (fun stat =>
       map (fun item => {| report_stat := fst stat; report_kpi := fst item;
                           report_entry := snd item |})
         (filter (fun item => result_is text (snd item) = true) (snd stat)))
    items.

(** [items] lists entries of [tracker]. *)
Definition lists (tracker : gmap string (gmap string Entry))
  (items : list (string * list (string * Entry))) : Prop :=
  forall stat l kpi e,
    In (stat, l) items -> In (kpi, e) l ->
    exists t, tracker !! stat = Some t /\ t !! kpi = Some e.

(** The items of a tracker, stat by stat. *)
Definition items_of (tracker : gmap string (gmap string Entry))
  : list (string * list (string * Entry)) :=
  map (fun st => (fst st, map_to_list (snd st))) (map_to_list tracker).

(** Every entry of the tracker is as [createKpiTracker] made it. *)
Definition untouched (tracker : gmap string (gmap string Entry)) : Prop :=
  forall stat t kpi e, tracker !! stat = Some t -> t !! kpi = Some e -> e = blank.

(** From [s] to [s'], [n] failures were counted. *)
Definition counted (n : nat) (s s' : Summary) : Prop :=
  overallTotalFailures s' = overallTotalFailures s + Z.of_nat n /\
  moduleTotalFailures s' = moduleTotalFailures s + Z.of_nat n /\
  testcaseTotalFailures s' = testcaseTotalFailures s + Z.of_nat n /\
  testcaseResult s' = (if Nat.eqb n 0 then testcaseResult s else "Failed") /\
  moduleResult s'
  = (if Nat.eqb n 0 || String.eqb (moduleResult s) "Incomplete" then moduleResult s
     else "Failed").

Definition clean : Summary :=
  {| testcaseResult := "Passed"; failures := []; passed := [];
     testcaseDataResult := "Running"; moduleResult := "Passed";
     overallTotalFailures := 0; moduleTotalFailures := 0; testcaseTotalFailures := 0 |}.

End VerdictSpec.

(** ** Words of the statements: the tracker during the polling *)

Module TrackerSpec.
Import Py Stats Kpi PollLoop.

(** The polling kept the keys of the tracker: the same stats, and under
    each stat the same KPI names. *)
Definition keys_kept (tracker tracker' : gmap string (gmap string Entry)) : Prop :=
  forall stat,
    match tracker !! stat, tracker' !! stat with
    | Some t, Some t' => forall kpi, is_Some (t' !! kpi) <-> is_Some (t !! kpi)
    | None, None => True
    | _, _ => False
    end.

(** The state in which [runTestcase] enters the polling loop with the
    tracker [tracker]. *)
Definition entering (tracker : gmap string (gmap string Entry)) (duration : float)
  : LoopState :=
  {| locals := None; kpiStatTracker := tracker; testConfiguredDuration := duration;
     KPIs_is_tracker := false; moduleStatus := "Running"; trace := [] |}.

(** A middleware whose stats are not ready: every GET of a stat is
    answered with null columns. *)
Definition not_ready (status : string) : Round :=
  {| stat_responses := fun _ =>
       {| Stats.status_code := 200; Stats.columns := None; Stats.snapshots := [] |};
     session_code := 200; session_status := status |}.

(** A testcase with two expressions for the stat [Fullcore] and none for
    [SBA]. *)
Definition sample_KPI : list (string * list string) :=
  [("Fullcore", ["A>=1"; "B=7"]); ("SBA", ["NA"])].

Definition sample_tracker : gmap string (gmap string Entry) :=
  {[ "Fullcore" := {[ "A" := blank; "B" := blank ]} ]}.

(** A pass in which every stat is answered with the series [A] and [B]
    of [series_response]. *)
Definition polled (status : string) : Round :=
  {| stat_responses := fun _ => StatsSpec.series_response;
     session_code := 200; session_status := status |}.

Definition evaluated_tracker : gmap string (gmap string Entry) :=
  {[ "Fullcore" :=
       {[ "A" := {| kpi_result := Some "passed"; kpi_expectedValue := Some ">=1";
                    kpi_maxValue := Some 3%float |};
          "B" := {| kpi_result := Some "failed"; kpi_expectedValue := Some "=7";
                    kpi_maxValue := Some 4%float |} ]} ]}.

End TrackerSpec.

(** ** Words of the statements: stats that are not there yet *)

Module EdgeSpec.
Import Py Stats PollLoop.

(** The columns are there, the first snapshot is not. *)
Definition early : Round :=
  {| stat_responses := fun _ =>
       {| Stats.status_code := 200; Stats.columns := Some ["timestamp"; "Registration Succeeded"];
          Stats.snapshots := [] |};
     session_code := 200; session_status := "STARTED" |}.

End EdgeSpec.

(** ** Words of the statements: the mappings of an agent *)

Module AgentsSpec.
Import Py Agents.

(** The table of node interfaces [__create_Mappings] reads for a
    category of configuration. *)
Definition table (category : string) : list (string * list string) :=
  if String.eqb category "SBA" then defaultSBATesterDict else defaultFullcoreDict.

(** The mapping made for one interface of a node. *)
Definition mapping_of (agentsInfo : list AgentInfo) (node agentIP testInterface interface : string)
  : Mapping :=
  if unmapped node interface then
    {| agentInterface := "none"; agentInterfaceMac := Some "none"; nodeInterface := interface |}
  else
    {| agentInterface := testInterface;
       agentInterfaceMac := getInterfaceMAC agentsInfo agentIP testInterface;
       nodeInterface := interface |}.

(** No agent has an interface listed twice, or the interface [none]. *)
Definition tidy (networkSettings : NetworkSettings) : Prop :=
  forall k l, ns_get k networkSettings = Some l -> NoDup l /\ ~ In "none" l.

Definition two_agents : list AgentInfo :=
  [ {| id := "a1"; IP := "10.0.0.1";
       Interfaces := [{| Name := "ens160"; Mac := "00:01" |}; {| Name := "ens192"; Mac := "00:02" |}] |};
    {| id := "a2"; IP := "10.0.0.2";
       Interfaces := [{| Name := "ens192"; Mac := "00:03" |}] |} ].

End AgentsSpec.

(** ** Words of the statements: [readCsvFile] *)

Module ReadCsvSpec.
Import Py Host ReadCsv.

(** The list [vl] stored under [key] for the test [testNo] was read from
    a cell of a row of [rows] with that test number. *)
Definition read_from (rows : list Row) (testNo key : string) (vl : list string) : Prop :=
  key <> "" /\ ~ In "" vl /\
  exists row value,
    In row rows /\ dict_get "Test No" row = Some testNo /\
    In (key, value) row /\ vl = valueListOf value.

(** Every list of [csvData] was read from [rows]. *)
Definition all_read (rows : list Row) (csvData : CsvData) : Prop :=
  forall testNo inner key vl,
    dict_get testNo csvData = Some inner -> dict_get key inner = Some vl ->
    read_from rows testNo key vl.

(** A reader of two rows whose cells hold several lines. *)
Definition two_rows (text : string) : list Row :=
  [ [("Test No", "1"); ("Steps", "a" ++ LF ++ LF ++ "b"); ("", "x")];
    [("Test No", "2"); ("Steps", ""); ("", "y")] ].

Definition one_file : Env :=
  {| files := {[ "/t/plan.csv" := "any" ]}; readonly := ∅; foreign := ∅; warnings := [] |}.

End ReadCsvSpec.

(** ** Words of the statements: the sustain time *)

Module SustainSpec.
Import Py Sustain.

(** The parameter is named [sustainTestingTime]. *)
Definition named (param : Param) : bool :=
  match paramName param with
  | Some name => String.eqb name "sustainTestingTime"
  | None => false
  end.

(** Every parameter has a name, and those named [sustainTestingTime] a
    value. *)
Definition well_formed (param : Param) : Prop :=
  exists name, paramName param = Some name /\ (named param = true -> value param <> None).

(** The value of the last parameter named [sustainTestingTime]. *)
Definition last_named (testcaseParams : list Param) : option Value :=
  match List.filter named (rev testcaseParams) with
  | param :: _ => value param
  | [] => None
  end.

Definition accepts : Server := {| patch_code := 204; patch_json := "" |}.

Definition param (name : string) (v : Value) : Param :=
  {| paramName := Some name; value := Some v |}.

End SustainSpec.

(** ** Words of the statements: [deleteSession] *)

Module SessionsSpec.
Import Py Sessions.

(** An item of the list of sessions without the key ['id']. *)
Definition lacks_id (item : option string) : bool :=
  match item with
  | None => true
  | Some _ => false
  end.

(** An item of the list of sessions is the session [sessionId]. *)
Definition names (sessionId : string) (item : option string) : bool :=
  match item with
  | Some id => String.eqb sessionId id
  | None => false
  end.

End SessionsSpec.

(** * Properties *)

(** ** Strings: splitting an expression [name ++ op ++ value] *)

Module PyFacts.
Import Py Words.

Lemma avoids_has chars s c :
  avoids chars s = true -> has c chars = true -> has c s = false.
Proof.
  induction s as [|a r IH]; simpl; intros Hs Hc; [reflexivity|].
  apply andb_true_iff in Hs as [Ha Hr].
  destruct (Ascii.eqb_spec c a) as [->|_]; simpl.
  - rewrite Hc in Ha. discriminate.
  - auto.
Qed.

Lemma avoids_sub chars chars' s :
  (forall c, has c chars' = true -> has c chars = true) ->
  avoids chars s = true -> avoids chars' s = true.
Proof.
  intros Hsub. induction s as [|a r IH]; simpl; [reflexivity|].
  intros H. apply andb_true_iff in H as [Ha Hr].
  rewrite (IH Hr), andb_true_r.
  destruct (has a chars') eqn:E; [|reflexivity].
  rewrite (Hsub _ E) in Ha. discriminate.
Qed.

Lemma prefix_app_avoids X value op :
  avoids X value = true -> String.prefix X (op ++ value) = String.prefix X op.
Proof.
  intros Hv. revert X Hv. induction op as [|a op IH]; intros X Hv; simpl.
  - destruct X as [|x X]; [destruct value; reflexivity|].
    destruct value as [|v value]; [reflexivity|]. simpl in *.
    apply andb_true_iff in Hv as [Hv _].
    destruct (ascii_dec x v) as [->|_]; [|reflexivity].
    rewrite Ascii.eqb_refl in Hv. discriminate.
  - destruct X as [|x X]; [reflexivity|].
    destruct (ascii_dec x a) as [_|_]; [|reflexivity].
    apply IH. clear IH.
    apply (avoids_sub (String x X)); [|exact Hv].
    intros c Hc. simpl. rewrite Hc. apply orb_true_r.
Qed.

Lemma contains_avoids X s :
  X <> EmptyString -> avoids X s = true -> contains X s = false.
Proof.
  intros HX. induction s as [|a r IH]; simpl; intros Hs.
  - destruct X; [congruence|reflexivity].
  - apply andb_true_iff in Hs as [Ha Hr].
    destruct X as [|x X]; [congruence|].
    destruct (ascii_dec x a) as [->|_]; [|auto].
    simpl in Ha. rewrite Ascii.eqb_refl in Ha. discriminate.
Qed.

Lemma contains_app_r X op value :
  X <> EmptyString -> avoids X value = true ->
  contains X (op ++ value) = contains X op.
Proof.
  intros HX Hv. induction op as [|a op IH].
  - change (EmptyString ++ value) with value.
    rewrite (contains_avoids X value HX Hv).
    destruct X; [congruence|reflexivity].
  - change (String a op ++ value) with (String a (op ++ value)).
    cbn [contains]. rewrite IH.
    change (String a (op ++ value)) with (String a op ++ value).
    rewrite prefix_app_avoids by assumption. reflexivity.
Qed.

Lemma contains_app_l x X name t :
  has x name = false ->
  contains (String x X) (name ++ t) = contains (String x X) t.
Proof.
  induction name as [|a name IH]; intros Hn; [reflexivity|].
  simpl in Hn. apply orb_false_iff in Hn as [Ha Hn].
  change (String a name ++ t) with (String a (name ++ t)).
  cbn [contains String.prefix].
  destruct (ascii_dec x a) as [->|_].
  - rewrite Ascii.eqb_refl in Ha. discriminate.
  - auto.
Qed.

Lemma drop_app n s t :
  (n <= String.length s)%nat -> drop n (s ++ t) = drop n s ++ t.
Proof.
  revert s. induction n as [|n IH]; intros s Hn; [reflexivity|].
  destruct s as [|a s]; simpl in *; [lia|]. apply IH. lia.
Qed.

Lemma prefix_length X s :
  String.prefix X s = true -> (String.length X <= String.length s)%nat.
Proof.
  revert s. induction X as [|x X IH]; intros s H; simpl; [lia|].
  destruct s as [|a s]; simpl in *; [discriminate|].
  destruct (ascii_dec x a); [|discriminate].
  specialize (IH _ H). lia.
Qed.

Lemma partition_absent X s :
  contains X s = false -> partition X s = None.
Proof.
  induction s as [|c s IHs]; cbn [contains partition]; intros H.
  - destruct (String.prefix X EmptyString); [discriminate|reflexivity].
  - destruct (String.prefix X (String c s)); [discriminate|].
    rewrite (IHs H). reflexivity.
Qed.

Lemma partition_app_r X op value :
  X <> EmptyString -> avoids X value = true ->
  partition X (op ++ value) =
  match partition X op with
  | Some (b, a) => Some (b, a ++ value)
  | None => None
  end.
Proof.
  intros HX Hv. induction op as [|a op IH].
  - rewrite (partition_absent X (EmptyString ++ value)) by (apply contains_avoids; assumption).
    rewrite (partition_absent X EmptyString); [reflexivity|].
    destruct X; [congruence|reflexivity].
  - change (String a op ++ value) with (String a (op ++ value)).
    cbn [partition]. rewrite IH.
    change (String a (op ++ value)) with (String a op ++ value).
    rewrite prefix_app_avoids by assumption.
    destruct (String.prefix X (String a op)) eqn:E.
    + rewrite drop_app by (apply prefix_length; exact E). reflexivity.
    + destruct (partition X op) as [[b r]|]; reflexivity.
Qed.

Lemma partition_app_l x X name t :
  has x name = false ->
  partition (String x X) (name ++ t) =
  match partition (String x X) t with
  | Some (b, a) => Some (name ++ b, a)
  | None => None
  end.
Proof.
  induction name as [|a name IH]; intros Hn.
  - change (EmptyString ++ t) with t.
    destruct (partition (String x X) t) as [[b r]|]; reflexivity.
  - simpl in Hn. apply orb_false_iff in Hn as [Ha Hn].
    change (String a name ++ t) with (String a (name ++ t)).
    cbn [partition String.prefix].
    destruct (ascii_dec x a) as [->|_].
    + rewrite Ascii.eqb_refl in Ha. discriminate.
    + rewrite (IH Hn). destruct (partition (String x X) t) as [[b r]|]; reflexivity.
Qed.

Lemma length_app s t : String.length (s ++ t) = (String.length s + String.length t)%nat.
Proof. induction s as [|a s IH]; simpl; [reflexivity | rewrite IH; reflexivity]. Qed.

End PyFacts.

(** ** The two parsers on an expression [name ++ op ++ value] *)

Module ParseFacts.
Import Py Words PyFacts Kpi.

Lemma split_expr x X name op value b a :
  has x name = false ->
  avoids (String x X) value = true ->
  partition (String x X) op = Some (b, a) ->
  contains (String x X) a = false ->
  split (String x X) (name ++ op ++ value) = [name ++ b; a ++ value].
Proof.
  intros Hn Hv Hp Ha. unfold split.
  assert (HX : String x X <> EmptyString) by discriminate.
  assert (Hpart : partition (String x X) (name ++ op ++ value) = Some (name ++ b, a ++ value)).
  { rewrite partition_app_l by assumption.
    rewrite partition_app_r by assumption. rewrite Hp. reflexivity. }
  assert (Hrest : partition (String x X) (a ++ value) = None).
  { apply partition_absent. rewrite contains_app_r by assumption. exact Ha. }
  destruct (String.length (name ++ op ++ value)) as [|k] eqn:Hlen.
  - rewrite !length_app in Hlen. destruct op as [|c op]; [discriminate Hp|].
    simpl in Hlen. lia.
  - cbn [split_fuel]. rewrite Hpart. f_equal.
    destruct k; cbn [split_fuel]; [reflexivity|]. rewrite Hrest. reflexivity.
Qed.

Lemma opchars_sub X :
  In X ["<="; ">="; "<"; ">"; "=="; "="] ->
  forall c, has c X = true -> has c opchars = true.
Proof.
  intros HX c. unfold opchars.
  repeat (destruct HX as [<-|HX]; [simpl; destruct (Ascii.eqb c "<"), (Ascii.eqb c ">"),
    (Ascii.eqb c "="); simpl; auto|]).
  destruct HX.
Qed.

Lemma avoids_op X s :
  In X ["<="; ">="; "<"; ">"; "=="; "="] -> avoids opchars s = true -> avoids X s = true.
Proof. intros HX. apply avoids_sub, opchars_sub, HX. Qed.

(** [X in name ++ op ++ value] is decided by [op] alone when neither
    [name] nor [value] holds an operator character. *)
Lemma contains_expr x X name op value :
  In (String x X) ["<="; ">="; "<"; ">"; "=="; "="] ->
  avoids opchars name = true -> avoids opchars value = true ->
  contains (String x X) (name ++ op ++ value) = contains (String x X) op.
Proof.
  intros HX Hn Hv.
  rewrite contains_app_l.
  - apply contains_app_r; [discriminate|]. apply avoids_op; assumption.
  - apply (avoids_has opchars); [assumption|].
    apply (opchars_sub _ HX). simpl. rewrite Ascii.eqb_refl. reflexivity.
Qed.

Lemma split_clean x X name op value b a :
  In (String x X) ["<="; ">="; "<"; ">"; "=="; "="] ->
  avoids opchars name = true -> avoids opchars value = true ->
  partition (String x X) op = Some (b, a) ->
  contains (String x X) a = false ->
  split (String x X) (name ++ op ++ value) = [name ++ b; a ++ value].
Proof.
  intros HX Hn Hv. apply split_expr.
  - apply (avoids_has opchars); [assumption|].
    apply (opchars_sub _ HX). simpl. rewrite Ascii.eqb_refl. reflexivity.
  - apply avoids_op; assumption.
Qed.

(** The first piece does not depend on what follows the first separator. *)
Lemma split_first x X name op value b a :
  In (String x X) ["<="; ">="; "<"; ">"; "=="; "="] ->
  avoids opchars name = true -> avoids opchars value = true ->
  partition (String x X) op = Some (b, a) ->
  index (split (String x X) (name ++ op ++ value)) 0 = Ok (name ++ b).
Proof.
  intros HX Hn Hv Hp. unfold split.
  assert (Hpart : partition (String x X) (name ++ op ++ value) = Some (name ++ b, a ++ value)).
  { rewrite partition_app_l.
    - rewrite partition_app_r; [rewrite Hp; reflexivity|discriminate|].
      apply avoids_op; assumption.
    - apply (avoids_has opchars); [assumption|].
      apply (opchars_sub _ HX). simpl. rewrite Ascii.eqb_refl. reflexivity. }
  destruct (String.length (name ++ op ++ value)) as [|k] eqn:Hlen.
  - rewrite !length_app in Hlen. destruct op as [|c op]; [discriminate Hp|].
    simpl in Hlen. lia.
  - cbn [split_fuel]. rewrite Hpart. reflexivity.
Qed.

Lemma app_empty_r s : s ++ EmptyString = s.
Proof.
  induction s as [|a s IH]; [reflexivity|].
  change (String a (s ++ EmptyString) = String a s). f_equal. exact IH.
Qed.

Ltac in_ops := simpl; tauto.

Ltac decide_contains Hn Hv :=
  repeat match goal with
    | |- context [contains (String ?x ?X) (?n ++ ?o ++ ?v)] =>
        rewrite (contains_expr x X n o v ltac:(in_ops) Hn Hv);
        let b := eval vm_compute in (contains (String x X) o) in
        change (contains (String x X) o) with b; cbv iota
    end.

Ltac split_at_op Hn Hv :=
  repeat match goal with
    | |- context [split (String ?x ?X) (?n ++ ?o ++ ?v)] =>
        rewrite (split_clean x X n o v _ _ ltac:(in_ops) Hn Hv
                   ltac:(vm_compute; reflexivity) ltac:(vm_compute; reflexivity))
    end.

Ltac eval_key :=
  repeat match goal with
    | |- context [operator_key ?o] =>
        let k := eval vm_compute in (operator_key o) in
        change (operator_key o) with k
    end.

(** What the run-time parser reads from [name ++ op ++ value]. *)
Lemma parseExpectation_expr locals name op value :
  In op comparison_ops ->
  avoids opchars name = true -> avoids opchars value = true ->
  parseExpectation locals (name ++ op ++ value) = Ok (Some (operator_key op, value)).
Proof.
  intros Hop Hn Hv. unfold comparison_ops in Hop. unfold parseExpectation.
  repeat (destruct Hop as [<-|Hop];
          [decide_contains Hn Hv; split_at_op Hn Hv; reflexivity|]).
  destruct Hop.
Qed.

(** The name the run-time parser splits off, before [strip]. *)
Lemma runtime_name_expr name op value :
  In op comparison_ops ->
  avoids opchars name = true -> avoids opchars value = true ->
  index (split (operator_key op) (name ++ op ++ value)) 0 = Ok name.
Proof.
  intros Hop Hn Hv. unfold comparison_ops in Hop.
  repeat (destruct Hop as [<-|Hop];
          [eval_key;
           match goal with
           | |- index (split (String ?x ?X) (?n ++ ?o ++ ?v)) 0 = _ =>
               rewrite (split_first x X n o v EmptyString _ ltac:(in_ops) Hn Hv
                          ltac:(vm_compute; reflexivity))
           end; rewrite app_empty_r; reflexivity|]).
  destruct Hop.
Qed.

(** What [createKpiTracker] reads from [name ++ op ++ value]. *)
Lemma trackerKpi_expr kpi name op value :
  In op comparison_ops ->
  avoids opchars name = true -> avoids opchars value = true ->
  trackerKpi kpi (name ++ op ++ value) = Ok (Some name).
Proof.
  intros Hop Hn Hv. unfold comparison_ops in Hop. unfold trackerKpi.
  repeat (destruct Hop as [<-|Hop];
          [decide_contains Hn Hv; split_at_op Hn Hv;
           cbn [index nth_error of_option bind]; rewrite ?app_empty_r; reflexivity|]).
  destruct Hop.
Qed.

End ParseFacts.

(** ** Floats: the order [max] relies on *)

Module FloatFacts.
Import Py KpiSpec.

Ltac by_compare :=
  repeat match goal with
    | |- context [Z.compare ?x ?y] => destruct (Z.compare_spec x y)
    | |- context [Pos.compare ?x ?y] => destruct (Pos.compare_spec x y)
    end;
  simpl; intros; try discriminate; try reflexivity; try lia.

Lemma SFltb_trans a b c :
  SFltb a b = true -> SFltb b c = true -> SFltb a c = true.
Proof.
  unfold SFltb, SFcompare.
  destruct a as [sa|sa| |sa ma ea], b as [sb|sb| |sb mb eb], c as [sc|sc| |sc mc ec];
    try discriminate; try reflexivity;
    repeat match goal with s : bool |- _ => destruct s end;
    try discriminate; try reflexivity;
    change (Pos.compare_cont Eq) with Pos.compare; by_compare.
Qed.

Lemma SFltb_irrefl a : SFltb a a = false.
Proof.
  unfold SFltb, SFcompare.
  destruct a as [sa|sa| |sa ma ea]; try reflexivity;
    repeat match goal with s : bool |- _ => destruct s end; try reflexivity;
    change (Pos.compare_cont Eq) with Pos.compare;
    rewrite Z.compare_refl, Pos.compare_refl; reflexivity.
Qed.

Lemma ltb_trans a b c :
  PrimFloat.ltb a b = true -> PrimFloat.ltb b c = true -> PrimFloat.ltb a c = true.
Proof. rewrite !ltb_spec. apply SFltb_trans. Qed.

Lemma ltb_irrefl a : PrimFloat.ltb a a = false.
Proof. rewrite ltb_spec. apply SFltb_irrefl. Qed.

Lemma max_fold r : forall x seen,
  (In x seen /\ forall y, In y seen -> PrimFloat.ltb x y = false) ->
  let m := fold_left (fun m item => if PrimFloat.ltb m item then item else m) r x in
  In m (seen ++ r)%list /\ forall y, In y (seen ++ r)%list -> PrimFloat.ltb m y = false.
Proof.
  induction r as [|z r IH]; intros x seen [Hin Hub]; cbn [fold_left].
  - rewrite app_nil_r. split; assumption.
  - replace (seen ++ z :: r)%list with ((seen ++ [z]) ++ r)%list
      by (rewrite <- app_assoc; reflexivity).
    apply IH. destruct (PrimFloat.ltb x z) eqn:Hxz.
    + split; [apply in_or_app; right; left; reflexivity|].
      intros y Hy. apply in_app_or in Hy as [Hy|[<-|[]]].
      * destruct (PrimFloat.ltb z y) eqn:Hzy; [|reflexivity].
        specialize (Hub y Hy).
        rewrite (ltb_trans _ _ _ Hxz Hzy) in Hub. discriminate.
      * apply ltb_irrefl.
    + split; [apply in_or_app; left; assumption|].
      intros y Hy. apply in_app_or in Hy as [Hy|[<-|[]]]; auto.
Qed.

(** [max] returns a maximum of every non-empty list. *)
Lemma max_is_maximum (l : list float) :
  l <> [] -> exists m, max l = Ok m /\ is_maximum m l.
Proof.
  destruct l as [|x r]; [congruence|]. intros _. eexists. split; [reflexivity|].
  apply (max_fold r x [x]). split; [left; reflexivity|].
  intros y [<-|[]]. apply ltb_irrefl.
Qed.

Lemma range_spec a b k : In k (range a b) <-> a <= k < b.
Proof.
  unfold range. rewrite in_map_iff. split.
  - intros [i [<- Hi]]. apply in_seq in Hi. lia.
  - intros Hk. exists (Z.to_nat (k - a)). split; [lia|]. apply in_seq. lia.
Qed.

(** [f in range(a, b)] holds exactly when [f] equals an integer of the
    range. *)
Lemma float_in_range_spec f a b :
  float_in_range f a b = true <-> exists k, a <= k < b /\ float_eq_int f k = true.
Proof.
  unfold float_in_range. rewrite existsb_exists. split.
  - intros [k [Hk Hf]]. exists k. split; [apply range_spec; exact Hk|exact Hf].
  - intros [k [Hk Hf]]. exists k. split; [apply range_spec; exact Hk|exact Hf].
Qed.

End FloatFacts.

(** ** KPI expectations against the running maximum *)

Module KpiClaims.
Import Py Words KpiSpec PyFacts ParseFacts FloatFacts Stats Kpi.

Lemma operators_key op :
  In op comparison_ops -> operators (operator_key op) = Some (satisfies op).
Proof.
  unfold comparison_ops. intros Hop.
  repeat (destruct Hop as [<-|Hop]; [reflexivity|]). destruct Hop.
Qed.

Lemma verdict_passed b : verdict b = "passed" <-> b = true.
Proof. destruct b; simpl; split; intros H; congruence. Qed.

(** The run-time evaluation of a threshold expression. *)
Lemma evaluate_threshold `{Runtime} locals name op value samples m v :
  In op comparison_ops ->
  avoids opchars name = true -> avoids opchars value = true ->
  contains "-" value = false ->
  float_of_str value = Some v ->
  max samples = Ok m ->
  evaluate locals (name ++ op ++ value) (Series samples)
  = Ok (Some (operator_key op, value), strip name, recorded op value m v).
Proof.
  intros Hop Hn Hv Hminus Hfloat Hmax. unfold evaluate.
  rewrite (parseExpectation_expr locals name op value Hop Hn Hv). cbn [bind].
  rewrite (runtime_name_expr name op value Hop Hn Hv). cbn [bind maxOf].
  rewrite Hmax. cbn [bind]. unfold compareMax.
  rewrite Hminus, Hfloat. cbn [of_option bind].
  rewrite (operators_key op Hop). reflexivity.
Qed.

(** C1 (as amended): for an expression [name ++ op ++ value] with one of
    the five comparison operators, no operator character in [name] or
    [value], no ['-'] in [value] and at least one sample, the loop body
    tests the maximum of the whole list of samples against [float(value)]
    and records, under the stripped name, [passed] exactly when the
    maximum satisfies the comparison. *)
Theorem threshold_on_running_maximum `{Runtime} name op value samples :
  In op comparison_ops ->
  avoids opchars name = true -> avoids opchars value = true ->
  contains "-" value = false ->
  samples <> [] ->
  threshold_claim name op value samples.
Proof.
  intros Hop Hn Hv Hminus Hne.
  intros statName kpiList i runtimeKpi locals tracker t v Hmatch Hexpr Htr [e He] Hfloat.
  destruct (max_is_maximum samples Hne) as [m [Hmax Hm]].
  exists m. split; [exact Hmax|]. split; [exact Hm|].
  unfold kpiStep. cbn [fst snd]. rewrite Hmatch. cbn [bind].
  unfold index. rewrite Hexpr. cbn [of_option bind].
  rewrite (evaluate_threshold locals name op value samples m v Hop Hn Hv Hminus Hfloat Hmax).
  cbn [bind fst snd]. unfold recordResult. rewrite Htr, He. reflexivity.
Qed.

(** The verdict recorded by the theorem is [passed] if and only if the
    maximum satisfies the comparison. *)
Lemma recorded_passed op value m v :
  kpi_result (recorded op value m v) = Some "passed" <-> satisfies op m v = true.
Proof.
  simpl. rewrite <- verdict_passed. split; [intros H; congruence|intros ->; reflexivity].
Qed.

End KpiClaims.

Module KpiCases.
Import Py Words KpiSpec PyFacts ParseFacts FloatFacts Stats Kpi KpiClaims Sample.

Lemma threshold_on_running_maximum_witness :
  exists m,
    max [1%float; 25%float; 3%float] = Ok m /\
    is_maximum m [1%float; 25%float; 3%float] /\
    kpiStep "stat" ["Registration Succeeded>=20"]
      (None, tracker_of "stat" "Registration Succeeded")
      ("registration succeeded", Series [1%float; 25%float; 3%float])
    = Ok (Some (">=", "20"),
          <["stat" := <["Registration Succeeded" :=
                          recorded ">=" "20" m 20%float]> {[ "Registration Succeeded" := blank ]}]>
            (tracker_of "stat" "Registration Succeeded")).
Proof.
  refine (threshold_on_running_maximum (H := runtime)
            "Registration Succeeded" ">=" "20" [1%float; 25%float; 3%float] _ _ _ _ _
            "stat" ["Registration Succeeded>=20"] 0%nat "registration succeeded" None
            (tracker_of "stat" "Registration Succeeded")
            {[ "Registration Succeeded" := blank ]} 20%float _ _ _ _ _).
  - right; left; reflexivity.
  - reflexivity.
  - reflexivity.
  - reflexivity.
  - discriminate.
  - reflexivity.
  - reflexivity.
  - reflexivity.
  - exists blank. reflexivity.
  - reflexivity.
Defined.

(** C1 (counterexample): the threshold [x>=-5] is met by the sample 1.0,
    yet the loop body records nothing: a value holding ['-'] is read as a
    range and [int('')] raises [ValueError]. *)
Lemma threshold_with_minus_is_read_as_range :
  ~ threshold_claim (H := runtime) "x" ">=" "-5" [1%float].
Proof.
  intros Hclaim.
  destruct (Hclaim "stat" ["x>=-5"] 0%nat "x" None (tracker_of "stat" "x")
              {[ "x" := blank ]} (-5)%float
              eq_refl eq_refl eq_refl (ex_intro _ blank eq_refl) eq_refl)
    as [m [_ [_ Hstep]]].
  vm_compute in Hstep. discriminate Hstep.
Qed.

(** What the loop body does on that input. *)
Lemma threshold_with_minus_raises :
  satisfies ">=" 1%float (-5)%float = true /\
  kpiStep "stat" ["x>=-5"] (None, tracker_of "stat" "x") ("x", Series [1%float])
  = Raise ValueError.
Proof. split; reflexivity. Qed.

(** C2: for the expectation [Bits Received/s=10-20] and the maximum 15.5,
    which lies between 10 and 20, the loop body records [failed]: the test
    [maxValue in range(10, 21)] holds for the integers of the range only. *)
Theorem range_rejects_fractional_maximum :
  PrimFloat.leb 10%float 15.5%float = true /\
  PrimFloat.leb 15.5%float 20%float = true /\
  kpiStep "stat" ["Bits Received/s=10-20"]
    (None, tracker_of "stat" "Bits Received/s")
    ("Bits Received/s", Series [12%float; 15.5%float])
  = Ok (Some ("=", "10-20"),
        <["stat" := {[ "Bits Received/s" :=
                         {| kpi_result := Some "failed";
                            kpi_expectedValue := Some "=10-20";
                            kpi_maxValue := Some 15.5%float |} ]}]>
          (tracker_of "stat" "Bits Received/s")).
Proof. repeat split; vm_compute; reflexivity. Qed.

(** The same expectation is met by an integral maximum of the range. *)
Lemma range_accepts_integral_maximum :
  kpiStep "stat" ["Bits Received/s=10-20"]
    (None, tracker_of "stat" "Bits Received/s")
    ("Bits Received/s", Series [12%float; 15%float])
  = Ok (Some ("=", "10-20"),
        <["stat" := {[ "Bits Received/s" :=
                         {| kpi_result := Some "passed";
                            kpi_expectedValue := Some "=10-20";
                            kpi_maxValue := Some 15%float |} ]}]>
          (tracker_of "stat" "Bits Received/s")).
Proof. vm_compute. reflexivity. Qed.

(** C4: on the expression [Registration Succeeded >= 20] the two parsers
    read different names: [createKpiTracker] keeps the blank before the
    operator, the run-time parser strips it, and the update of the
    tracker entry then raises [KeyError]. *)
Theorem parsers_disagree_on_spaced_name :
  let expr := "Registration Succeeded >= 20" in
  trackerKpi None expr = Ok (Some "Registration Succeeded ") /\
  (exists e, evaluate None expr (Series [25%float])
             = Ok (Some (">=", " 20"), "Registration Succeeded", e)) /\
  createKpiTracker [("stat", [expr])] None
  = Ok (Some "Registration Succeeded ", tracker_of "stat" "Registration Succeeded ") /\
  kpiStep "stat" [expr] (None, tracker_of "stat" "Registration Succeeded ")
    ("Registration Succeeded", Series [25%float])
  = Raise (KeyError "Registration Succeeded").
Proof.
  cbv zeta. split; [reflexivity|]. split; [eexists; reflexivity|].
  split; vm_compute; reflexivity.
Qed.

End KpiCases.

(** ** Ranges, and the choice of the expression to evaluate *)

Module MatchFacts.
Import Py Words KpiSpec PyFacts ParseFacts FloatFacts Stats Kpi KpiClaims.

(** The verdict of a range expectation [lo-hi]: [passed] exactly when the
    maximum equals one of the integers from [lo] to [hi]. *)
Lemma range_verdict `{Runtime} op lo hi a b m :
  has "-" lo = false -> avoids "-" hi = true ->
  int (strip lo) = Ok a -> int (strip hi) = Ok b ->
  exists res,
    compareMax op (lo ++ "-" ++ hi) m = Ok res /\
    (res = "passed" <-> exists k, a <= k <= b /\ float_eq_int m k = true).
Proof.
  intros Hlo Hhi Ha Hb. unfold compareMax.
  rewrite contains_app_l by assumption.
  rewrite contains_app_r by (discriminate || assumption).
  change (contains "-" "-") with true. cbv iota.
  rewrite (split_expr "-" EmptyString lo "-" hi EmptyString EmptyString Hlo Hhi eq_refl eq_refl).
  cbn [index nth_error of_option bind]. rewrite app_empty_r, Ha. cbn [bind].
  change (EmptyString ++ hi) with hi. rewrite Hb. cbn [bind].
  eexists. split; [reflexivity|].
  rewrite verdict_passed, float_in_range_spec.
  split; intros [k [Hk Hf]]; exists k; (split; [lia|exact Hf]).
Qed.

Lemma for_each_app {A S : Type} (body : S -> A -> result S) l1 l2 s :
  for_each body (l1 ++ l2)%list s = bind (for_each body l1 s) (for_each body l2).
Proof.
  revert s. induction l1 as [|x l1 IH]; intros s; cbn [for_each app]; [reflexivity|].
  destruct (body s x); cbn [bind]; [apply IH|reflexivity].
Qed.

Lemma list_index_In x l :
  In x l -> exists i, list_index x l = Some i /\ nth_error l i = Some x.
Proof.
  induction l as [|y l IH]; intros Hin; [destruct Hin|]. cbn [list_index].
  destruct (String.eqb_spec x y) as [->|Hne].
  - exists 0%nat. split; reflexivity.
  - destruct Hin as [->|Hin]; [congruence|].
    destruct (IH Hin) as [i [Hi Hn]]. exists (S i). rewrite Hi. split; [reflexivity|exact Hn].
Qed.

Lemma matchStep_unmatched `{Runtime} runtimeKpi kpiList l idx :
  (forall e, In e l -> re_match_I runtimeKpi e = Some false) ->
  for_each (matchStep runtimeKpi kpiList) l idx = Ok idx.
Proof.
  induction l as [|e l IH]; intros Hl; cbn [for_each]; [reflexivity|].
  unfold matchStep at 1. rewrite (Hl e (or_introl eq_refl)). cbn [of_option bind].
  apply IH. intros e' He'. apply Hl. right. exact He'.
Qed.

Lemma matchStep_total `{Runtime} runtimeKpi kpiList l idx :
  (forall e, In e l -> In e kpiList) ->
  (forall e, In e l -> exists b, re_match_I runtimeKpi e = Some b) ->
  exists idx', for_each (matchStep runtimeKpi kpiList) l idx = Ok idx'.
Proof.
  revert idx. induction l as [|e l IH]; intros idx Hin Hl; cbn [for_each].
  - exists idx. reflexivity.
  - destruct (Hl e (or_introl eq_refl)) as [b Hb].
    unfold matchStep at 1. rewrite Hb. cbn [of_option bind].
    destruct b.
    + destruct (list_index_In e kpiList (Hin e (or_introl eq_refl))) as [i [Hi _]].
      rewrite Hi. cbn [of_option bind].
      apply IH; intros e' He'; [apply Hin|apply Hl]; right; exact He'.
    + apply IH; intros e' He'; [apply Hin|apply Hl]; right; exact He'.
Qed.

(** C9: the runtime name is the pattern handed to [re.match] with
    [re.I], each expression of the list is the text matched from its
    start; when the pattern compiles, a runtime KPI matching no
    expression is skipped (the loop state is left as it was), and
    otherwise the index chosen is a position of the last expression of
    the list that matches, which is the expression evaluated. *)
Theorem last_matching_expression_is_evaluated `{Runtime} runtimeKpi kpiList :
  (forall e, In e kpiList -> exists b, re_match_I runtimeKpi e = Some b) ->
  ((forall e, In e kpiList -> re_match_I runtimeKpi e = Some false) ->
   matchIndex runtimeKpi kpiList = Ok None /\
   forall statName st value,
     kpiStep statName kpiList st (runtimeKpi, value) = Ok st) /\
  (forall pre e post,
     kpiList = (pre ++ e :: post)%list ->
     re_match_I runtimeKpi e = Some true ->
     (forall e', In e' post -> re_match_I runtimeKpi e' = Some false) ->
     exists i,
       matchIndex runtimeKpi kpiList = Ok (Some i) /\
       nth_error kpiList i = Some e /\
       forall statName st value,
         kpiStep statName kpiList st (runtimeKpi, value)
         = (r <- evaluate (fst st) e value ;;
            tracker <- recordResult (snd st) statName (snd (fst r)) (snd r) ;;
            Ok (fst (fst r), tracker))).
Proof.
  intros Hcompiles. split.
  - intros Hnone.
    assert (Hm : matchIndex runtimeKpi kpiList = Ok None)
      by (apply (matchStep_unmatched runtimeKpi kpiList kpiList None Hnone)).
    split; [exact Hm|]. intros statName st value.
    unfold kpiStep. cbn [fst snd]. rewrite Hm. reflexivity.
  - intros pre e post Hlist He Hpost.
    assert (Hin : In e kpiList) by (rewrite Hlist; apply in_or_app; right; left; reflexivity).
    destruct (list_index_In e kpiList Hin) as [i [Hi Hn]].
    assert (Hm : matchIndex runtimeKpi kpiList = Ok (Some i)).
    { unfold matchIndex.
      rewrite Hlist at 2. rewrite for_each_app.
      destruct (matchStep_total runtimeKpi kpiList pre None) as [idx' Hpre].
      - intros e' He'. rewrite Hlist. apply in_or_app. left. exact He'.
      - intros e' He'. apply Hcompiles. rewrite Hlist. apply in_or_app. left. exact He'.
      - rewrite Hpre. cbn [bind for_each]. unfold matchStep at 1.
        rewrite He. cbn [of_option bind]. rewrite Hi. cbn [of_option bind].
        apply matchStep_unmatched. exact Hpost. }
    exists i. split; [exact Hm|]. split; [exact Hn|].
    intros statName st value. unfold kpiStep. cbn [fst snd]. rewrite Hm. cbn [bind].
    unfold index. rewrite Hn. reflexivity.
Qed.

End MatchFacts.

(** ** [getAllStats]: the dictionary returned *)

Module StatsFacts.
Import Py Stats StatsSpec MatchFacts.





End StatsFacts.

Module StatsClaims.
Import Py Stats StatsSpec MatchFacts StatsFacts.

Lemma dict_get_set_eq {V : Type} k (v : V) d : dict_get k (dict_set k v d) = Some v.
Proof.
  induction d as [|[k' v'] d IH]; cbn [dict_set dict_get].
  - rewrite String.eqb_refl. reflexivity.
  - destruct (String.eqb k k') eqn:E; cbn [dict_get]; rewrite ?String.eqb_refl, ?E; auto.
Qed.

Lemma dict_get_set_ne {V : Type} k k' (v : V) d :
  k <> k' -> dict_get k' (dict_set k v d) = dict_get k' d.
Proof.
  intros Hne. induction d as [|[k0 v0] d IH]; cbn [dict_set dict_get].
  - destruct (String.eqb_spec k' k); [congruence|reflexivity].
  - destruct (String.eqb_spec k k0) as [->|Hk]; cbn [dict_get].
    + destruct (String.eqb_spec k' k0); [congruence|reflexivity].
    + destruct (String.eqb k' k0); [reflexivity|exact IH].
Qed.









End StatsClaims.

(** ** The polling loop: when it ends, how long it sleeps *)

Module PollFacts.
Import Py PollLoop PollSpec.


Lemma iter_shift {A : Type} (f : A -> A) n x : Nat.iter n f (f x) = Nat.iter (S n) f x.
Proof.
  induction n as [|n IH]; [reflexivity|].
  change (f (Nat.iter n f (f x)) = f (Nat.iter (S n) f x)). f_equal. exact IH.
Qed.

Lemma default_sleep : PrimFloat.mul default_interval 100 = 30%float.
Proof. reflexivity. Qed.












End PollFacts.

Module PollClaims.
Import Py PollLoop PollSpec PollFacts.



End PollClaims.

Module PollCases.
Import Py PollLoop PollSpec PollFacts PollClaims TrackerSpec Sample.



(** [testcaseData['KPIs']] is the tracker itself once a pass has slept:
    at the [break] it shows what the last poll recorded; before any
    sleep the loop has not stored it. *)
Lemma testcaseData_KPIs_shows_the_last_poll :
  match pollLoop (H := runtime) sample_KPI None [not_ready "STARTED"; polled "STOPPED"]
          (entering sample_tracker 10) with
  | Exited s' => testcaseDataKPIs s' = Some evaluated_tracker
  | _ => False
  end /\
  match pollLoop (H := runtime) sample_KPI None [polled "STOPPED"]
          (entering sample_tracker 10) with
  | Exited s' => testcaseDataKPIs s' = None /\ kpiStatTracker s' = evaluated_tracker
  | _ => False
  end.
Proof. split; vm_compute; repeat split; reflexivity. Qed.

End PollCases.

Module MatchCases.
Import Py Stats Kpi KpiSpec StatsSpec MatchFacts StatsFacts StatsClaims Sample.

Lemma last_matching_expression_is_evaluated_witness :
  exists i,
    matchIndex "reg" ["Registration=1"; "x=2"; "REG<=3"; "x=2"] = Ok (Some i) /\
    nth_error ["Registration=1"; "x=2"; "REG<=3"; "x=2"] i = Some "REG<=3" /\
    forall statName st value,
      kpiStep statName ["Registration=1"; "x=2"; "REG<=3"; "x=2"] st ("reg", value)
      = (r <- evaluate (fst st) "REG<=3" value ;;
         tracker <- recordResult (snd st) statName (snd (fst r)) (snd r) ;;
         Ok (fst (fst r), tracker)).
Proof.
  apply (proj2 (last_matching_expression_is_evaluated (H := runtime) "reg"
                  ["Registration=1"; "x=2"; "REG<=3"; "x=2"]
                  (fun e _ => ex_intro _ _ eq_refl))
           ["Registration=1"; "x=2"] "REG<=3" ["x=2"]).
  - reflexivity.
  - reflexivity.
  - intros e' [<-|[]]. reflexivity.
Defined.


End MatchCases.

(** ** [startTest]: the retry *)

Module StartFacts.
Import Py StartTest StartTestLoop StartSpec.

Ltac run_calls :=
  cbv [recoverFromError recoverFromTimeout postStart afterLoop call sbind ret raise set_testId];
  cbn [trace testId fst snd];
  repeat match goal with
    | |- context [match ?r with Ok _ => _ | Raise _ => _ end] => destruct r
    | |- context [if ?b then _ else _] => destruct b
    | |- context [match ?o with Some _ => _ | None => _ end] => destruct o
    end;
  cbn [trace testId fst snd posts].

(** Each recovery makes one POST at most. *)
Lemma recoverFromError_posts W code s :
  (posts (trace (snd (recoverFromError W code s))) <= S (posts (trace s)))%nat.
Proof. run_calls; lia. Qed.

Lemma loop_posts W result waitTime code : forall fuel l s,
  (posts (trace (snd (loop fuel W result waitTime code l s)))
   <= posts (trace s) + (1 - retry l))%nat.
Proof.
  induction fuel as [|fuel IH]; intros l s; cbn [loop].
  - cbv [ret]. cbn. lia.
  - destruct (0 <? wait l).
    + cbv [sbind call]. cbn [fst snd trace testId].
      destruct (state (get_state W (operation l) (polls l))) as [st|];
        [|cbv [raise]; cbn; lia].
      destruct (String.eqb st result).
      { run_calls; lia. }
      destruct (String.eqb st "ERROR").
      * destruct (Nat.eqb_spec (retry l) 0) as [Hr|Hr].
        -- pose proof (recoverFromError_posts W code
                         {| testId := testId s;
                            trace := GetState (operation l) (polls l) :: trace s |}) as Hrec.
           destruct (recoverFromError W code _) as [[[]|e] s1]; cbn [snd] in Hrec |- *.
           ++ match goal with
              | |- context [loop fuel W result waitTime code ?l' ?s'] =>
                  specialize (IH l' s'); cbn [retry trace posts] in IH
              end.
              cbn [trace posts] in Hrec. rewrite Hr. lia.
           ++ cbn [trace posts] in Hrec. rewrite Hr. lia.
        -- destruct (message (get_state W (operation l) (polls l)));
             cbv [raise]; cbn; lia.
      * match goal with
        | |- context [loop fuel W result waitTime code ?l' ?s'] =>
            specialize (IH l' s'); cbn [retry trace posts] in IH
        end.
        exact IH.
    + destruct (Nat.eqb_spec (retry l) 0) as [Hr|Hr]; [|cbv [raise]; cbn; lia].
      rewrite Hr. run_calls; lia.
Qed.

(** The start operation is posted twice at most, however the run ends. *)
Lemma startTest_posts_at_most_twice W result wait code s :
  (posts (trace (snd (startTest W result wait code s))) <= posts (trace s) + 2)%nat.
Proof.
  unfold startTest, postStart. cbv [sbind call]. cbn [fst snd trace testId].
  destruct (start_code W 0 =? code); [|cbn; lia].
  match goal with
  | |- context [loop ?f W result wait code ?l' ?s'] =>
      pose proof (loop_posts W result wait code f l' s') as H
  end.
  cbn [retry trace posts] in H. lia.
Qed.

(** A pass that reads a pending state sleeps and polls again. *)
Lemma loop_pending_step W result waitTime code fuel l s :
  0 < wait l ->
  pending result (get_state W (operation l) (polls l)) ->
  loop (S fuel) W result waitTime code l s
  = loop fuel W result waitTime code
      {| wait := wait l - 1; retry := retry l; operation := operation l;
         polls := S (polls l); last := Some (get_state W (operation l) (polls l)) |}
      {| testId := testId s;
         trace := Sleep :: GetState (operation l) (polls l) :: trace s |}.
Proof.
  intros Hwait [st [Hst [Hres Herr]]]. cbn [loop].
  destruct (Z.ltb_spec 0 (wait l)) as [_|Hle]; [|lia].
  cbv [sbind call]. cbn [fst snd]. rewrite Hst, Hres, Herr. reflexivity.
Qed.

Ltac old_polls :=
  eexists; eexists; (split; [reflexivity|]); (split; [reflexivity|]);
  cbn [trace]; intros m Hin;
  repeat (destruct Hin as [Hin|Hin]; [discriminate Hin|]);
  exact Hin.

(** When the budget of the first operation runs out, [startTest] raises
    whatever the middleware would answer next: the operation posted by the
    recovery is never polled. *)
Lemma loop_times_out W result waitTime code : forall n fuel l s,
  wait l <= Z.of_nat n -> retry l = 0%nat -> operation l = 0%nat -> (n < fuel)%nat ->
  (forall k, (k < n)%nat -> pending result (get_state W 0 (polls l + k))) ->
  exists e s',
    loop fuel W result waitTime code l s = (Raise e, s') /\
    testId s' = testId s /\
    forall m, In (GetState 1 m) (trace s') -> In (GetState 1 m) (trace s).
Proof.
  induction n as [|n IH]; intros fuel l s Hwait Hretry Hop Hfuel Hpend;
    (destruct fuel as [|fuel]; [lia|]).
  - cbn [loop]. destruct (Z.ltb_spec 0 (wait l)) as [Hlt|_]; [lia|].
    rewrite Hretry. cbn [Nat.eqb]. run_calls; old_polls.
  - destruct (Z.ltb_spec 0 (wait l)) as [Hlt|Hle].
    + rewrite loop_pending_step; [|exact Hlt|].
      * match goal with
        | |- context [loop fuel W result waitTime code ?l1 ?s1] =>
            destruct (IH fuel l1 s1) as [e [s' [Hloop [Hid Htrace]]]]
        end.
        -- cbn [wait]. lia.
        -- exact Hretry.
        -- exact Hop.
        -- lia.
        -- intros k Hk. cbn [operation polls].
           replace (S (polls l) + k)%nat with (polls l + S k)%nat by lia.
           apply Hpend. lia.
        -- exists e, s'. split; [exact Hloop|]. split; [exact Hid|].
           intros m Hin. specialize (Htrace m Hin). cbn [trace] in Htrace.
           destruct Htrace as [Heq|[Heq|Hold]]; [discriminate Heq| |exact Hold].
           rewrite Hop in Heq. discriminate Heq.
      * rewrite Hop. replace (polls l) with (polls l + 0)%nat by lia. apply Hpend. lia.
    + cbn [loop]. destruct (Z.ltb_spec 0 (wait l)) as [Hlt|_]; [lia|].
      rewrite Hretry. cbn [Nat.eqb]. run_calls; old_polls.
Qed.

(** A run whose first operation stays pending through the whole budget
    raises; it neither polls the second operation nor records a test id. *)
Lemma startTest_times_out W result wait code s :
  (forall k, (k < Z.to_nat wait)%nat -> pending result (get_state W 0 k)) ->
  exists e s',
    startTest W result wait code s = (Raise e, s') /\
    testId s' = testId s /\
    forall m, In (GetState 1 m) (trace s') -> In (GetState 1 m) (trace s).
Proof.
  intros Hpend. unfold startTest, postStart. cbv [sbind call]. cbn [fst snd].
  destruct (start_code W 0 =? code).
  - match goal with
    | |- context [loop ?f W result wait code ?l1 ?s1] =>
        destruct (loop_times_out W result wait code (Z.to_nat wait) f l1 s1)
          as [e [s' [Hloop [Hid Htrace]]]]
    end.
    + cbn [StartTestLoop.wait]. lia.
    + reflexivity.
    + reflexivity.
    + lia.
    + exact Hpend.
    + exists e, s'. split; [exact Hloop|]. split; [exact Hid|].
      intros m Hin. specialize (Htrace m Hin). cbn [trace] in Htrace.
      destruct Htrace as [Heq|Hold]; [discriminate Heq|exact Hold].
  - eexists; eexists. split; [reflexivity|]. split; [reflexivity|].
    cbn [trace]. intros m [Heq|Hold]; [discriminate Heq|exact Hold].
Qed.

(** A run that reads the awaited state from the first operation returns
    the JSON of that poll and records the test id; it posts once. *)
Lemma loop_succeeds W result waitTime code t : forall n fuel l s,
  Z.of_nat n < wait l -> (n < fuel)%nat ->
  (forall k, (k < n)%nat -> pending result (get_state W (operation l) (polls l + k))) ->
  state (get_state W (operation l) (polls l + n)) = Some result ->
  getTestId W = Ok t ->
  exists s',
    loop fuel W result waitTime code l s
    = (Ok (Some (get_state W (operation l) (polls l + n))), s') /\
    testId s' = Some t /\ posts (trace s') = posts (trace s).
Proof.
  induction n as [|n IH]; intros fuel l s Hwait Hfuel Hpend Hstate Hid;
    (destruct fuel as [|fuel]; [lia|]).
  - cbn [loop]. destruct (Z.ltb_spec 0 (wait l)) as [_|Hle]; [|lia].
    rewrite Nat.add_0_r in *. cbv [sbind call set_testId ret]. cbn [fst snd].
    rewrite Hstate, String.eqb_refl, Hid. eexists. split; [reflexivity|]. split; reflexivity.
  - rewrite loop_pending_step;
      [|lia|replace (polls l) with (polls l + 0)%nat by lia; apply Hpend; lia].
    match goal with
    | |- context [loop fuel W result waitTime code ?l1 ?s1] =>
        destruct (IH fuel l1 s1) as [s' [Hloop [Ht Hposts]]]
    end.
    + cbn [wait]. lia.
    + lia.
    + intros k Hk. cbn [operation polls].
      replace (S (polls l) + k)%nat with (polls l + S k)%nat by lia. apply Hpend. lia.
    + cbn [operation polls].
      replace (S (polls l) + n)%nat with (polls l + S n)%nat by lia. exact Hstate.
    + exact Hid.
    + cbn [operation polls] in Hloop.
      replace (S (polls l) + n)%nat with (polls l + S n)%nat in Hloop by lia.
      exists s'. split; [exact Hloop|]. split; [exact Ht|exact Hposts].
Qed.

(** The loop ends within the fuel [startTest] gives it: it returns a
    JSON or raises. *)
Lemma loop_total W result waitTime code : forall fuel l s,
  (Z.to_nat (wait l) + (if Nat.eqb (retry l) 0 then Z.to_nat waitTime else 0) < fuel)%nat ->
  fst (loop fuel W result waitTime code l s) <> Ok None.
Proof.
  induction fuel as [|fuel IH]; intros l s Hfuel; [lia|]. cbn [loop].
  destruct (Z.ltb_spec 0 (wait l)) as [Hlt|Hle].
  - cbv [sbind call]. cbn [fst snd trace testId].
    destruct (state (get_state W (operation l) (polls l))) as [st|];
      [|cbv [raise]; cbn; discriminate].
    destruct (String.eqb st result).
    { run_calls; cbn; discriminate. }
    destruct (String.eqb st "ERROR").
    + destruct (Nat.eqb_spec (retry l) 0) as [Hr|Hr].
      * destruct (recoverFromError W code _) as [[[]|e] s1]; [|cbn; discriminate].
        apply IH. cbn [wait retry Nat.eqb]. lia.
      * destruct (message (get_state W (operation l) (polls l)));
          cbv [raise]; cbn; discriminate.
    + apply IH. cbn [wait retry]. destruct (Nat.eqb (retry l) 0); lia.
  - destruct (Nat.eqb (retry l) 0); [|cbv [raise]; cbn; discriminate].
    run_calls; cbn; discriminate.
Qed.

Lemma startTest_total W result wait code s :
  fst (startTest W result wait code s) <> Ok None.
Proof.
  unfold startTest, postStart. cbv [sbind call]. cbn [fst snd].
  destruct (start_code W 0 =? code); [|cbn; discriminate].
  apply loop_total. cbn [StartTestLoop.wait retry Nat.eqb]. lia.
Qed.

End StartFacts.

Module StartCases.
Import Py StartTest StartTestLoop StartSpec StartFacts.

(** C3: when the first start operation is still in progress after the
    whole wait budget, [startTest] runs the recovery and posts the start
    operation again, but raises at once: the second operation, which
    reports [SUCCESS], is never polled, no test id is recorded and no
    JSON is returned. *)
Theorem retry_after_timeout_is_never_polled :
  state (get_state slow_then_ready 1 0) = Some "SUCCESS" /\
  startTest slow_then_ready "SUCCESS" 3 202 fresh
  = (Raise (AbortTest "startTraffic: State: IN_PROGRESS - Error MSG: "),
     {| testId := None;
        trace := [PostStart; VerifyLicenseSettings; VerifyAllAgentsStatusUp; RebootAgents;
                  VerifyLicenseSettings; CheckSessionState; StopTest;
                  Sleep; GetState 0 2; Sleep; GetState 0 1; Sleep; GetState 0 0;
                  PostStart] |}) /\
  fst (startTest slow_then_ready "SUCCESS" 90 202 fresh)
  = Raise (AbortTest "startTraffic: State: IN_PROGRESS - Error MSG: ") /\
  posts (trace (snd (startTest slow_then_ready "SUCCESS" 90 202 fresh))) = 2%nat /\
  existsb (fun ev => match ev with GetState 1 _ => true | _ => false end)
    (trace (snd (startTest slow_then_ready "SUCCESS" 90 202 fresh))) = false.
Proof. repeat split; vm_compute; reflexivity. Qed.

(** After an [ERROR] of the first operation the recovery is run, the
    start operation is posted again and the new operation is polled. *)
Lemma retry_after_error_is_polled :
  startTest error_then_ready "SUCCESS" 90 202 fresh
  = (Ok (Some (json "SUCCESS" "")),
     {| testId := Some "wireless-1";
        trace := [GetTestId; GetState 1 0; Sleep; PostStart; VerifyLicenseSettings;
                  VerifyAllAgentsStatusUp; RebootAgents; CheckSessionState;
                  VerifyLicenseSettings; GetState 0 0; PostStart] |}).
Proof. vm_compute. reflexivity. Qed.

(** A second [ERROR] aborts the test with the middleware's message. *)
Lemma second_error_aborts :
  fst (startTest (steady (fun _ => json "ERROR" "no agents")) "SUCCESS" 90 202 fresh)
  = Raise (AbortTest "no agents") /\
  posts (trace (snd (startTest (steady (fun _ => json "ERROR" "no agents"))
                       "SUCCESS" 90 202 fresh))) = 2%nat.
Proof. split; vm_compute; reflexivity. Qed.

(** A retried operation that stays in progress uses up its budget, one
    poll short of the first one, and the test is aborted. *)
Lemma retry_budget_runs_out :
  startTest (steady (fun k => if Nat.eqb k 0 then json "ERROR" "race"
                              else json "IN_PROGRESS" ""))
    "SUCCESS" 3 202 fresh
  = (Raise (AbortTest "Test failed to start in 3 sec"),
     {| testId := None;
        trace := [Sleep; GetState 1 1; Sleep; GetState 1 0; Sleep; PostStart;
                  VerifyLicenseSettings; VerifyAllAgentsStatusUp; RebootAgents;
                  CheckSessionState; VerifyLicenseSettings; GetState 0 0; PostStart] |}).
Proof. vm_compute. reflexivity. Qed.

(** The fuel given to the loop by [startTest] is never used up on these
    runs: the result is a return value or an exception. *)
Lemma first_attempt_success :
  startTest (steady (fun _ => json "SUCCESS" "")) "SUCCESS" 90 202 fresh
  = (Ok (Some (json "SUCCESS" "")),
     {| testId := Some "wireless-1"; trace := [GetTestId; GetState 0 0; PostStart] |}).
Proof. vm_compute. reflexivity. Qed.

End StartCases.

(** ** [convertCsvFileToJsonFile] and the artifact retrieval *)

Module FileClaims.
Import Py Host Csv Artifacts FileSpec.

Lemma collectRows_id rows : collectRows rows = rows.
Proof.
  unfold collectRows.
  assert (Hgen : forall acc,
             fold_left (fun jsonArray row => (jsonArray ++ [row])%list) rows acc
             = (acc ++ rows)%list).
  { induction rows as [|r rows IH]; intros acc; cbn [fold_left].
    - rewrite app_nil_r. reflexivity.
    - rewrite IH, <- app_assoc. reflexivity. }
  apply (Hgen []).
Qed.

(** C7 (as amended): when the CSV file can be read,
    [convertCsvFileToJsonFile] writes
    to the JSON path the dump of the list of the CSV rows, in the order of
    the file, and returns [True] when the file is written and its mode
    set; when opening or writing the JSON file raises, it logs a warning,
    leaves the files as they were and returns [False]; it does the same,
    the file being written, when setting the mode raises. *)
Theorem convertCsvFileToJsonFile_result `{Runtime} csvFilePath jsonFilePath env text :
  files env !! csvFilePath = Some text ->
  (jsonFilePath ∉ readonly env -> jsonFilePath ∉ foreign env ->
   convertCsvFileToJsonFile csvFilePath jsonFilePath env
   = (Ok true, with_files (<[jsonFilePath := json_dumps (csv_rows text)]> (files env)) env)) /\
  (jsonFilePath ∈ readonly env ->
   convertCsvFileToJsonFile csvFilePath jsonFilePath env
   = (Ok false,
      {| files := files env; readonly := readonly env; foreign := foreign env;
         warnings := convertFailedMsg :: warnings env |})) /\
  (jsonFilePath ∉ readonly env -> jsonFilePath ∈ foreign env ->
   convertCsvFileToJsonFile csvFilePath jsonFilePath env
   = (Ok false,
      {| files := <[jsonFilePath := json_dumps (csv_rows text)]> (files env);
         readonly := readonly env; foreign := foreign env;
         warnings := convertFailedMsg :: warnings env |})).
Proof.
  intros Hread. unfold convertCsvFileToJsonFile.
  cbv [sbind read_file try_except write_file chmod ret logWarning with_files].
  rewrite Hread. cbn [of_option fst snd files readonly foreign warnings].
  rewrite collectRows_id. repeat split.
  - intros Hro Hfo. destruct (decide (jsonFilePath ∈ readonly env)); [contradiction|].
    cbn [files foreign]. rewrite lookup_insert_eq.
    destruct (decide (jsonFilePath ∈ foreign env)); [contradiction|]. reflexivity.
  - intros Hro. destruct (decide (jsonFilePath ∈ readonly env)); [|contradiction].
    reflexivity.
  - intros Hro Hfo. destruct (decide (jsonFilePath ∈ readonly env)); [contradiction|].
    cbn [files foreign]. rewrite lookup_insert_eq.
    destruct (decide (jsonFilePath ∈ foreign env)); [|contradiction]. reflexivity.
Qed.

End FileClaims.

Module RetrievalFacts.
Import Py Host Csv Artifacts FileSpec.

(** The fuel the three operations give the loop is enough. *)
Lemma pollOperation_total states : forall fuel wait n,
  (Z.to_nat wait <= fuel)%nat -> pollOperation fuel states wait n <> Unfinished.
Proof.
  induction fuel as [|fuel IH]; intros wait n Hfuel; cbn [pollOperation];
    destruct (Z.ltb_spec 0 wait) as [Hlt|Hle]; try discriminate; [lia|].
  destruct (states n) as [s|]; [|discriminate].
  destruct (String.eqb s "SUCCESS"); [discriminate|].
  destruct (String.eqb s "ERROR"); [discriminate|].
  apply IH. lia.
Qed.

(** The loop after [k] polls in progress. *)
Lemma pollOperation_skip states : forall k fuel wait n,
  Z.of_nat k * 5 < wait + 5 -> (Z.to_nat wait <= fuel)%nat ->
  (forall j, (j < k)%nat -> in_progress (states (n + j)%nat)) ->
  pollOperation fuel states wait n
  = pollOperation (fuel - k) states (wait - 5 * Z.of_nat k) (n + k).
Proof.
  induction k as [|k IH]; intros fuel wait n Hk Hfuel Hprog.
  - rewrite Nat.sub_0_r, Nat.add_0_r. f_equal. lia.
  - destruct fuel as [|fuel]; [lia|]. cbn [pollOperation].
    destruct (Z.ltb_spec 0 wait) as [Hlt|Hle]; [|lia].
    destruct (Hprog 0%nat ltac:(lia)) as [s [Hs [Hsucc Herr]]].
    rewrite Nat.add_0_r in Hs. rewrite Hs, Hsucc, Herr.
    rewrite (IH fuel (wait - 5) (S n)); [|lia|lia|].
    + f_equal; lia.
    + intros j Hj. replace (S n + j)%nat with (n + S j)%nat by lia. apply Hprog. lia.
Qed.

(** [SUCCESS] read at poll [k], within the budget. *)
Lemma pollOperation_success states wait k :
  Z.of_nat k * 5 < wait ->
  (forall j, (j < k)%nat -> in_progress (states j)) ->
  states k = Some "SUCCESS" ->
  pollOperation (Z.to_nat wait) states wait 0 = Succeeded k.
Proof.
  intros Hk Hprog Hs.
  rewrite (pollOperation_skip states k); [|lia|lia|exact Hprog].
  destruct (Z.to_nat wait - k)%nat as [|fuel] eqn:Hfuel; [lia|].
  cbn [pollOperation Nat.add].
  destruct (Z.ltb_spec 0 (wait - 5 * Z.of_nat k)); [|lia]. rewrite Hs. reflexivity.
Qed.

(** [ERROR] read at poll [k], within the budget. *)
Lemma pollOperation_error states wait k :
  Z.of_nat k * 5 < wait ->
  (forall j, (j < k)%nat -> in_progress (states j)) ->
  states k = Some "ERROR" ->
  pollOperation (Z.to_nat wait) states wait 0 = Errored.
Proof.
  intros Hk Hprog Hs.
  rewrite (pollOperation_skip states k); [|lia|lia|exact Hprog].
  destruct (Z.to_nat wait - k)%nat as [|fuel] eqn:Hfuel; [lia|].
  cbn [pollOperation Nat.add].
  destruct (Z.ltb_spec 0 (wait - 5 * Z.of_nat k)); [|lia]. rewrite Hs. reflexivity.
Qed.

(** The budget used up: every poll made was in progress. *)
Lemma pollOperation_expired states wait :
  (forall j, Z.of_nat j * 5 < wait -> in_progress (states j)) ->
  exists w, pollOperation (Z.to_nat wait) states wait 0 = Expired w /\ w <= 0.
Proof.
  intros Hprog.
  destruct (Z.ltb_spec 0 wait) as [Hlt|Hle].
  - set (k := Z.to_nat ((wait + 4) / 5)).
    assert (Hk1 : wait <= 5 * Z.of_nat k).
    { unfold k. rewrite Z2Nat.id by (apply Z.div_pos; lia).
      pose proof (Z.mul_div_le (wait + 4) 5 ltac:(lia)).
      pose proof (Z.mod_pos_bound (wait + 4) 5 ltac:(lia)).
      pose proof (Z.div_mod (wait + 4) 5 ltac:(lia)). lia. }
    assert (Hk2 : Z.of_nat k * 5 < wait + 5).
    { unfold k. rewrite Z2Nat.id by (apply Z.div_pos; lia).
      pose proof (Z.mul_div_le (wait + 4) 5 ltac:(lia)). lia. }
    rewrite (pollOperation_skip states k); [|exact Hk2|lia|].
    + exists (wait - 5 * Z.of_nat k). split; [|lia].
      destruct (Z.to_nat wait - k)%nat; cbn [pollOperation];
        destruct (Z.ltb_spec 0 (wait - 5 * Z.of_nat k)); try lia; reflexivity.
    + intros j Hj. apply Hprog. cbn [Nat.add]. lia.
  - exists wait. split; [|exact Hle].
    destruct (Z.to_nat wait); cbn [pollOperation];
      destruct (Z.ltb_spec 0 wait); try lia; reflexivity.
Qed.

End RetrievalFacts.

Module RetrievalClaims.
Import Py Host Csv Artifacts FileSpec RetrievalFacts.

Ltac none_cases Hid Hnot :=
  cbv [sbind lift logWarning ret]; rewrite Hid; cbn [fst snd];
  destruct Hnot as [Hcode|[Herr|[w Hexp]]];
  [ match goal with
    | |- context [generate_code ?W =? ?c] =>
        destruct (Z.eqb_spec (generate_code W) c); [contradiction|]
    end; cbn [negb]; split; reflexivity
  | destruct (negb _); [split; reflexivity|]; rewrite Herr; split; reflexivity
  | destruct (negb _); [split; reflexivity|]; rewrite Hexp; split; reflexivity ].

(** The three operations return [None], and write no file, when the
    generate request does not answer the expected status code, when the
    operation reports [ERROR], and when the budget is used up. *)
Lemma getPDFreport_none W mw wait statusCode env t :
  testId_reply W = Ok t -> not_retrieved W wait statusCode ->
  fst (getPDFreport W mw wait statusCode env) = Ok (Some None) /\
  files (snd (getPDFreport W mw wait statusCode env)) = files env.
Proof. intros Hid Hnot. unfold getPDFreport. none_cases Hid Hnot. Qed.

Lemma getCSVs_none `{Runtime} W mw filter convert wait statusCode env t :
  testId_reply W = Ok t -> not_retrieved W wait statusCode ->
  fst (getCSVs W mw filter convert wait statusCode env) = Ok (Some None) /\
  files (snd (getCSVs W mw filter convert wait statusCode env)) = files env.
Proof. intros Hid Hnot. unfold getCSVs. none_cases Hid Hnot. Qed.

Lemma getCapturedLogs_none W mw wait statusCode env t :
  testId_reply W = Ok t -> not_retrieved W wait statusCode ->
  fst (getCapturedLogs W mw wait statusCode env) = Ok (Some None) /\
  files (snd (getCapturedLogs W mw wait statusCode env)) = files env.
Proof. intros Hid Hnot. unfold getCapturedLogs. none_cases Hid Hnot. Qed.

(** [getPDFreport] on [SUCCESS]: the download is written to
    [<folder>/<name>.pdf] and that path is returned. *)
Lemma getPDFreport_success W mw wait statusCode env t k :
  testId_reply W = Ok t -> generate_code W = statusCode ->
  pollOperation (Z.to_nat wait) (states W) wait 0 = Succeeded k ->
  let filename := testcaseResultsFolder mw ++ "/" ++ testcaseName mw ++ ".pdf" in
  filename ∉ readonly env -> filename ∉ foreign env ->
  getPDFreport W mw wait statusCode env
  = (Ok (Some (Some filename)),
     with_files (<[filename := content (download W)]> (files env)) env).
Proof.
  intros Hid Hcode Hpoll filename Hro Hfo. unfold getPDFreport.
  cbv [sbind lift ret write_file chmod]. rewrite Hid, Hcode, Z.eqb_refl, Hpoll.
  cbn [negb fst snd]. fold filename.
  destruct (decide (filename ∈ readonly env)); [contradiction|].
  cbn [with_files files foreign]. rewrite lookup_insert_eq.
  destruct (decide (filename ∈ foreign env)); [contradiction|]. reflexivity.
Qed.

(** [getCapturedLogs] on [SUCCESS]: the download is written under the
    name given by the [Content-Disposition] header and that path is
    returned. *)
Lemma getCapturedLogs_success W mw wait statusCode env t k disposition part :
  testId_reply W = Ok t -> generate_code W = statusCode ->
  pollOperation (Z.to_nat wait) (states W) wait 0 = Succeeded k ->
  dict_get "Content-Disposition" (headers (download W)) = Some disposition ->
  nth_error (split "=" disposition) 1 = Some part ->
  let filename :=
    testcaseResultsFolder mw ++ "/" ++ testcaseName mw ++ "-"
    ++ replace dquote EmptyString part in
  filename ∉ readonly env -> filename ∉ foreign env ->
  getCapturedLogs W mw wait statusCode env
  = (Ok (Some (Some filename)),
     with_files (<[filename := content (download W)]> (files env)) env).
Proof.
  intros Hid Hcode Hpoll Hdisp Hpart filename Hro Hfo. unfold getCapturedLogs.
  cbv [sbind lift ret write_file chmod index]. rewrite Hid, Hcode, Z.eqb_refl, Hpoll, Hdisp.
  cbn [negb fst snd of_option]. rewrite Hpart. cbn [of_option fst snd]. fold filename.
  destruct (decide (filename ∈ readonly env)); [contradiction|].
  cbn [with_files files foreign]. rewrite lookup_insert_eq.
  destruct (decide (filename ∈ foreign env)); [contradiction|]. reflexivity.
Qed.

(** The three operations end: they return or raise. *)
Lemma retrievals_total `{Runtime} W mw filter convert wait statusCode env :
  fst (getPDFreport W mw wait statusCode env) <> Ok None /\
  fst (getCSVs W mw filter convert wait statusCode env) <> Ok None /\
  fst (getCapturedLogs W mw wait statusCode env) <> Ok None.
Proof.
  pose proof (pollOperation_total (states W) (Z.to_nat wait) wait 0 ltac:(lia)) as Htotal.
  unfold getPDFreport, getCSVs, getCapturedLogs.
  cbv [sbind lift logWarning ret raise].
  destruct (testId_reply W); cbn [fst snd]; [|repeat split; discriminate].
  destruct (negb (generate_code W =? statusCode)); [repeat split; discriminate|].
  destruct (pollOperation (Z.to_nat wait) (states W) wait 0);
    try contradiction; cbn [fst snd]; repeat split; try discriminate.
  - destruct (write_file _ _ env) as [[[]|e] env1]; cbn [fst]; [|discriminate].
    destruct (chmod _ env1) as [[[]|e] env2]; cbn [fst]; discriminate.
  - destruct (of_option _ _); cbn [fst]; [|discriminate].
    destruct (write_file _ _ env) as [[[]|e] env1]; cbn [fst]; [|discriminate].
    destruct (chmod _ env1) as [[[]|e] env2]; cbn [fst]; [|discriminate].
    destruct (extractall _ _ env2) as [[l|e] env3]; cbn [fst]; [|discriminate].
    destruct (sfor _ l env3) as [[[]|e] env4]; cbn [fst]; [|discriminate].
    destruct (rmtree _ env4) as [[[]|e] env5]; cbn [fst]; discriminate.
  - destruct (of_option _ _); cbn [fst]; [|discriminate].
    destruct (index _ _); cbn [fst]; [|discriminate].
    destruct (write_file _ _ env) as [[[]|e] env1]; cbn [fst]; [|discriminate].
    destruct (chmod _ env1) as [[[]|e] env2]; cbn [fst]; discriminate.
Qed.

End RetrievalClaims.

Module FileCases.
Import Py Host Csv Artifacts FileSpec FileClaims RetrievalFacts RetrievalClaims Sample.

Lemma convertCsvFileToJsonFile_result_witness :
  convertCsvFileToJsonFile "/r/a.csv" "/r/a.json" csv_env
  = (Ok true, with_files (<["/r/a.json" := "[[x,y],[1,2]]"]> (files csv_env)) csv_env).
Proof.
  apply (proj1 (convertCsvFileToJsonFile_result (H := runtime) "/r/a.csv" "/r/a.json" csv_env
                  ("x,y" ++ newline ++ "1,2") eq_refl)).
  - apply not_elem_of_empty.
  - apply not_elem_of_empty.
Defined.

(** C7 (counterexample): the JSON file is written with the rows of the
    CSV file, and [False] is returned with a warning, because
    [os.chmod] raises inside the same [try]. *)
Lemma conversion_written_yet_false :
  ~ conversion_claim (H := runtime) "/r/a.csv" "/r/a.json" shared_env.
Proof.
  intros Hclaim.
  destruct (Hclaim ("x,y" ++ newline ++ "1,2") eq_refl) as [Hwritten _].
  specialize (Hwritten (not_elem_of_empty _)).
  vm_compute in Hwritten. discriminate Hwritten.
Qed.

Lemma conversion_on_shared_path :
  let r := convertCsvFileToJsonFile "/r/a.csv" "/r/a.json" shared_env in
  fst r = Ok false /\
  files (snd r) !! "/r/a.json" = Some "[[x,y],[1,2]]" /\
  warnings (snd r) = [convertFailedMsg].
Proof. cbv zeta. repeat split; vm_compute; reflexivity. Qed.

(** C6: [getCSVs] with its default arguments ([csvFilesToGet='all'],
    [convertCsvToJson=False]) on an operation that reaches [SUCCESS] and
    an archive with a CSV file: the archive is written, then the loop over
    the extracted files reads [allKpiJsonFolder], which is bound only when
    [convertCsvToJson] is true, and the call raises instead of returning
    the path.  With [convertCsvToJson=True] the path is returned. *)
Theorem getCSVs_default_arguments_raise :
  pollOperation (Z.to_nat 180) (states ready) 180 0 = Succeeded 0 /\
  getCSVs ready names (FilterStr "all") false 180 202 empty_env
  = (Raise (UnboundLocalError "allKpiJsonFolder"),
     {| files := {[ "/r/tc_csv.zip" := "Fullcore_a.csv=x,y"; "/r/CSV/_a.csv" := "x,y" ]};
        readonly := ∅; foreign := ∅; warnings := [] |}) /\
  getCSVs ready names (FilterStr "all") true 180 202 empty_env
  = (Ok (Some (Some "/r/tc_csv.zip")),
     {| files := {[ "/r/tc_csv.zip" := "Fullcore_a.csv=x,y";
                    "/r/JSON_KPIs/_a.json" := "[[x,y]]" ]};
        readonly := ∅; foreign := ∅; warnings := [] |}).
Proof. repeat split; vm_compute; reflexivity. Qed.

(** The two other operations return the path they wrote. *)
Lemma other_retrievals_return_path :
  getPDFreport ready names 120 202 empty_env
  = (Ok (Some (Some "/r/tc.pdf")),
     with_files {[ "/r/tc.pdf" := "Fullcore_a.csv=x,y" ]} empty_env) /\
  getCapturedLogs ready names 120 202 empty_env
  = (Ok (Some (Some "/r/tc-r.zip")),
     with_files {[ "/r/tc-r.zip" := "Fullcore_a.csv=x,y" ]} empty_env).
Proof. split; vm_compute; reflexivity. Qed.

End FileCases.

(** ** The state of the session: [checkSessionState] and
    [verifySessionForStoppedState] *)

Module SessionFacts.
Import Py Session SessionSpec.

Ltac run_st := unfold sbind, get, sleep, lift, ret, raise, modifySessionState; cbn [fst snd gets trace].

Lemma ceil5_step w e : e < w -> Z.to_nat ((w - e + 4) / 5) = S (Z.to_nat ((w - (e + 5) + 4) / 5)).
Proof.
  intros H.
  replace (w - e + 4) with ((w - (e + 5) + 4) + 1 * 5) by lia.
  rewrite Z.div_add by lia.
  assert (0 <= (w - (e + 5) + 4) / 5) by (apply Z.div_pos; lia).
  lia.
Qed.

(** The loop ends within [fuel] rounds when [fuel] exceeds the seconds
    left. *)
Lemma waitLoop_total W status waitTime : forall fuel elapsed j s,
  (Z.to_nat (waitTime - elapsed) < fuel)%nat ->
  fst (waitLoop fuel W status waitTime elapsed j s) <> Ok None.
Proof.
  induction fuel as [|fuel IH]; intros elapsed j s Hf; [lia|].
  cbn [waitLoop]. destruct (Z.ltb_spec elapsed waitTime) as [Hlt|Hge]; [|discriminate].
  run_st. destruct (key_status j) as [v|e]; cbn; [|discriminate].
  destruct (is_str v status); [discriminate|].
  destruct (test_reply W (gets s)) as [c json| |e]; cbn; try discriminate.
  apply IH. lia.
Qed.

(** What a run of the loop does to the state, and which response it
    gives back: the one it was given, one whose status was seen to
    differ, or the answer to the last GET. *)
Lemma waitLoop_spec W status waitTime : forall fuel elapsed j s,
  (gets s <= gets (snd (waitLoop fuel W status waitTime elapsed j s))
   <= gets s + Z.to_nat ((waitTime - elapsed + 4) / 5))%nat /\
  slept (trace (snd (waitLoop fuel W status waitTime elapsed j s)))
  <= slept (trace s)
     + 5 * Z.of_nat (gets (snd (waitLoop fuel W status waitTime elapsed j s)) - gets s) /\
  patches (trace (snd (waitLoop fuel W status waitTime elapsed j s))) = patches (trace s) /\
  forall j',
    fst (waitLoop fuel W status waitTime elapsed j s) = Ok (Some j') ->
    (j' = j /\ snd (waitLoop fuel W status waitTime elapsed j s) = s) \/
    (exists v, Session.status j' = Some v /\ is_str v status = false) \/
    (exists c,
       (gets s < gets (snd (waitLoop fuel W status waitTime elapsed j s)))%nat /\
       test_reply W (gets (snd (waitLoop fuel W status waitTime elapsed j s)) - 1)
       = Answer c j').
Proof.
  induction fuel as [|fuel IH]; intros elapsed j s.
  - cbn. repeat split; try lia. discriminate.
  - cbn [waitLoop]. destruct (Z.ltb_spec elapsed waitTime) as [Hlt|Hge].
    2:{ cbn. repeat split; try lia. intros j' [= <-]. now left. }
    run_st. unfold key_status. destruct (Session.status j) as [v|] eqn:Hv; cbn.
    2:{ repeat split; try lia. discriminate. }
    destruct (is_str v status) eqn:Hs; cbn.
    { repeat split; try lia. intros j' [= <-]. now left. }
    rewrite (ceil5_step _ _ Hlt).
    destruct (test_reply W (gets s)) as [c json| |e] eqn:Hr; cbn.
    + specialize (IH (elapsed + 5) json
                    {| gets := S (gets s); trace := Sleep 5 :: GetTest :: trace s |}).
      cbn [gets trace slept patches] in IH.
      destruct IH as (Hg & Hsl & Hp & Hj). repeat split; try lia.
      intros j' Hj'. destruct (Hj j' Hj') as [[-> Hs']|[Hm|(c' & Hlt' & Hc')]].
      * right; right. exists c. rewrite Hs'. cbn. split; [lia|].
        now rewrite Nat.sub_0_r.
      * right; left. exact Hm.
      * right; right. exists c'. split; [lia|exact Hc'].
    + repeat split; try lia. intros j' [= <-]. right; left. now exists v.
    + repeat split; try lia. discriminate.
Qed.

Lemma is_str_eq v s : is_str v s = true -> v = JStr s.
Proof.
  destruct v as [t| |]; cbn; try discriminate.
  intros H. apply String.eqb_eq in H. now subst.
Qed.

(** One round of the loop that reads an answer. *)
Lemma waitLoop_step W status waitTime fuel elapsed j s v c json :
  elapsed < waitTime -> Session.status j = Some v -> is_str v status = false ->
  test_reply W (gets s) = Answer c json ->
  waitLoop (S fuel) W status waitTime elapsed j s
  = waitLoop fuel W status waitTime (elapsed + 5) json
      {| gets := S (gets s); trace := Sleep 5 :: GetTest :: trace s |}.
Proof.
  intros Hlt Hv Hs Hr. cbn [waitLoop].
  destruct (Z.ltb_spec elapsed waitTime); [|lia].
  run_st. unfold key_status. rewrite Hv. cbn. rewrite Hs, Hr. reflexivity.
Qed.

(** [k] rounds that all read another status. *)
Lemma waitLoop_skip W status waitTime : forall k fuel elapsed j s,
  (exists v, Session.status j = Some v /\ is_str v status = false) ->
  (forall i, (i < k)%nat -> other_status status (test_reply W (gets s + i))) ->
  (k = 0%nat \/ elapsed + 5 * (Z.of_nat k - 1) < waitTime) ->
  (k <= fuel)%nat ->
  exists jk,
    waitLoop fuel W status waitTime elapsed j s
    = waitLoop (fuel - k) W status waitTime (elapsed + 5 * Z.of_nat k) jk
        {| gets := gets s + k; trace := (rounds k ++ trace s)%list |} /\
    (exists v, Session.status jk = Some v /\ is_str v status = false) /\
    (k = 0%nat /\ jk = j \/ exists c, test_reply W (gets s + k - 1) = Answer c jk).
Proof.
  induction k as [|k IH]; intros fuel elapsed j s Hj Hall Hlt Hf.
  - exists j. split; [|split; [exact Hj|now left]].
    replace (elapsed + 5 * Z.of_nat 0) with elapsed by lia.
    rewrite Nat.sub_0_r, Nat.add_0_r. cbn. now destruct s.
  - destruct fuel as [|fuel]; [lia|].
    destruct Hj as (v & Hv & Hs).
    destruct (Hall 0%nat ltac:(lia)) as (c & json & v' & Hr & Hv' & Hs').
    rewrite Nat.add_0_r in Hr.
    rewrite (waitLoop_step _ _ _ _ _ _ _ v c json) by (try assumption; lia).
    destruct (IH fuel (elapsed + 5) json
                {| gets := S (gets s); trace := Sleep 5 :: GetTest :: trace s |})
      as (jk & Hrun & Hjk & Hlast).
    + now exists v'.
    + intros i Hi. cbn [gets]. replace (S (gets s) + i)%nat with (gets s + S i)%nat by lia.
      apply Hall. lia.
    + destruct k; [now left|right]. lia.
    + lia.
    + exists jk. split; [|split; [exact Hjk|right]].
      * rewrite Hrun. cbn [gets trace].
        replace (S fuel - S k)%nat with (fuel - k)%nat by lia.
        replace (elapsed + 5 + 5 * Z.of_nat k) with (elapsed + 5 * Z.of_nat (S k)) by lia.
        replace (S (gets s) + k)%nat with (gets s + S k)%nat by lia.
        do 2 f_equal.
        clear. induction k as [|k IHk]; [reflexivity|].
        cbn [rounds app] in *. now rewrite IHk.
      * cbn [gets] in Hlast. destruct Hlast as [[-> ->]|(c' & Hc')].
        -- exists c. now rewrite Nat.add_1_r, Nat.sub_succ, Nat.sub_0_r.
        -- exists c'. replace (gets s + S k - 1)%nat with (S (gets s) + k - 1)%nat by lia.
           exact Hc'.
Qed.

End SessionFacts.

Module SessionClaims.
Import Py Session SessionSpec SessionFacts.

Lemma ceil5_bound w : 5 * Z.of_nat (Z.to_nat ((w + 4) / 5)) < Z.max w 0 + 5.
Proof.
  destruct (Z.le_gt_cases w 0) as [Hw|Hw].
  - assert ((w + 4) / 5 <= 0).
    { apply Z.lt_succ_r. apply Z.div_lt_upper_bound; lia. }
    lia.
  - assert (0 <= (w + 4) / 5) by (apply Z.div_pos; lia).
    rewrite Z2Nat.id by lia.
    pose proof (Z.mul_div_le (w + 4) 5 ltac:(lia)). lia.
Qed.

Lemma checkSessionState_run W status waitTime s r s' :
  checkSessionState W status waitTime s = (r, s') ->
  r <> Ok None /\
  (gets s < gets s' <= gets s + 1 + Z.to_nat ((waitTime + 4) / 5))%nat /\
  slept (trace s') - slept (trace s) < Z.max waitTime 0 + 5 /\
  patches (trace s') = patches (trace s) /\
  (r = Ok (Some true) -> reports status (test_reply W (gets s' - 1))).
Proof.
  unfold checkSessionState.
  pose proof (ceil5_bound waitTime) as Hc.
  set (s1 := {| gets := S (gets s); trace := GetTest :: trace s |}).
  assert (Hget : get W s = (Ok (test_reply W (gets s)), s1)) by reflexivity.
  unfold sbind at 1. rewrite Hget. unfold sbind at 1. unfold lift at 1.
  destruct (test_reply W (gets s)) as [c j0| |e] eqn:Hr0; cbn [response snd].
  2,3: intros [= <- <-]; cbn; repeat split; try lia; try discriminate.
  pose proof (waitLoop_total W status waitTime (S (Z.to_nat waitTime)) 0 j0 s1) as Htot.
  pose proof (waitLoop_spec W status waitTime (S (Z.to_nat waitTime)) 0 j0 s1) as Hspec.
  unfold sbind at 1.
  destruct (waitLoop (S (Z.to_nat waitTime)) W status waitTime 0 j0 s1) as [[final|e] s2].
  2:{ intros [= <- <-]. cbn [fst snd] in *. destruct Hspec as (Hg & Hsl & Hp & _).
      subst s1. cbn in *.
      replace (waitTime - 0 + 4) with (waitTime + 4) in Hg by lia.
      repeat split; try lia; try discriminate. }
  cbn [fst snd] in *.
  destruct Hspec as (Hg & Hsl & Hp & Hj).
  replace (waitTime - 0 + 4) with (waitTime + 4) in Hg by lia.
  assert (Hs1 : gets s1 = S (gets s)) by reflexivity.
  assert (Ht1 : slept (trace s1) = slept (trace s)) by reflexivity.
  assert (Hp1 : patches (trace s1) = patches (trace s)) by reflexivity.
  destruct final as [j|].
  2:{ exfalso. apply Htot; [lia|reflexivity]. }
  unfold sbind, lift, ret, raise, key_status.
  destruct (Session.status j) as [v|] eqn:Hv; cbn.
  2:{ intros [= <- <-]. repeat split; try lia; discriminate. }
  destruct (is_false v) eqn:Hf; cbn.
  { intros [= <- <-]. repeat split; try lia; discriminate. }
  intros [= <- <-].
  repeat split; try lia; try discriminate.
  intros [= Hb]. apply is_str_eq in Hb. subst v.
  destruct (Hj j eq_refl) as [[Hj0 Hs2]|[(v' & Hv' & Hs')|(c' & Hlt & Hc')]].
  - exists c, j0. subst j s2 s1. cbn. rewrite Nat.sub_0_r. now split.
  - rewrite Hv in Hv'. injection Hv' as <-. cbn in Hs'. now rewrite String.eqb_refl in Hs'.
  - now exists c', j.
Qed.

(** X1 ([MW.checkSessionState]): the wait always ends; it makes at least
    one and at most [1 + ceil(waitTime / 5)] GETs of the session's test,
    sleeps less than [waitTime + 5] seconds in all and sends nothing
    else; and it returns [True] only if the last GET it made was answered
    with the awaited status. *)
Theorem checkSessionState_true_on_last_answer W status waitTime s :
  let r := checkSessionState W status waitTime s in
  fst r <> Ok None /\
  (gets s < gets (snd r) <= gets s + 1 + Z.to_nat ((waitTime + 4) / 5))%nat /\
  slept (trace (snd r)) - slept (trace s) < Z.max waitTime 0 + 5 /\
  patches (trace (snd r)) = patches (trace s) /\
  (fst r = Ok (Some true) -> reports status (test_reply W (gets (snd r) - 1))).
Proof.
  cbv zeta. destruct (checkSessionState W status waitTime s) as [r s'] eqn:Hrun.
  cbn [fst snd]. exact (checkSessionState_run _ _ _ _ _ _ Hrun).
Qed.

(** X2 ([MW.checkSessionState]): if the [k]-th GET after the first is the
    first one answered with the awaited status and the budget lets it be
    made ([k = 0] or [5 (k - 1) < waitTime]), the wait returns [True]
    after exactly [k + 1] GETs and [k] sleeps of five seconds. *)
Theorem checkSessionState_returns_at_first_sighting W status waitTime s k :
  (forall i, (i < k)%nat -> other_status status (test_reply W (gets s + i))) ->
  reports status (test_reply W (gets s + k)) ->
  (k = 0%nat \/ 5 * (Z.of_nat k - 1) < waitTime) ->
  checkSessionState W status waitTime s
  = (Ok (Some true),
     {| gets := gets s + k + 1; trace := (rounds k ++ GetTest :: trace s)%list |}).
Proof.
  intros Hall (c & json & Hr & Hst) Hk.
  assert (Hfin : forall fuel elapsed s',
             waitLoop (S fuel) W status waitTime elapsed json s' = (Ok (Some json), s')).
  { intros fuel elapsed s'. cbn [waitLoop]. destruct (elapsed <? waitTime); [|reflexivity].
    unfold sbind, lift, key_status. rewrite Hst. cbn. now rewrite String.eqb_refl. }
  unfold checkSessionState.
  unfold sbind at 1. unfold get at 1. cbn [fst snd].
  destruct k as [|k].
  - rewrite Nat.add_0_r in Hr. rewrite Hr. unfold sbind at 1. unfold lift at 1.
    cbn [response snd]. unfold sbind at 1. rewrite Hfin.
    unfold sbind, lift, ret, key_status. rewrite Hst. cbn. rewrite String.eqb_refl.
    do 2 f_equal. lia.
  - destruct (Hall 0%nat ltac:(lia)) as (c0 & j0 & v0 & Hr0 & Hv0 & Hs0).
    rewrite Nat.add_0_r in Hr0. rewrite Hr0.
    unfold sbind at 1. unfold lift at 1. cbn [response snd].
    destruct Hk as [Hk|Hk]; [discriminate|].
    destruct (waitLoop_skip W status waitTime k (S (Z.to_nat waitTime)) 0 j0
                {| gets := S (gets s); trace := GetTest :: trace s |})
      as (jk & Hrun & (vk & Hvk & Hsk) & _).
    + now exists v0.
    + intros i Hi. cbn [gets]. replace (S (gets s) + i)%nat with (gets s + S i)%nat by lia.
      apply Hall. lia.
    + destruct k; [now left|right]. lia.
    + lia.
    + unfold sbind at 1. rewrite Hrun. cbn [gets trace].
      assert (Hfuel : (S (Z.to_nat waitTime) - k = S (S (Z.to_nat waitTime - S k)))%nat) by lia.
      rewrite Hfuel.
      rewrite (waitLoop_step _ _ _ _ _ _ _ vk c json); try assumption; try lia.
      2:{ cbn [gets]. replace (S (gets s) + k)%nat with (gets s + S k)%nat by lia. exact Hr. }
      rewrite Hfin. cbn [gets trace].
      unfold sbind, lift, ret, key_status. rewrite Hst. cbn. rewrite String.eqb_refl.
      do 2 f_equal. lia.
Qed.

(** X3 ([MW.checkSessionState]): if every GET the budget allows, the
    first one and [ceil(waitTime / 5)] more, is answered with a status
    string other than the awaited one, the wait returns [False] after
    sleeping five seconds after each of the later GETs. *)
Theorem checkSessionState_gives_up W status waitTime s :
  (forall i, (i <= Z.to_nat ((waitTime + 4) / 5))%nat ->
     exists c json t,
       test_reply W (gets s + i) = Answer c json /\
       Session.status json = Some (JStr t) /\ t <> status) ->
  checkSessionState W status waitTime s
  = (Ok (Some false),
     {| gets := gets s + Z.to_nat ((waitTime + 4) / 5) + 1;
        trace := (rounds (Z.to_nat ((waitTime + 4) / 5)) ++ GetTest :: trace s)%list |}).
Proof.
  set (n := Z.to_nat ((waitTime + 4) / 5)). intros Hall.
  assert (Hother : forall i, (i <= n)%nat -> other_status status (test_reply W (gets s + i))).
  { intros i Hi. destruct (Hall i Hi) as (c & json & t & Hr & Hv & Ht).
    exists c, json, (JStr t). repeat split; try assumption. cbn.
    now apply String.eqb_neq. }
  assert (Hn : n = 0%nat \/ 5 * (Z.of_nat n - 1) < waitTime).
  { destruct (Z.le_gt_cases waitTime 0) as [Hw|Hw].
    - left. subst n. assert ((waitTime + 4) / 5 <= 0); [|lia].
      apply Z.lt_succ_r. apply Z.div_lt_upper_bound; lia.
    - right. subst n. assert (0 <= (waitTime + 4) / 5) by (apply Z.div_pos; lia).
      rewrite Z2Nat.id by lia.
      pose proof (Z.mul_div_le (waitTime + 4) 5 ltac:(lia)).
      pose proof (Z.mul_succ_div_gt (waitTime + 4) 5 ltac:(lia)). lia. }
  assert (Hfull : waitTime <= 5 * Z.of_nat n).
  { destruct (Z.le_gt_cases waitTime 0) as [Hw|Hw]; [lia|].
    subst n. assert (0 <= (waitTime + 4) / 5) by (apply Z.div_pos; lia).
    rewrite Z2Nat.id by lia.
    pose proof (Z.mul_succ_div_gt (waitTime + 4) 5 ltac:(lia)). lia. }
  assert (Hfuel : (n <= Z.to_nat waitTime)%nat).
  { destruct Hn as [->|Hn]; [lia|]. lia. }
  unfold checkSessionState.
  unfold sbind at 1. unfold get at 1. cbn [fst snd].
  destruct (Hall 0%nat ltac:(lia)) as (c0 & j0 & t0 & Hr0 & Hv0 & Ht0).
  rewrite Nat.add_0_r in Hr0. rewrite Hr0.
  unfold sbind at 1. unfold lift at 1. cbn [response snd].
  destruct (waitLoop_skip W status waitTime n (S (Z.to_nat waitTime)) 0 j0
              {| gets := S (gets s); trace := GetTest :: trace s |})
    as (jk & Hrun & _ & Hlast).
  - exists (JStr t0). split; [exact Hv0|]. cbn. now apply String.eqb_neq.
  - intros i Hi. cbn [gets]. replace (S (gets s) + i)%nat with (gets s + S i)%nat by lia.
    apply Hother. lia.
  - lia.
  - lia.
  - unfold sbind at 1. rewrite Hrun. cbn [gets trace].
    replace (S (Z.to_nat waitTime) - n)%nat with (S (Z.to_nat waitTime - n)) by lia.
    cbn [waitLoop]. destruct (Z.ltb_spec (0 + 5 * Z.of_nat n) waitTime) as [Hlt|_]; [lia|].
    assert (Hjk : exists t, Session.status jk = Some (JStr t) /\ t <> status).
    { cbn [gets] in Hlast. destruct Hlast as [[Hz ->]|(c & Hc)].
      - now exists t0.
      - destruct (Hall n ltac:(lia)) as (c' & json & t & Hr & Hv & Ht).
        replace (S (gets s) + n - 1)%nat with (gets s + n)%nat in Hc by lia.
        rewrite Hr in Hc. injection Hc as _ <-. now exists t. }
    destruct Hjk as (t & Hv & Ht).
    unfold sbind, lift, ret, key_status. cbn. rewrite Hv. cbn.
    apply String.eqb_neq in Ht. rewrite Ht.
    do 2 f_equal. lia.
Qed.

Lemma getSessionStatus_run W s :
  snd (getSessionStatus W s) = {| gets := S (gets s); trace := GetTest :: trace s |} /\
  forall v,
    fst (getSessionStatus W s) = Ok v ->
    exists j, test_reply W (gets s) = Answer 200 j /\ Session.status j = Some v.
Proof.
  unfold getSessionStatus, sbind, get, lift, raise, key_status. cbn [fst snd].
  destruct (test_reply W (gets s)) as [c j| |e]; cbn; try (split; [reflexivity|discriminate]).
  destruct (Z.eqb_spec c 200) as [->|Hc]; cbn.
  - split; [reflexivity|]. intros v Hv. exists j. split; [reflexivity|].
    destruct (Session.status j); cbn in Hv; congruence.
  - split; [reflexivity|discriminate].
Qed.

Lemma getTestDuration_run W m s :
  snd (getTestDuration W m s) = {| gets := S (gets s); trace := GetTest :: trace s |}.
Proof.
  unfold getTestDuration, sbind, get, lift, raise, ret. cbn [fst snd].
  destruct (test_reply W (gets s)) as [c j| |e]; cbn; try reflexivity.
  destruct (c =? 200); cbn; [|reflexivity].
  now destruct (testDuration j).
Qed.

Lemma verifySessionForStoppedState_run W s r s' :
  verifySessionForStoppedState W s = (r, s') ->
  r <> Ok None /\
  (patches (trace s') <= patches (trace s) + 1)%nat /\
  (r = Ok (Some tt) ->
   (0 < gets s')%nat /\
   exists j, test_reply W (gets s' - 1) = Answer 200 j /\
             Session.status j = Some (JStr "STOPPED")).
Proof.
  unfold verifySessionForStoppedState.
  unfold sbind at 1.
  pose proof (getTestDuration_run W 2 s) as Hd.
  destruct (getTestDuration W 2 s) as [[waitTime|e] s1]; cbn [snd] in Hd; subst s1.
  2:{ intros [= <- <-]. cbn. repeat split; try lia; discriminate. }
  unfold sbind at 1.
  destruct (checkSessionState W "STOPPED" waitTime _) as [r1 s2] eqn:Hc1.
  apply checkSessionState_run in Hc1. destruct Hc1 as (Ht1 & _ & _ & Hp1 & _).
  cbn [trace patches] in Hp1.
  destruct r1 as [[b|]|e]; [|congruence|].
  2:{ intros [= <- <-]. repeat split; try lia; discriminate. }
  unfold sbind at 1.
  pose proof (getSessionStatus_run W s2) as (Hs3 & Hv3).
  destruct (getSessionStatus W s2) as [[v|e] s3]; cbn [fst snd] in *; subst s3.
  2:{ intros [= <- <-]. cbn. repeat split; try lia; discriminate. }
  destruct (is_str v "STOPPING") eqn:Hstopping.
  - unfold sbind at 1. unfold sbind at 1. unfold modifySessionState at 1.
    destruct (patch_code W =? 204).
    2:{ intros [= <- <-]. cbn. repeat split; try lia; discriminate. }
    unfold sbind at 1.
    destruct (checkSessionState W "STOPPED" 60 _) as [r4 s4] eqn:Hc4.
    apply checkSessionState_run in Hc4. destruct Hc4 as (Ht4 & _ & _ & Hp4 & _).
    cbn [trace patches] in Hp4.
    destruct r4 as [[b4|]|e]; [|congruence|].
    2:{ intros [= <- <-]. repeat split; try lia; discriminate. }
    unfold sbind at 1.
    pose proof (getSessionStatus_run W s4) as (Hs5 & Hv5).
    destruct (getSessionStatus W s4) as [[v5|e] s5]; cbn [fst snd] in *; subst s5.
    2:{ intros [= <- <-]. cbn. repeat split; try lia; discriminate. }
    unfold ret at 1.
    destruct (is_str v5 "STOPPED") eqn:Hstopped.
    + intros [= <- <-]. cbn [gets trace patches]. repeat split; try lia; try discriminate.
      destruct (Hv5 v5 eq_refl) as (j & Hj & Hvj).
      apply is_str_eq in Hstopped. subst v5.
      exists j. now rewrite Nat.sub_succ, Nat.sub_0_r.
    + intros [= <- <-]. cbn [gets trace patches]. repeat split; try lia; discriminate.
  - unfold sbind at 1. unfold ret at 1.
    destruct (is_str v "STOPPED") eqn:Hstopped.
    + intros [= <- <-]. cbn [gets trace patches]. repeat split; try lia; try discriminate.
      destruct (Hv3 v eq_refl) as (j & Hj & Hvj).
      apply is_str_eq in Hstopped. subst v.
      exists j. now rewrite Nat.sub_succ, Nat.sub_0_r.
    + intros [= <- <-]. cbn [gets trace patches]. repeat split; try lia; discriminate.
Qed.

(** X4 ([Main.verifySessionForStoppedState]): the verification always
    ends, sends at most one PATCH of the session's state, and returns
    without an exception only if the last GET it made was answered with
    code 200 and the status [STOPPED]. *)
Theorem verifySessionForStoppedState_returns_on_stopped W s :
  let r := verifySessionForStoppedState W s in
  fst r <> Ok None /\
  (patches (trace (snd r)) <= patches (trace s) + 1)%nat /\
  (fst r = Ok (Some tt) ->
   (0 < gets (snd r))%nat /\
   exists j, test_reply W (gets (snd r) - 1) = Answer 200 j /\
             Session.status j = Some (JStr "STOPPED")).
Proof.
  cbv zeta. destruct (verifySessionForStoppedState W s) as [r s'] eqn:Hrun.
  cbn [fst snd]. exact (verifySessionForStoppedState_run _ _ _ _ Hrun).
Qed.

End SessionClaims.

Module SessionCases.
Import Py Session SessionSpec SessionClaims.

Lemma checkSessionState_returns_at_first_sighting_witness :
  checkSessionState (scripted 10 ["STARTING"; "STARTING"; "STARTED"]) "STARTED" 300 idle
  = (Ok (Some true), {| gets := 3; trace := [Sleep 5; GetTest; Sleep 5; GetTest; GetTest] |}).
Proof.
  refine (checkSessionState_returns_at_first_sighting
            (scripted 10 ["STARTING"; "STARTING"; "STARTED"]) "STARTED" 300 idle 2 _ _ _).
  - intros i Hi. exists 200.
    destruct i as [|[|i]]; [| |lia]; eexists; eexists; (split; [reflexivity|]);
      split; reflexivity.
  - eexists; eexists; split; reflexivity.
  - right. reflexivity.
Defined.

Lemma checkSessionState_gives_up_witness :
  checkSessionState (scripted 10 ["STARTING"]) "STARTED" 8 idle
  = (Ok (Some false), {| gets := 3; trace := [Sleep 5; GetTest; Sleep 5; GetTest; GetTest] |}).
Proof.
  refine (checkSessionState_gives_up (scripted 10 ["STARTING"]) "STARTED" 8 idle _).
  intros i _. exists 200. eexists. exists "STARTING". split; [|split].
  - reflexivity.
  - cbn. destruct i as [|[|i]]; reflexivity.
  - discriminate.
Defined.

(** A session stuck in [STOPPING] that reports [STOPPED] once its state
    has been patched: four GETs see [STOPPING], the PATCH follows, and the
    two GETs after it read [STOPPED]. *)
Lemma stuck_session_is_recovered :
  verifySessionForStoppedState
    (scripted 1 ["STOPPING"; "STOPPING"; "STOPPING"; "STOPPING"; "STOPPED"]) idle
  = (Ok (Some tt),
     {| gets := 6;
        trace := [GetTest; GetTest; PatchStatus "STOPPED"; GetTest;
                  Sleep 5; GetTest; GetTest; GetTest] |}).
Proof. vm_compute. reflexivity. Qed.

(** A session that stays in [STOPPING]: the verification raises. *)
Lemma stuck_session_aborts :
  fst (verifySessionForStoppedState (scripted 1 ["STOPPING"]) idle)
  = Raise (AbortTest (stuckMsg (JStr "STOPPING"))).
Proof. vm_compute. reflexivity. Qed.

End SessionCases.

(** ** [stopTest]: the wait for the stop operation *)

Module StopFacts.
Import Py StartTest Stop StopSpec.

Ltac run_st := unfold sbind, emit, lift, ret, raise, afterBreak; cbn [fst snd].

Ltac ends := split; [|split; [|split]]; [try discriminate|cbn; try lia|cbn; try lia|try discriminate].

Lemma stopLoop_run W result : forall fuel wait n tr r tr',
  (Z.to_nat wait < fuel)%nat ->
  stopLoop fuel W result wait n tr = (r, tr') ->
  r <> Ok None /\
  (polls tr' <= polls tr + Z.to_nat wait)%nat /\
  slept tr' - slept tr <= 2 * Z.max wait 0 /\
  (forall st,
     r = Ok (Some (StateOfPoll st)) ->
     state st = Some result /\
     exists m, (n <= m)%nat /\ Z.of_nat m < Z.of_nat n + wait /\ poll W m = Polled st).
Proof.
  induction fuel as [|fuel IH]; intros wait n tr r tr' Hf; [lia|].
  cbn [stopLoop]. destruct (Z.ltb_spec 0 wait) as [Hw|Hw].
  2:{ run_st. intros [= <- <-]. ends. }
  run_st. destruct (poll W n) as [st|] eqn:Hp.
  2:{ intros [= <- <-]. ends. }
  destruct (state st) as [s|] eqn:Hs.
  2:{ intros [= <- <-]. ends. }
  destruct (String.eqb_spec s result) as [->|Hne].
  { intros [= <- <-]. ends.
    intros st' [= <-]. split; [exact Hs|]. exists n. repeat split; try lia. exact Hp. }
  destruct (String.eqb s "ERROR").
  { destruct (message st); cbn; intros [= <- <-]; ends. }
  intros Hrun. apply IH in Hrun; [|lia].
  destruct Hrun as (Hr & Hpolls & Hsl & Hst). cbn [polls slept] in *.
  split; [exact Hr|split; [lia|split; [lia|]]].
  intros st' Hst'. destruct (Hst st' Hst') as (Hres & m & Hm1 & Hm2 & Hm3).
  split; [exact Hres|]. exists m. repeat split; try lia. exact Hm3.
Qed.

Lemma waited_snoc n k tr :
  (waited (S n) k ++ Stop.Sleep 2 :: GetStop n :: tr)%list = (waited n (S k) ++ tr)%list.
Proof. cbn [waited]. now rewrite <- app_assoc. Qed.

(** [k] polls that read neither the awaited state nor [ERROR]. *)
Lemma stopLoop_skip W result : forall k fuel wait n tr,
  (forall i, (i < k)%nat -> stopping result (poll W (n + i))) ->
  (k = 0%nat \/ Z.of_nat k <= wait) -> (k <= fuel)%nat ->
  stopLoop fuel W result wait n tr
  = stopLoop (fuel - k) W result (wait - Z.of_nat k) (n + k) (waited n k ++ tr)%list.
Proof.
  induction k as [|k IH]; intros fuel wait n tr Hall Hw Hf.
  - rewrite Nat.sub_0_r, Nat.add_0_r. cbn. f_equal. lia.
  - destruct fuel as [|fuel]; [lia|].
    destruct (Hall 0%nat ltac:(lia)) as (st & s & Hp & Hs & Hr & He).
    rewrite Nat.add_0_r in Hp.
    cbn [stopLoop]. destruct (Z.ltb_spec 0 wait) as [_|?]; [|lia].
    run_st. rewrite Hp, Hs, Hr, He.
    rewrite IH; try lia.
    + cbn [Nat.sub]. rewrite waited_snoc. f_equal; try lia.
    + intros i Hi. replace (S n + i)%nat with (n + S i)%nat by lia. apply Hall. lia.

Qed.

End StopFacts.

Module StopClaims.
Import Py StartTest Stop StopSpec StopFacts.

Lemma stopTest_run W result wait statusCode tr r tr' :
  stopTest W result wait statusCode tr = (r, tr') ->
  r <> Ok None /\
  (polls tr' <= polls tr + Z.to_nat wait)%nat /\
  slept tr' - slept tr <= 2 * Z.max wait 0 /\
  (forall st,
     r = Ok (Some (StateOfPoll st)) ->
     state st = Some result /\
     exists m, Z.of_nat m < wait /\ poll W m = Polled st).
Proof.
  unfold stopTest. run_st.
  destruct (stop_code (posted W) =? statusCode).
  2:{ intros [= <- <-]. ends. }
  destruct (stop_id (posted W)); cbn [of_option].
  2:{ intros [= <- <-]. ends. }
  intros Hrun. apply stopLoop_run in Hrun; [|lia].
  destruct Hrun as (Hr & Hp & Hs & Hst). cbn [polls slept] in *.
  split; [exact Hr|split; [lia|split; [lia|]]].
  intros st Hst'. destruct (Hst st Hst') as (Hres & m & _ & Hm & Hpm).
  split; [exact Hres|]. exists m. split; [lia|exact Hpm].
Qed.

(** X5 ([MW.stopTest]): the call always ends, within [wait] polls of the
    stop operation and [2 * wait] seconds of sleep; and when it returns
    the JSON of a poll, that poll is one of the first [wait] and its
    state is the awaited [result]. *)
Theorem stopTest_ends_within_wait W result wait statusCode tr :
  let r := stopTest W result wait statusCode tr in
  fst r <> Ok None /\
  (polls (snd r) <= polls tr + Z.to_nat wait)%nat /\
  slept (snd r) - slept tr <= 2 * Z.max wait 0 /\
  (forall st,
     fst r = Ok (Some (StateOfPoll st)) ->
     state st = Some result /\
     exists m, Z.of_nat m < wait /\ poll W m = Polled st).
Proof.
  cbv zeta. destruct (stopTest W result wait statusCode tr) as [r tr'] eqn:Hrun.
  cbn [fst snd]. exact (stopTest_run _ _ _ _ _ _ _ Hrun).
Qed.

(** X6 ([MW.stopTest]): an exception during a poll is swallowed.  When
    the POST was accepted and poll [k] (one of the first [wait]) raises
    or has no ['state'], the earlier ones having read neither the awaited
    state nor [ERROR], the call returns the JSON of the POST as if the
    test had stopped, and polls no more. *)
Theorem stopTest_swallows_poll_exception W result wait statusCode tr k id :
  stop_code (posted W) = statusCode -> stop_id (posted W) = Some id ->
  (forall i, (i < k)%nat -> stopping result (poll W i)) ->
  unreadable (poll W k) -> Z.of_nat k < wait ->
  stopTest W result wait statusCode tr
  = (Ok (Some (JsonOfPost (posted W))),
     (GetStop k :: waited 0 k ++ PostStop :: tr)%list).
Proof.
  intros Hc Hid Hall Hk Hw. unfold stopTest. run_st.
  rewrite Hc, Z.eqb_refl, Hid. cbn [of_option].
  rewrite (stopLoop_skip W result k); [|intros i Hi; now apply Hall|lia|lia].
  replace (S (Z.to_nat wait) - k)%nat with (S (Z.to_nat wait - k)) by lia.
  cbn [stopLoop Nat.add]. destruct (Z.ltb_spec 0 (wait - Z.of_nat k)) as [_|?]; [|lia].
  run_st. destruct Hk as [->|(st & -> & ->)]; reflexivity.
Qed.

(** X7 ([MW.stopTest]): when the POST was accepted and each of the first
    [wait] polls reads a state that is neither the awaited one nor
    [ERROR], the call raises ['Test failed to stop'] after exactly these
    polls, each followed by two seconds of sleep. *)
Theorem stopTest_gives_up W result wait statusCode tr id :
  stop_code (posted W) = statusCode -> stop_id (posted W) = Some id ->
  (forall i, Z.of_nat i < wait -> stopping result (poll W i)) ->
  stopTest W result wait statusCode tr
  = (Raise (AbortTest failedToStop), (waited 0 (Z.to_nat wait) ++ PostStop :: tr)%list).
Proof.
  intros Hc Hid Hall. unfold stopTest. run_st.
  rewrite Hc, Z.eqb_refl, Hid. cbn [of_option].
  rewrite (stopLoop_skip W result (Z.to_nat wait));
    [|intros i Hi; apply Hall; lia|lia|lia].
  replace (wait - Z.of_nat (Z.to_nat wait)) with (Z.min wait 0) by lia.
  replace (S (Z.to_nat wait) - Z.to_nat wait)%nat with 1%nat by lia.
  cbn [stopLoop]. destruct (Z.ltb_spec 0 (Z.min wait 0)) as [?|_]; [lia|].
  reflexivity.
Qed.

End StopClaims.

Module StopCases.
Import Py StartTest Stop StopSpec StopClaims.

Lemma stopTest_swallows_poll_exception_witness :
  stopTest (drops_at 1) "SUCCESS" 40 202 []
  = (Ok (Some (JsonOfPost {| stop_code := 202; stop_id := Some "7" |})),
     [GetStop 1; Stop.Sleep 2; GetStop 0; PostStop]).
Proof.
  refine (stopTest_swallows_poll_exception (drops_at 1) "SUCCESS" 40 202 [] 1 "7" _ _ _ _ _).
  - reflexivity.
  - reflexivity.
  - intros i Hi. destruct i as [|i]; [|lia].
    eexists; eexists; repeat split; reflexivity.
  - left. reflexivity.
  - lia.
Defined.

Lemma stopTest_gives_up_witness :
  stopTest never_stops "SUCCESS" 2 202 []
  = (Raise (AbortTest failedToStop),
     [Stop.Sleep 2; GetStop 1; Stop.Sleep 2; GetStop 0; PostStop]).
Proof.
  refine (stopTest_gives_up never_stops "SUCCESS" 2 202 [] "7" _ _ _).
  - reflexivity.
  - reflexivity.
  - intros i _. eexists; eexists; repeat split; reflexivity.
Defined.

End StopCases.

(** ** The KPI results: the tracker and its verification *)

Module VerdictFacts.
Import Py Kpi Verdicts VerdictSpec.

(** An invariant of a [for] loop that ends without an exception. *)
Lemma for_each_invariant {A S : Type} (P : S -> Prop) (body : S -> A -> result S) :
  forall l s s',
    (forall s x s', In x l -> P s -> body s x = Ok s' -> P s') ->
    P s -> for_each body l s = Ok s' -> P s'.
Proof.
  induction l as [|x l IH]; intros s s' Hbody Hs Hrun; cbn in Hrun.
  - now injection Hrun as <-.
  - destruct (body s x) as [s1|e] eqn:Hx; cbn in Hrun; [|discriminate].
    apply (IH s1 s'); try assumption.
    + intros s2 y s3 Hy. apply Hbody. now right.
    + apply (Hbody s x); [now left|assumption|assumption].
Qed.

Lemma failed_not_passed e : result_is "failed" e = true -> result_is "passed" e = false.
Proof.
  unfold result_is. destruct (kpi_result e) as [r|]; [|discriminate].
  intros H. apply String.eqb_eq in H. now subst.
Qed.

Lemma counted_step s s1 s2 n m :
  counted n s s1 -> counted m s1 s2 -> counted (n + m) s s2.
Proof.
  unfold counted. intros (H1 & H2 & H3 & H4 & H5) (K1 & K2 & K3 & K4 & K5).
  repeat split; try lia.
  - rewrite K4, H4. destruct n, m; reflexivity.
  - rewrite K5, H5.
    destruct n, m; cbn [Nat.add Nat.eqb orb];
      destruct (String.eqb (moduleResult s) "Incomplete") eqn:Hi;
      rewrite ?Hi; reflexivity.
Qed.

Lemma verifyEntry_spec stat s item :
  let report := {| report_stat := stat; report_kpi := fst item; report_entry := snd item |} in
  failures (verifyEntry stat s item)
  = (failures s ++ if result_is "failed" (snd item) then [report] else [])%list /\
  passed (verifyEntry stat s item)
  = (passed s ++ if result_is "passed" (snd item) then [report] else [])%list /\
  counted (if result_is "failed" (snd item) then 1 else 0) s (verifyEntry stat s item).
Proof.
  cbv zeta. unfold verifyEntry, counted.
  destruct (result_is "failed" (snd item)) eqn:Hf.
  - rewrite (failed_not_passed _ Hf). cbn.
    rewrite app_nil_r. repeat split; try lia.
    now destruct (String.eqb (moduleResult s) "Incomplete").
  - destruct (result_is "passed" (snd item)); cbn; rewrite ?app_nil_r;
      repeat split; lia.
Qed.

Lemma verifyStat_spec stat : forall l s,
  failures (fold_left (verifyEntry stat) l s)
  = (failures s ++ reports "failed" [(stat, l)])%list /\
  passed (fold_left (verifyEntry stat) l s)
  = (passed s ++ reports "passed" [(stat, l)])%list /\
  counted (length (reports "failed" [(stat, l)])) s (fold_left (verifyEntry stat) l s).
Proof.
  unfold reports. cbn [flat_map fst snd]. setoid_rewrite app_nil_r.
  induction l as [|item l IH]; intros s.
  - cbn. rewrite !app_nil_r. unfold counted. cbn.
    repeat split; lia.
  - cbn [fold_left]. destruct (IH (verifyEntry stat s item)) as (Hf & Hp & Hc).
    destruct (verifyEntry_spec stat s item) as (Hf1 & Hp1 & Hc1). cbv zeta in *.
    rewrite Hf, Hp, Hf1, Hp1. cbn [filter].
    split; [|split].
    + rewrite <- app_assoc. f_equal.
      unfold filter. cbn [list_filter].
      destruct (decide (result_is "failed" (snd item) = true)) as [Ht|Hn].
      * now rewrite Ht.
      * apply not_true_is_false in Hn. now rewrite Hn.
    + rewrite <- app_assoc. f_equal.
      unfold filter. cbn [list_filter].
      destruct (decide (result_is "passed" (snd item) = true)) as [Ht|Hn].
      * now rewrite Ht.
      * apply not_true_is_false in Hn. now rewrite Hn.
    + unfold filter. cbn [list_filter].
      destruct (decide (result_is "failed" (snd item) = true)) as [Ht|Hn].
      * rewrite Ht in Hc1. cbn [map length].
        exact (counted_step _ _ _ 1 _ Hc1 Hc).
      * apply not_true_is_false in Hn. rewrite Hn in Hc1.
        exact (counted_step _ _ _ 0 _ Hc1 Hc).
Qed.

Lemma verifyStats_spec : forall items s,
  let s' := fold_left (fun acc stat => fold_left (verifyEntry (fst stat)) (snd stat) acc)
              items s in
  failures s' = (failures s ++ reports "failed" items)%list /\
  passed s' = (passed s ++ reports "passed" items)%list /\
  counted (length (reports "failed" items)) s s'.
Proof.
  induction items as [|[stat l] items IH]; intros s; cbv zeta.
  - cbn. rewrite !app_nil_r. unfold counted. cbn.
    repeat split; lia.
  - cbn [fold_left fst snd].
    destruct (IH (fold_left (verifyEntry stat) l s)) as (Hf & Hp & Hc). cbv zeta in *.
    destruct (verifyStat_spec stat l s) as (Hf1 & Hp1 & Hc1).
    rewrite Hf, Hp, Hf1, Hp1.
    assert (Hsplit : forall text,
               reports text ((stat, l) :: items)
               = (reports text [(stat, l)] ++ reports text items)%list).
    { intros text. unfold reports. cbn [flat_map]. now rewrite app_nil_r. }
    rewrite !Hsplit, <- !app_assoc, length_app.
    split; [reflexivity|split; [reflexivity|]].
    exact (counted_step _ _ _ _ _ Hc1 Hc).
Qed.

End VerdictFacts.

Module TrackerFacts.
Import Py Stats Kpi PollLoop Verdicts VerdictSpec VerdictFacts TrackerSpec.

Lemma keys_kept_refl tracker : keys_kept tracker tracker.
Proof. intros stat. now destruct (tracker !! stat). Qed.

Lemma keys_kept_trans t1 t2 t3 : keys_kept t1 t2 -> keys_kept t2 t3 -> keys_kept t1 t3.
Proof.
  intros H12 H23 stat. specialize (H12 stat). specialize (H23 stat).
  destruct (t1 !! stat), (t2 !! stat), (t3 !! stat); try tauto.
  intros kpi. now rewrite H23, H12.
Qed.

Lemma recordResult_keys tracker statName kpi e tracker' :
  recordResult tracker statName kpi e = Ok tracker' -> keys_kept tracker tracker'.
Proof.
  unfold recordResult. destruct (tracker !! statName) as [t|] eqn:Ht; [|discriminate].
  destruct (t !! kpi) as [e0|] eqn:He; [|discriminate].
  intros [= <-] stat. destruct (decide (stat = statName)) as [->|Hne].
  - rewrite Ht, lookup_insert_eq. intros k. destruct (decide (k = kpi)) as [->|Hk].
    + rewrite lookup_insert_eq, He. split; intros _; eexists; reflexivity.
    + now rewrite lookup_insert_ne.
  - rewrite lookup_insert_ne by congruence. now destruct (tracker !! stat).
Qed.

Lemma kpiStep_keys `{Runtime} statName kpiList st item st' :
  kpiStep statName kpiList st item = Ok st' -> keys_kept (snd st) (snd st').
Proof.
  unfold kpiStep. destruct (matchIndex (fst item) kpiList) as [[i|]|e]; cbn; try discriminate.
  - destruct (index kpiList i) as [expr|e]; cbn; [|discriminate].
    destruct (evaluate (fst st) expr (snd item)) as [r|e]; cbn; [|discriminate].
    destruct (recordResult (snd st) statName (snd (fst r)) (snd r)) as [tracker|e] eqn:Hr;
      cbn; [|discriminate].
    intros [= <-]. cbn. exact (recordResult_keys _ _ _ _ _ Hr).
  - intros [= <-]. apply keys_kept_refl.
Qed.

Lemma statStep_keys `{Runtime} KPI responses st statName st' :
  statStep KPI responses st statName = Ok st' -> keys_kept (snd st) (snd st').
Proof.
  unfold statStep.
  destruct (getAllStats statName (responses statName) 200) as [[stats|]|e]; cbn;
    try discriminate.
  - destruct (dict_get statName KPI) as [kpiList|]; cbn; [|discriminate].
    apply (for_each_invariant (fun st' => keys_kept (snd st) (snd st'))).
    + intros s x s' _ Hs Hx. apply kpiStep_keys in Hx.
      exact (keys_kept_trans _ _ _ Hs Hx).
    + apply keys_kept_refl.
  - intros [= <-]. apply keys_kept_refl.
Qed.

Lemma pollStats_keys `{Runtime} KPI responses st st' :
  pollStats KPI responses st = Ok st' -> keys_kept (snd st) (snd st').
Proof.
  unfold pollStats.
  apply (for_each_invariant (fun st' => keys_kept (snd st) (snd st'))).
  - intros s x s' _ Hs Hx. apply statStep_keys in Hx.
    exact (keys_kept_trans _ _ _ Hs Hx).
  - apply keys_kept_refl.
Qed.

Lemma iteration_keys `{Runtime} KPI p r s step :
  iteration KPI p r s = Ok step ->
  keys_kept (kpiStatTracker s)
    (kpiStatTracker match step with Break s' => s' | Continue s' => s' end).
Proof.
  unfold iteration.
  destruct (pollStats KPI (stat_responses r) (locals s, kpiStatTracker s)) as [st|e] eqn:Hp;
    cbn; [|discriminate].
  apply pollStats_keys in Hp. cbn in Hp.
  destruct (getSessionStatus r) as [status|e]; cbn; [|discriminate].
  match goal with |- context [if ?b then _ else _] => destruct b end;
    intros [= <-]; exact Hp.
Qed.

Lemma pollStats_no_stats `{Runtime} KPI responses st :
  (forall stat, getAllStats stat (responses stat) 200 = Ok None) ->
  pollStats KPI responses st = Ok st.
Proof.
  intros Hnone. unfold pollStats. induction (map fst KPI) as [|stat l IH]; [reflexivity|].
  cbn [for_each]. unfold statStep at 1. rewrite Hnone. cbn. exact IH.
Qed.

Lemma pollLoop_no_stats `{Runtime} KPI p : forall script s,
  (forall r stat, In r script -> getAllStats stat (stat_responses r stat) 200 = Ok None) ->
  match pollLoop KPI p script s with
  | Exited s' | Polling s' => kpiStatTracker s' = kpiStatTracker s
  | Aborted _ => True
  end.
Proof.
  induction script as [|r script IH]; intros s Hnone; [reflexivity|].
  cbn [pollLoop]. unfold iteration.
  rewrite pollStats_no_stats by (intros stat; apply Hnone; now left).
  cbn. destruct (getSessionStatus r) as [status|e]; cbn; [|exact I].
  match goal with |- context [if ?b then _ else _] => destruct b end; [reflexivity|].
  match goal with |- context [pollLoop KPI p script ?s1] => specialize (IH s1) end.
  destruct (pollLoop KPI p script _); try exact I; cbn in IH; apply IH;
    intros r' stat Hr'; apply Hnone; now right.
Qed.

Lemma trackerEntry_blank st expr st' :
  trackerEntry st expr = Ok st' ->
  (forall k e, snd st !! k = Some e -> e = blank) ->
  forall k e, snd st' !! k = Some e -> e = blank.
Proof.
  unfold trackerEntry. destruct (trackerKpi (fst st) expr) as [[k0|]|e0]; cbn; try discriminate.
  intros [= <-] Hst k e. cbn. destruct (decide (k = k0)) as [->|Hne].
  - rewrite lookup_insert_eq. now intros [= <-].
  - rewrite lookup_insert_ne by congruence. apply Hst.
Qed.

Lemma no_reports text items :
  (forall stat l kpi e, In (stat, l) items -> In (kpi, e) l -> kpi_result e = None) ->
  reports text items = [].
Proof.
  intros Hnone. unfold reports. induction items as [|[stat l] items IH]; [reflexivity|].
  cbn [flat_map fst snd]. rewrite IH.
  2:{ intros stat' l' kpi e Hin Hk. apply (Hnone stat' l' kpi e); [now right|exact Hk]. }
  rewrite app_nil_r.
  assert (Hl : forall kpi e, In (kpi, e) l -> kpi_result e = None).
  { intros kpi e Hk. apply (Hnone stat l kpi e); [now left|exact Hk]. }
  clear IH Hnone. induction l as [|[kpi e] l IH]; [reflexivity|].
  unfold filter. cbn [list_filter snd].
  destruct (decide (result_is text e = true)) as [Ht|_].
  { unfold result_is in Ht. rewrite (Hl kpi e) in Ht by now left. discriminate. }
  apply IH. intros kpi' e' Hin. apply (Hl kpi'). now right.
Qed.

Lemma createKpiTracker_spec KPI kpi kpi' tracker :
  createKpiTracker KPI kpi = Ok (kpi', tracker) ->
  untouched tracker /\
  forall stat t,
    tracker !! stat = Some t ->
    (exists raw, In raw (map fst KPI) /\ stat = strip raw) /\
    exists l, dict_get stat KPI = Some l /\ existsb (String.eqb "NA") l = false.
Proof.
  unfold createKpiTracker. intros Hrun.
  refine (for_each_invariant
            (fun st : option string * gmap string (gmap string Entry) =>
               untouched (snd st) /\
               forall stat t,
                 snd st !! stat = Some t ->
                 (exists raw, In raw (map fst KPI) /\ stat = strip raw) /\
                 exists l, dict_get stat KPI = Some l /\ existsb (String.eqb "NA") l = false)
            _ KPI (kpi, ∅) (kpi', tracker) _ _ Hrun).
  - intros st item st' Hin (Hblank & Hkeys). cbn beta.
    destruct (dict_get (strip (fst item)) KPI) as [kpiList|] eqn:Hget;
      cbn [of_option bind]; [|discriminate].
    destruct (existsb (String.eqb "NA") kpiList) eqn:Hna.
    { intros Heq. injection Heq as Heq. subst st'. now split. }
    destruct (for_each trackerEntry kpiList (fst st, ∅)) as [r|e] eqn:Hinner;
      cbn [bind]; [|discriminate].
    intros Heq. injection Heq as Heq. subst st'. cbn [snd].
    assert (Hr : forall k e, snd r !! k = Some e -> e = blank).
    { refine (for_each_invariant
                (fun st0 : option string * gmap string Entry =>
                   forall k e, snd st0 !! k = Some e -> e = blank)
                _ kpiList (fst st, ∅) r _ _ Hinner).
      - intros s0 x s1 _ Hs0 Hx. exact (trackerEntry_blank _ _ _ Hx Hs0).
      - intros k e. cbn. now rewrite lookup_empty. }
    split.
    + intros stat t k e. destruct (decide (stat = strip (fst item))) as [->|Hne].
      * rewrite lookup_insert_eq. intros [= <-]. apply Hr.
      * rewrite lookup_insert_ne by congruence. apply Hblank.
    + intros stat t. destruct (decide (stat = strip (fst item))) as [->|Hne].
      * intros _. split.
        -- exists (fst item). split; [now apply in_map|reflexivity].
        -- now exists kpiList.
      * rewrite lookup_insert_ne by congruence. apply Hkeys.
  - split.
    + intros stat t k e. cbn. now rewrite lookup_empty.
    + intros stat t. cbn. now rewrite lookup_empty.
Qed.

End TrackerFacts.

Module TrackerClaims.
Import Py Stats Kpi PollLoop Verdicts VerdictSpec VerdictFacts TrackerSpec TrackerFacts.

(** X8 (the KPI verification of [Main.runTestcase]): the entries whose
    result is ['failed'] are reported as failures and those whose result
    is ['passed'] as passed, in the order of the tracker; each of the
    three [totalFailures] counters grows by the number of failed
    entries; the testcase result becomes ['Failed'] exactly when there is
    one (and is copied to [testcaseData['result']]), and so does the
    module result unless it was ['Incomplete']. *)
Theorem verifyKpiResults_counts_failed_entries items s :
  let s' := verifyKpiResults items s in
  let n := length (reports "failed" items) in
  failures s' = (failures s ++ reports "failed" items)%list /\
  passed s' = (passed s ++ reports "passed" items)%list /\
  overallTotalFailures s' = overallTotalFailures s + Z.of_nat n /\
  moduleTotalFailures s' = moduleTotalFailures s + Z.of_nat n /\
  testcaseTotalFailures s' = testcaseTotalFailures s + Z.of_nat n /\
  testcaseResult s' = (if Nat.eqb n 0 then testcaseResult s else "Failed") /\
  testcaseDataResult s' = testcaseResult s' /\
  moduleResult s'
  = (if Nat.eqb n 0 || String.eqb (moduleResult s) "Incomplete" then moduleResult s
     else "Failed").
Proof.
  cbv zeta. unfold verifyKpiResults. cbn.
  destruct (verifyStats_spec items s) as (Hf & Hp & H1 & H2 & H3 & H4 & H5).
  cbv zeta in *. repeat split; assumption.
Qed.

(** X9 ([Main.createKpiTracker]): every entry of the tracker it builds is
    blank (result, expected value and maximum all [None]); a stat it
    registers is the stripped form of a key of the testcase's KPI
    dictionary, is itself a key of that dictionary, and its list of
    expressions does not hold ['NA']. *)
Theorem createKpiTracker_registers_blank_entries KPI kpi kpi' tracker :
  createKpiTracker KPI kpi = Ok (kpi', tracker) ->
  untouched tracker /\
  forall stat t,
    tracker !! stat = Some t ->
    (exists raw, In raw (map fst KPI) /\ stat = strip raw) /\
    exists l, dict_get stat KPI = Some l /\ existsb (String.eqb "NA") l = false.
Proof. exact (createKpiTracker_spec KPI kpi kpi' tracker). Qed.

(** X10 (the polling loop of [Main.runTestcase]): polling only updates
    entries.  However the loop ends, by [break] or still polling, the
    tracker has the stats it had and under each stat the KPI names it
    had: no result is ever recorded for a KPI that [createKpiTracker] did
    not register. *)
Theorem polling_keeps_the_tracker_keys `{Runtime} KPI p script : forall s s',
  pollLoop KPI p script s = Exited s' \/ pollLoop KPI p script s = Polling s' ->
  keys_kept (kpiStatTracker s) (kpiStatTracker s').
Proof.
  induction script as [|r script IH]; intros s s' Hrun.
  - cbn in Hrun. destruct Hrun as [Hrun|Hrun]; [discriminate|].
    injection Hrun as <-. apply keys_kept_refl.
  - cbn [pollLoop] in Hrun.
    destruct (iteration KPI p r s) as [[s1|s1]|e] eqn:Hit.
    + destruct Hrun as [Hrun|Hrun]; [|discriminate]. injection Hrun as <-.
      exact (iteration_keys _ _ _ _ _ Hit).
    + apply iteration_keys in Hit. exact (keys_kept_trans _ _ _ Hit (IH s1 s' Hrun)).
    + destruct Hrun; discriminate.
Qed.

(** X11 ([Main.createKpiTracker], the polling loop and the KPI
    verification of [Main.runTestcase] together): when [getAllStats]
    returns [None] for every stat at every pass of the polling loop (the
    stats never became available), the loop leaves the tracker as
    [createKpiTracker] built it, and the verification reports no KPI as
    failed or passed: counters and results stay as they were, only
    [testcaseData['result']] is set to the testcase result. *)
Theorem run_without_stats_fails_no_kpi `{Runtime} KPI kpi kpi' tracker p script s s' items sum :
  createKpiTracker KPI kpi = Ok (kpi', tracker) ->
  kpiStatTracker s = tracker ->
  (forall r stat, In r script -> getAllStats stat (stat_responses r stat) 200 = Ok None) ->
  pollLoop KPI p script s = Exited s' ->
  lists (kpiStatTracker s') items ->
  kpiStatTracker s' = tracker /\
  verifyKpiResults items sum
  = {| testcaseResult := testcaseResult sum;
       failures := failures sum;
       passed := passed sum;
       testcaseDataResult := testcaseResult sum;
       moduleResult := moduleResult sum;
       overallTotalFailures := overallTotalFailures sum;
       moduleTotalFailures := moduleTotalFailures sum;
       testcaseTotalFailures := testcaseTotalFailures sum |}.
Proof.
  intros Hcreate Hs Hnone Hrun Hlists.
  pose proof (pollLoop_no_stats KPI p script s Hnone) as Hsame.
  rewrite Hrun in Hsame. rewrite Hs in Hsame. split; [exact Hsame|].
  destruct (createKpiTracker_spec _ _ _ _ Hcreate) as (Hblank & _).
  assert (Hres : forall stat l k e, In (stat, l) items -> In (k, e) l -> kpi_result e = None).
  { intros stat l k e Hin Hk. destruct (Hlists stat l k e Hin Hk) as (t & Ht & He).
    rewrite Hsame in Ht. now rewrite (Hblank stat t k e Ht He). }
  unfold verifyKpiResults.
  destruct (verifyStats_spec items sum) as (Hf & Hp & H1 & H2 & H3 & H4 & H5).
  cbv zeta in *.
  rewrite (no_reports "failed" _ Hres) in Hf, H1, H2, H3, H4, H5.
  rewrite (no_reports "passed" _ Hres) in Hp. cbn in H1, H2, H3, H4, H5.
  rewrite app_nil_r in Hf, Hp. rewrite Hf, Hp, H1, H2, H3, H4, H5.
  f_equal; lia.
Qed.

End TrackerClaims.

Module TrackerCases.
Import Py Stats Kpi PollLoop Verdicts VerdictSpec TrackerSpec TrackerClaims Sample.

Lemma createKpiTracker_registers_blank_entries_witness :
  untouched sample_tracker /\
  forall stat t,
    sample_tracker !! stat = Some t ->
    (exists raw, In raw (map fst sample_KPI) /\ stat = strip raw) /\
    exists l, dict_get stat sample_KPI = Some l /\ existsb (String.eqb "NA") l = false.
Proof.
  refine (createKpiTracker_registers_blank_entries sample_KPI None (Some "B") sample_tracker _).
  vm_compute. reflexivity.
Defined.

Lemma polling_keeps_the_tracker_keys_witness :
  keys_kept sample_tracker evaluated_tracker.
Proof.
  refine (polling_keeps_the_tracker_keys (H := runtime) sample_KPI None [polled "STOPPED"]
            (entering sample_tracker 10)
            {| locals := Some ("=", "7"); kpiStatTracker := evaluated_tracker;
               testConfiguredDuration := 10; KPIs_is_tracker := false;
               moduleStatus := "Stopping"; trace := [PolledStats] |} _).
  left. vm_compute. reflexivity.
Defined.

Lemma run_without_stats_fails_no_kpi_witness :
  kpiStatTracker (entering sample_tracker 10) = sample_tracker /\
  verifyKpiResults [("Fullcore", [("A", blank); ("B", blank)])] clean
  = {| testcaseResult := "Passed"; failures := []; passed := [];
       testcaseDataResult := "Passed"; moduleResult := "Passed";
       overallTotalFailures := 0; moduleTotalFailures := 0; testcaseTotalFailures := 0 |}.
Proof.
  refine (run_without_stats_fails_no_kpi (H := runtime) sample_KPI None (Some "B")
            sample_tracker None [not_ready "STARTED"; not_ready "STOPPED"]
            (entering sample_tracker 10)
            {| locals := None; kpiStatTracker := sample_tracker;
               testConfiguredDuration := PrimFloat.sub 10 default_interval;
               KPIs_is_tracker := true;
               moduleStatus := "Stopping";
               trace := [PolledStats; Slept 30; PolledStats] |}
            [("Fullcore", [("A", blank); ("B", blank)])] clean _ _ _ _ _).
  - vm_compute. reflexivity.
  - reflexivity.
  - intros r stat [<-|[<-|[]]]; reflexivity.
  - vm_compute. reflexivity.
  - intros stat l kpi e [[= <- <-]|[]] [[= <- <-]|[[= <- <-]|[]]];
      eexists; split; vm_compute; reflexivity.
Defined.

(** The example of a pass that evaluates both expressions: one failure
    is counted and the testcase is failed. *)
Lemma one_failed_kpi_fails_the_testcase :
  verifyKpiResults (items_of evaluated_tracker) clean
  = {| testcaseResult := "Failed";
       failures := [{| report_stat := "Fullcore"; report_kpi := "B";
                       report_entry := {| kpi_result := Some "failed";
                                          kpi_expectedValue := Some "=7";
                                          kpi_maxValue := Some 4%float |} |}];
       passed := [{| report_stat := "Fullcore"; report_kpi := "A";
                     report_entry := {| kpi_result := Some "passed";
                                        kpi_expectedValue := Some ">=1";
                                        kpi_maxValue := Some 3%float |} |}];
       testcaseDataResult := "Failed"; moduleResult := "Failed";
       overallTotalFailures := 1; moduleTotalFailures := 1; testcaseTotalFailures := 1 |}.
Proof. vm_compute. reflexivity. Qed.

End TrackerCases.

(** ** [checkForLicenses] *)

Module LicenseFacts.
Import Py License LicenseSpec.

Lemma checkLicense_spec name count acc feature acc' :
  checkLicense name count acc feature = Ok acc' ->
  forall f,
    In f acc' <->
    In f acc \/
    (RequiredLicenseFeatureName f = name /\ RequiredCount f = count /\
     reported f [(name, count)] feature).
Proof.
  unfold checkLicense, reported.
  destruct (featureName feature) as [n|] eqn:Hn; cbn; [|discriminate].
  destruct (String.eqb_spec n name) as [->|Hne].
  2:{ intros [= <-] f. split; [now left|].
      intros [H|(H1 & _ & a & i & _ & [= H2] & _)]; [exact H|]. congruence. }
  destruct (availableCount feature) as [a|] eqn:Ha; cbn; [|discriminate].
  destruct (int_of a) as [av|e] eqn:Hav; cbn; [|discriminate].
  destruct (installedCount feature) as [i|] eqn:Hi; cbn; [|discriminate].
  destruct (int_of i) as [ins|e] eqn:Hins; cbn; [|discriminate].
  destruct (Z.eqb_spec av 0) as [->|Hav0].
  - intros [= <-] f. rewrite in_app_iff. cbn [In]. split.
    + intros [H|[<-|[]]]; [now left|right]. cbn.
      repeat split. exists a, i. repeat split; assumption.
    + intros [H|(H1 & H2 & a' & i' & _ & _ & [= <-] & _ & [= <-] & H5 & H6)]; [now left|].
      right; left. destruct f as [fn fc fa fi]. cbn in *. subst.
      rewrite Hins in H5. injection H5 as <-. reflexivity.
  - intros [= <-] f. split; [now left|].
    intros [H|(_ & _ & a' & i' & _ & _ & [= <-] & H4 & _)]; [exact H|].
    rewrite Hav in H4. injection H4 as ->. contradiction.
Qed.

Lemma checkFeatures_spec name count : forall stats acc acc',
  for_each (checkLicense name count) stats acc = Ok acc' ->
  forall f,
    In f acc' <->
    In f acc \/
    (RequiredLicenseFeatureName f = name /\ RequiredCount f = count /\
     exists feature, In feature stats /\ reported f [(name, count)] feature).
Proof.
  induction stats as [|feature stats IH]; intros acc acc' Hrun f.
  - cbn in Hrun. injection Hrun as <-. split; [now left|].
    intros [H|(_ & _ & feature & [] & _)]. exact H.
  - cbn [for_each] in Hrun.
    destruct (checkLicense name count acc feature) as [acc1|e] eqn:H1; cbn in Hrun;
      [|discriminate].
    rewrite (IH _ _ Hrun f), (checkLicense_spec _ _ _ _ _ H1 f). split.
    + intros [[H|(Hn & Hc & Hr)]|(Hn & Hc & feature' & Hin & Hr)].
      * now left.
      * right. repeat split; try assumption. exists feature. split; [now left|exact Hr].
      * right. repeat split; try assumption. exists feature'. split; [now right|exact Hr].
    + intros [H|(Hn & Hc & feature' & [<-|Hin] & Hr)].
      * now left; left.
      * left; right. now repeat split.
      * right. repeat split; try assumption. now exists feature'.
Qed.

Lemma checkRequired_spec response stats : forall required acc acc',
  floatingFeatureStats response = Some stats ->
  for_each (checkRequired response) required acc = Ok acc' ->
  forall f,
    In f acc' <->
    In f acc \/
    exists lic feature, In lic required /\ In feature stats /\ reported f lic feature.
Proof.
  intros required acc acc' Hstats. revert acc acc'.
  induction required as [|lic required IH]; intros acc acc' Hrun f.
  - cbn in Hrun. injection Hrun as <-. split; [now left|].
    intros [H|(lic & feature & [] & _)]. exact H.
  - cbn [for_each] in Hrun. unfold checkRequired at 1 in Hrun. unfold index in Hrun.
    destruct (nth_error lic 0) as [[name count]|] eqn:Hfirst; cbn in Hrun; [|discriminate].
    rewrite Hstats in Hrun. cbn in Hrun.
    destruct (for_each (checkLicense name count) stats acc) as [acc1|e] eqn:H1;
      cbn in Hrun; [|discriminate].
    rewrite (IH _ _ Hrun f), (checkFeatures_spec _ _ _ _ _ H1 f). split.
    + intros [[H|(Hn & Hc & feature & Hin & Hr)]|(lic' & feature & Hl & Hin & Hr)].
      * now left.
      * right. exists lic, feature. split; [now left|]. split; [exact Hin|].
        destruct Hr as (a & i & _ & Hr). exists a, i. split; [|exact Hr].
        now rewrite Hfirst, Hn, Hc.
      * right. exists lic', feature. split; [now right|]. now split.
    + intros [H|(lic' & feature & [<-|Hl] & Hin & Hr)].
      * now left; left.
      * left; right. destruct Hr as (a & i & Hnth & Hr).
        rewrite Hfirst in Hnth. injection Hnth as Hn Hc.
        repeat split; try congruence. exists feature. split; [exact Hin|].
        exists a, i. split; [|exact Hr]. cbn. now rewrite Hn, Hc.
      * right. now exists lic', feature.
Qed.

End LicenseFacts.

Module LicenseClaims.
Import Py License LicenseSpec LicenseFacts.

(** X12 ([LoadCoreLicense.checkForLicenses]): with an answer of code 200
    that lists the features, the failures returned are exactly the pairs
    of a required license and a listed feature of the same name whose
    [availableCount] reads zero.  So a required license the server does
    not list is not reported, and neither is one with fewer seats
    available than required, as long as one is available: the required
    count is only copied into the report. *)
Theorem checkForLicenses_reports_exhausted_features response required stats failures :
  status_code response = 200 ->
  floatingFeatureStats response = Some stats ->
  checkForLicenses response (Some required) = Ok failures ->
  forall f,
    In f failures <->
    exists lic feature, In lic required /\ In feature stats /\ reported f lic feature.
Proof.
  intros Hcode Hstats Hrun f. unfold checkForLicenses in Hrun.
  destruct required as [|lic rest].
  - injection Hrun as <-. split; [intros []|]. intros (lic & feature & [] & _).
  - rewrite Hcode in Hrun. cbn [Z.eqb Pos.eqb] in Hrun.
    rewrite (checkRequired_spec _ _ _ _ _ Hstats Hrun f). cbn [In]. tauto.
Qed.

End LicenseClaims.

Module LicenseCases.
Import Py License LicenseSpec LicenseClaims.

Lemma checkForLicenses_reports_exhausted_features_witness :
  In exhausted [exhausted] <->
  exists lic feature,
    In lic required /\
    In feature [ {| featureName := Some "VMP-WRLS-5GC-UE";
                    availableCount := Some (CountInt 0);
                    installedCount := Some (CountStr "4") |};
                 {| featureName := Some "VMP-WRLS-5GC-INTERFACE";
                    availableCount := Some (CountInt 1);
                    installedCount := Some (CountInt 13) |} ] /\
    reported exhausted lic feature.
Proof.
  refine (checkForLicenses_reports_exhausted_features floating required _ _ _ _ _ exhausted).
  - reflexivity.
  - reflexivity.
  - vm_compute. reflexivity.
Defined.

(** The license in use up to its last seat is the only one reported:
    the one with a single seat left for thirteen required and the one the
    server does not list are not. *)
Lemma only_the_exhausted_license_is_reported :
  checkForLicenses floating (Some required) = Ok [exhausted].
Proof. vm_compute. reflexivity. Qed.

End LicenseCases.

(** ** [getAvgNonZeroStat] and [waitForState] *)

Module AverageClaims.
Import Py Average.

Lemma collect_nonzero stat : forall acc,
  fold_left (fun statList i => if nonzero i then (statList ++ [i])%list else statList) stat acc
  = (acc ++ List.filter nonzero stat)%list.
Proof.
  induction stat as [|i stat IH]; intros acc; cbn [fold_left List.filter].
  - now rewrite app_nil_r.
  - rewrite IH. destruct (nonzero i); [|reflexivity].
    now rewrite <- app_assoc.
Qed.

(** X13 ([MW.getAvgNonZeroStat]): the average is taken over the samples
    that differ from zero, in their order: the samples equal to zero
    ([0.0] and [-0.0]) count neither in the sum nor in the divisor, and
    the [int] 0 is returned exactly when every sample equals zero (an
    empty list included). *)
Theorem getAvgNonZeroStat_skips_zero_samples round2 stat :
  let kept := List.filter nonzero stat in
  getAvgNonZeroStat round2 stat
  = match kept with
    | [] => IntOf 0
    | _ => FloatOf (round2 (PrimFloat.div (sum kept) (float_of_len kept)))
    end /\
  (getAvgNonZeroStat round2 stat = IntOf 0 <->
   forall i, In i stat -> PrimFloat.eqb i 0 = true).
Proof.
  cbv zeta. unfold getAvgNonZeroStat. rewrite collect_nonzero. cbn [app].
  split.
  - now destruct (List.filter nonzero stat).
  - destruct (List.filter nonzero stat) as [|x kept] eqn:Hk; cbn [length Nat.eqb].
    + split; [intros _|reflexivity]. intros i Hi.
      destruct (PrimFloat.eqb i 0) eqn:Hz; [reflexivity|].
      assert (Hin : In i (List.filter nonzero stat)).
      { apply filter_In. split; [exact Hi|]. unfold nonzero. now rewrite Hz. }
      rewrite Hk in Hin. destruct Hin.
    + split; [discriminate|]. intros Hall. exfalso.
      assert (Hin : In x (List.filter nonzero stat)) by (rewrite Hk; now left).
      apply filter_In in Hin. destruct Hin as (Hi & Hnz).
      unfold nonzero in Hnz. now rewrite (Hall x Hi) in Hnz.
Qed.

(** Two zero samples among four: the average of the other two. *)
Lemma average_of_two_samples :
  getAvgNonZeroStat (fun x => x) [0%float; 4%float; (-0)%float; 2%float] = FloatOf 3%float.
Proof. vm_compute. reflexivity. Qed.

End AverageClaims.

Module WaitClaims.
Import Py Wait WaitSpec.

Lemma waitForState_differ fuel what equalToWhat timeout tr :
  what <> equalToWhat -> PrimFloat.ltb 0 timeout = true ->
  waitForState (S fuel) what equalToWhat timeout tr
  = waitForState fuel what equalToWhat (PrimFloat.sub timeout tick)
      (Sleep tick :: LogError differMsg :: tr).
Proof.
  intros Hne Hlt. cbn [waitForState]. rewrite Hlt.
  apply String.eqb_neq in Hne. rewrite Hne. reflexivity.
Qed.

Lemma waitForState_never_true_when_different what equalToWhat :
  what <> equalToWhat ->
  forall fuel timeout tr, fst (waitForState fuel what equalToWhat timeout tr) <> Ok (Some true).
Proof.
  intros Hne. induction fuel as [|fuel IH]; intros timeout tr; [discriminate|].
  destruct (PrimFloat.ltb 0 timeout) eqn:Hlt.
  - rewrite waitForState_differ by assumption. apply IH.
  - cbn [waitForState]. rewrite Hlt. discriminate.
Qed.

(** X14 ([Utils.waitForState]): the call returns [True] exactly when the
    two values are equal and the timeout is positive, and then at once,
    without sleeping; nothing makes it return [True] for values that
    differ, since [what] is never read again. *)
Theorem waitForState_true_iff_equal fuel what equalToWhat timeout tr :
  fst (waitForState (S fuel) what equalToWhat timeout tr) = Ok (Some true) <->
  what = equalToWhat /\ PrimFloat.ltb 0 timeout = true.
Proof.
  split.
  - intros Hrun. destruct (String.eqb_spec what equalToWhat) as [Heq|Hne].
    + split; [exact Heq|]. cbn [waitForState] in Hrun.
      destruct (PrimFloat.ltb 0 timeout); [reflexivity|discriminate].
    + now apply waitForState_never_true_when_different in Hrun.
  - intros [-> Hlt]. cbn [waitForState]. rewrite Hlt, String.eqb_refl. reflexivity.
Qed.

Lemma remaining_shift n timeout :
  remaining n (PrimFloat.sub timeout tick) = remaining (S n) timeout.
Proof. exact (PollFacts.iter_shift (fun t => PrimFloat.sub t tick) n timeout). Qed.

Lemma passes_shift n tr :
  (passes n ++ Sleep tick :: LogError differMsg :: tr)%list = (passes (S n) ++ tr)%list.
Proof.
  induction n as [|n IH]; [reflexivity|].
  cbn [passes app] in *. now rewrite IH.
Qed.

(** X15 ([Utils.waitForState]): for values that differ the call sleeps
    0.2 seconds per pass, each pass logging the error and taking 0.2 off
    the timeout in binary64 arithmetic, and returns [False] at the first
    pass that finds the timeout no longer positive. *)
Theorem waitForState_counts_down what equalToWhat : forall n fuel timeout tr,
  what <> equalToWhat -> (n < fuel)%nat ->
  (forall i, (i < n)%nat -> PrimFloat.ltb 0 (remaining i timeout) = true) ->
  PrimFloat.ltb 0 (remaining n timeout) = false ->
  waitForState fuel what equalToWhat timeout tr = (Ok (Some false), (passes n ++ tr)%list).
Proof.
  induction n as [|n IH]; intros fuel timeout tr Hne Hf Hpos Hend.
  - destruct fuel as [|fuel]; [lia|]. cbn [waitForState]. cbn in Hend. now rewrite Hend.
  - destruct fuel as [|fuel]; [lia|].
    rewrite waitForState_differ; [|exact Hne|exact (Hpos 0%nat ltac:(lia))].
    rewrite IH; try assumption; try lia.
    + now rewrite passes_shift.
    + intros i Hi. rewrite remaining_shift. apply Hpos. lia.
    + now rewrite remaining_shift.
Qed.

(** X16 ([Utils.waitForState]): for values that differ and a timeout so
    large that taking 0.2 off leaves it unchanged in binary64 arithmetic,
    the loop never ends: however many passes are run, it has not
    returned. *)
Theorem waitForState_never_returns_on_large_timeout what equalToWhat timeout :
  what <> equalToWhat -> PrimFloat.ltb 0 timeout = true ->
  PrimFloat.sub timeout tick = timeout ->
  forall fuel tr, fst (waitForState fuel what equalToWhat timeout tr) = Ok None.
Proof.
  intros Hne Hlt Hfix. induction fuel as [|fuel IH]; intros tr; [reflexivity|].
  rewrite waitForState_differ by assumption. rewrite Hfix. apply IH.
Qed.

End WaitClaims.

Module WaitCases.
Import Py Wait WaitSpec WaitClaims.

(** A timeout of one second: the sixth pass still finds a positive
    remainder, [0x1p-54], so the call sleeps six times. *)
Lemma waitForState_counts_down_witness :
  waitForState 10 "STARTED" "STOPPED" 1%float [] = (Ok (Some false), (passes 6 ++ [])%list).
Proof.
  refine (waitForState_counts_down "STARTED" "STOPPED" 6 10 1%float [] _ _ _ _).
  - discriminate.
  - lia.
  - intros i Hi.
    destruct i as [|[|[|[|[|[|i]]]]]]; [reflexivity|reflexivity|reflexivity|reflexivity|reflexivity|reflexivity|lia].
  - reflexivity.
Defined.

Lemma waitForState_never_returns_on_large_timeout_witness :
  fst (waitForState 1000 "STARTED" "STOPPED" 0x1p+60%float []) = Ok None.
Proof.
  refine (waitForState_never_returns_on_large_timeout "STARTED" "STOPPED" 0x1p+60%float
            _ _ _ 1000%nat []).
  - discriminate.
  - reflexivity.
  - reflexivity.
Defined.

End WaitCases.

(** ** [deleteSession] and [rebootAgents] *)

Module SessionsFacts.
Import Py Sessions SessionsSpec.

Lemma collected : forall (items : list (option string)) (acc : list string),
  for_each
    (fun sessions item =>
       id <- of_option (KeyError "id") item ;;
       Ok (sessions ++ [id])%list)
    items acc
  = if existsb lacks_id items then Raise (KeyError "id")
    else Ok (acc ++ omap (fun item => item) items)%list.
Proof.
  induction items as [|item items IH]; intros acc.
  - cbn. now rewrite app_nil_r.
  - cbn [for_each existsb]. destruct item as [x|]; cbn; [|reflexivity].
    rewrite IH. destruct (existsb lacks_id items); [reflexivity|].
    now rewrite <- app_assoc.
Qed.

Lemma listed_names id : forall items : list (option string),
  existsb (String.eqb id) (omap (fun item => item) items) = existsb (names id) items.
Proof.
  induction items as [|[x|] items IH]; cbn; [reflexivity| |exact IH].
  now rewrite IH.
Qed.

Lemma names_In id (items : list (option string)) :
  existsb (names id) items = true <-> In (Some id) items.
Proof.
  rewrite existsb_exists. split.
  - intros [[x|] [Hin Hx]]; [|discriminate]. cbn in Hx.
    apply String.eqb_eq in Hx. now subst x.
  - intros Hin. exists (Some id). split; [exact Hin|]. cbn. apply String.eqb_refl.
Qed.

(** [deleteSession] with a session id, by the answers of the middleware. *)
Lemma deleteSession_with_id W id statusCode tr :
  deleteSession W (Some id) statusCode tr
  = if negb (delete_code W =? statusCode)%Z then (Raise AssertionError, Delete id :: tr)
    else if contains "200" (str statusCode) || contains "204" (str statusCode) then
      if negb (list_code W =? 200)%Z then (Raise AssertionError, GetSessions :: Delete id :: tr)
      else if existsb lacks_id (listed W)
           then (Raise (KeyError "id"), GetSessions :: Delete id :: tr)
      else if existsb (names id) (listed W)
           then (Raise AssertionError, GetSessions :: Delete id :: tr)
      else (Ok (TheResponse statusCode), GetSessions :: Delete id :: tr)
    else (Ok (TheCode statusCode), Delete id :: tr).
Proof.
  unfold deleteSession. unfold sbind at 1. unfold emit at 1.
  destruct (Z.eqb_spec (delete_code W) statusCode) as [->|Hc]; cbn [negb]; [|reflexivity].
  assert (Hgone :
            (_ <~ assertGone W id ;; ret (TheResponse statusCode)) (Delete id :: tr)
            = if negb (list_code W =? 200)%Z
              then (Raise AssertionError, GetSessions :: Delete id :: tr)
              else if existsb lacks_id (listed W)
                   then (Raise (KeyError "id"), GetSessions :: Delete id :: tr)
              else if existsb (names id) (listed W)
                   then (Raise AssertionError, GetSessions :: Delete id :: tr)
              else (Ok (TheResponse statusCode), GetSessions :: Delete id :: tr)).
  { unfold assertGone, getAllSessions, sbind, emit, lift, raise, ret.
    destruct (list_code W =? 200)%Z; cbn [negb]; [|reflexivity].
    rewrite collected. destruct (existsb lacks_id (listed W)); [reflexivity|].
    cbn [app]. rewrite listed_names.
    destruct (existsb (names id) (listed W)); reflexivity. }
  destruct (contains "200" (str statusCode)); cbn [orb]; [exact Hgone|].
  destruct (contains "204" (str statusCode)); [exact Hgone|reflexivity].
Qed.

End SessionsFacts.

Module SessionsClaims.
Import Py Sessions SessionsSpec SessionsFacts.

(** X17 ([MW.deleteSession], [MW.getAllSessions]): without a session id
    nothing is sent and [None] is returned; with one, [None] is never
    returned.  The response of the DELETE is returned only if its status
    code is the expected one and the list of sessions, answered with code
    200, no longer holds the session; the status code alone is returned
    only if it is the expected one and its decimal form contains neither
    [200] nor [204], and then the list is not read.  In full, with a
    session id: a DELETE answered with another code than the expected one
    raises; when the decimal form of the code contains [200] or [204] the
    list of sessions is read, and a list answered with another code than
    200, an item without ['id'] or the session still listed raises;
    otherwise the response is returned; a code containing neither gives
    the code. *)
Theorem deleteSession_returns_once_session_is_gone W sessionId statusCode tr :
  let r := deleteSession W sessionId statusCode tr in
  (sessionId = None -> r = (Ok NoSession, tr)) /\
  (forall id, sessionId = Some id -> fst r <> Ok NoSession) /\
  (forall c,
     fst r = Ok (TheResponse c) ->
     exists id,
       sessionId = Some id /\ c = statusCode /\ delete_code W = statusCode /\
       list_code W = 200%Z /\ ~ In (Some id) (listed W) /\
       snd r = GetSessions :: Delete id :: tr) /\
  (forall c,
     fst r = Ok (TheCode c) ->
     exists id,
       sessionId = Some id /\ c = statusCode /\ delete_code W = statusCode /\
       contains "200" (str c) = false /\ contains "204" (str c) = false /\
       snd r = Delete id :: tr) /\
  (forall id,
     sessionId = Some id ->
     r = if negb (delete_code W =? statusCode)%Z
         then (Raise AssertionError, Delete id :: tr)
         else if contains "200" (str statusCode) || contains "204" (str statusCode) then
           if negb (list_code W =? 200)%Z
           then (Raise AssertionError, GetSessions :: Delete id :: tr)
           else if existsb lacks_id (listed W)
                then (Raise (KeyError "id"), GetSessions :: Delete id :: tr)
           else if existsb (names id) (listed W)
                then (Raise AssertionError, GetSessions :: Delete id :: tr)
           else (Ok (TheResponse statusCode), GetSessions :: Delete id :: tr)
         else (Ok (TheCode statusCode), Delete id :: tr)).
Proof.
  cbv zeta. destruct sessionId as [id|].
  2:{ cbn. split; [reflexivity|]. repeat split; discriminate. }
  rewrite deleteSession_with_id.
  split; [discriminate|].
  destruct (Z.eqb_spec (delete_code W) statusCode) as [Hc|Hc]; cbn [negb].
  2:{ split; [intros id0 _; discriminate|]. split; [discriminate|]. split; [discriminate|].
      intros id0 [= <-]. reflexivity. }
  destruct (contains "200" (str statusCode) || contains "204" (str statusCode)) eqn:Hin.
  - destruct (Z.eqb_spec (list_code W) 200) as [Hl|Hl]; cbn [negb].
    2:{ split; [intros id0 _; discriminate|]. split; [discriminate|]. split; [discriminate|].
        intros id0 [= <-]. reflexivity. }
    destruct (existsb lacks_id (listed W)).
    { split; [intros id0 _; discriminate|]. split; [discriminate|]. split; [discriminate|].
      intros id0 [= <-]. reflexivity. }
    destruct (existsb (names id) (listed W)) eqn:Hnames.
    { split; [intros id0 _; discriminate|]. split; [discriminate|]. split; [discriminate|].
      intros id0 [= <-]. now rewrite Hnames. }
    split; [intros id0 _; discriminate|].
    split; [|split; [discriminate|intros id0 [= <-]; now rewrite Hnames]].
    intros c [= <-]. exists id. repeat split; try assumption.
    intros Hlisted. apply names_In in Hlisted. congruence.
  - apply orb_false_elim in Hin as [H200 H204].
    split; [intros id0 _; discriminate|]. split; [discriminate|].
    split; [|intros id0 [= <-]; reflexivity].
    intros c [= <-]. exists id. repeat split; assumption.
Qed.

(** The default call on a session the middleware has dropped, and on one
    it still lists. *)
Lemma deleteSession_examples :
  deleteSession {| delete_code := 204; list_code := 200; listed := [Some "wireless-2"] |}
    (Some "wireless-1") 204 []
  = (Ok (TheResponse 204), [GetSessions; Delete "wireless-1"]) /\
  deleteSession {| delete_code := 204; list_code := 200; listed := [Some "wireless-1"] |}
    (Some "wireless-1") 204 []
  = (Raise AssertionError, [GetSessions; Delete "wireless-1"]) /\
  deleteSession {| delete_code := 202; list_code := 200; listed := [Some "wireless-1"] |}
    (Some "wireless-1") 202 []
  = (Ok (TheCode 202), [Delete "wireless-1"]).
Proof. repeat split; vm_compute; reflexivity. Qed.

End SessionsClaims.

Module RebootFacts.
Import Py Reboot RebootSpec.

Ltac run_st := unfold sbind, emit, lift, ret, raise, failed; cbn [fst snd].

Lemma rebootLoop_run W :
  verifyAllAgentsStatusUp W <> Ok false ->
  forall fuel counter n tr r tr',
    0 <= counter < 160 -> (Z.to_nat (160 - counter) <= fuel)%nat ->
    rebootLoop fuel W counter n tr = (r, tr') ->
    r <> Ok None /\
    Z.of_nat (polls tr') <= Z.of_nat (polls tr) + (160 - counter) /\
    slept tr' <= slept tr + (160 - counter) /\
    (verifications tr' <= verifications tr + 1)%nat /\
    reboots tr' = reboots tr /\
    (r = Ok (Some tt) ->
     (exists m,
        (n <= m)%nat /\ Z.of_nat m < Z.of_nat n + (160 - counter) /\
        reboot_state W m = Some "SUCCESS" /\ slept tr' = slept tr + Z.of_nat (m - n)) \/
     (verifyAllAgentsStatusUp W = Ok true /\ slept tr' = slept tr + (160 - counter))).
Proof.
  intros Hv. induction fuel as [|fuel IH]; intros counter n tr r tr' Hc Hf; [lia|].
  cbn [rebootLoop]. run_st.
  destruct (reboot_state W n) as [status|] eqn:Hs; cbn [of_option].
  2:{ intros [= <- <-]. cbn. repeat split; try lia; discriminate. }
  destruct (Z.ltb_spec counter 160) as [_|?]; [|lia]. cbn [andb].
  destruct (String.eqb_spec status "SUCCESS") as [->|Hne]; cbn [negb].
  - destruct (Z.ltb_spec counter 160) as [_|?]; [|lia]. cbn [andb].
    intros [= <- <-]. cbn. repeat split; try lia; try discriminate.
    intros _. left. exists n. repeat split; try lia. exact Hs.
  - rewrite andb_false_r, andb_true_r.
    destruct (Z.eqb_spec (counter + 1) 160) as [Hlast|Hmore].
    + destruct (verifyAllAgentsStatusUp W) as [[|]|e] eqn:Hup; [| congruence |].
      * intros [= <- <-]. cbn. repeat split; try lia; try discriminate.
        intros _. right. split; [reflexivity|lia].
      * intros [= <- <-]. cbn. repeat split; try lia; discriminate.
    + intros Hrun. apply IH in Hrun; [|lia|lia].
      destruct Hrun as (Hr & Hp & Hsl & Hver & Hrb & Hok). cbn in *.
      repeat split; try lia; try assumption.
      intros Hrok. destruct (Hok Hrok) as [(m & Hm1 & Hm2 & Hm3 & Hm4)|(Hup & Hsl')].
      * left. exists m. repeat split; try lia. exact Hm3.
      * right. split; [exact Hup|lia].
Qed.

Lemma getAgentInfo_run W agentId tr :
  polls (snd (getAgentInfo W agentId tr)) = polls tr /\
  slept (snd (getAgentInfo W agentId tr)) = slept tr /\
  verifications (snd (getAgentInfo W agentId tr)) = verifications tr /\
  reboots (snd (getAgentInfo W agentId tr)) = reboots tr /\
  forall info,
    fst (getAgentInfo W agentId tr) = Ok (Some info) -> info = agent_reply W agentId.
Proof.
  unfold getAgentInfo. run_st.
  destruct (negb (info_code (agent_reply W agentId) =? 200)).
  { destruct (info_message (agent_reply W agentId)); cbn; repeat split; discriminate. }
  destruct (info_id (agent_reply W agentId)) as [id|]; cbn [of_option].
  2:{ cbn. repeat split; discriminate. }
  destruct (0 <? String.length id)%nat; cbn; repeat split; try discriminate; congruence.
Qed.

Lemma listAgent_run W acc agent tr :
  polls (snd (listAgent W acc agent tr)) = polls tr /\
  slept (snd (listAgent W acc agent tr)) = slept tr /\
  verifications (snd (listAgent W acc agent tr)) = verifications tr /\
  reboots (snd (listAgent W acc agent tr)) = reboots tr /\
  forall l, fst (listAgent W acc agent tr) = Ok l -> l = (acc ++ choice W agent)%list.
Proof.
  unfold listAgent, sbind, lift, ret, raise.
  destruct agent as [agentId|]; cbn [of_option].
  2:{ cbn. repeat split; congruence. }
  pose proof (getAgentInfo_run W agentId tr) as (Hp & Hs & Hv & Hr & Hinfo).
  destruct (getAgentInfo W agentId tr) as [[[info|]|e] tr1]; cbn [fst snd] in *.
  - rewrite (Hinfo info eq_refl). unfold choice, in_environment.
    destruct (info_IP (agent_reply W agentId)) as [ip|]; cbn [of_option].
    2:{ cbn. repeat split; try assumption. congruence. }
    destruct (envAgents W) as [l|].
    + destruct (in_env ip l); cbn; repeat split; try assumption; intros l' Hl';
        injection Hl' as <-; [reflexivity|now rewrite app_nil_r].
    + cbn. repeat split; try assumption. intros l' Hl'. injection Hl' as <-.
      now rewrite app_nil_r.
  - cbn. repeat split; try assumption. congruence.
  - cbn. repeat split; try assumption. congruence.
Qed.

Lemma listAgents_run W : forall all acc tr,
  polls (snd (listAgents W all acc tr)) = polls tr /\
  slept (snd (listAgents W all acc tr)) = slept tr /\
  verifications (snd (listAgents W all acc tr)) = verifications tr /\
  reboots (snd (listAgents W all acc tr)) = reboots tr /\
  forall l,
    fst (listAgents W all acc tr) = Ok l -> l = (acc ++ flat_map (choice W) all)%list.
Proof.
  induction all as [|agent all IH]; intros acc tr.
  - cbn. repeat split. intros l [= <-]. now rewrite app_nil_r.
  - cbn [listAgents flat_map]. unfold sbind.
    pose proof (listAgent_run W acc agent tr) as (Hp & Hs & Hv & Hr & Hl).
    destruct (listAgent W acc agent tr) as [[l1|e] tr1]; cbn [fst snd] in *.
    + destruct (IH l1 tr1) as (Hp' & Hs' & Hv' & Hr' & Hl').
      repeat split; try congruence.
      intros l Hrun. rewrite (Hl' l Hrun), (Hl l1 eq_refl). now rewrite <- app_assoc.
    + repeat split; try assumption. congruence.
Qed.

End RebootFacts.

Module RebootClaims.
Import Py Reboot RebootSpec RebootFacts.

Lemma rebootAgents_run W fuel agentIdList tr r tr' :
  verifyAllAgentsStatusUp W <> Ok false -> (160 <= fuel)%nat ->
  rebootAgents fuel W agentIdList tr = (r, tr') ->
  r <> Ok None /\
  (polls tr' <= polls tr + 160)%nat /\
  slept tr' <= slept tr + 160 /\
  (verifications tr' <= verifications tr + 1)%nat /\
  (r = Ok (Some tt) ->
   (exists m,
      (m < 160)%nat /\ reboot_state W m = Some "SUCCESS" /\
      slept tr' = slept tr + Z.of_nat m) \/
   (verifyAllAgentsStatusUp W = Ok true /\ slept tr' = slept tr + 160)).
Proof.
  intros Hv Hf. unfold rebootAgents. unfold sbind at 1.
  assert (Hlist : exists r1 tr1,
             match agentIdList with
             | Some l => ret l
             | None => allAgentInfo <~ getAllAgents W ;; listAgents W allAgentInfo []
             end tr = (r1, tr1) /\
             polls tr1 = polls tr /\ slept tr1 = slept tr /\
             verifications tr1 = verifications tr).
  { destruct agentIdList as [l|].
    - exists (Ok l), tr. now repeat split.
    - unfold getAllAgents. run_st.
      destruct (negb (agents_code W =? 200)).
      + destruct (agents_message W); eexists; eexists; (split; [reflexivity|]); now cbn.
      + pose proof (listAgents_run W (agents W) [] (GetAgents :: tr)) as (Hp & Hs & Hver & _).
        destruct (listAgents W (agents W) [] (GetAgents :: tr)) as [r1 tr1].
        exists r1, tr1. cbn in *. now repeat split. }
  destruct Hlist as (r1 & tr1 & -> & Hp1 & Hs1 & Hv1).
  destruct r1 as [l|e].
  2:{ intros [= <- <-]. repeat split; try lia; discriminate. }
  run_st. destruct (negb (reboot_code W =? 202)).
  { destruct (reboot_message W); intros [= <- <-]; cbn; repeat split; try lia; discriminate. }
  destruct (reboot_id W); cbn [of_option].
  2:{ intros [= <- <-]. cbn. repeat split; try lia; discriminate. }
  intros Hrun. apply (rebootLoop_run W Hv) in Hrun; [|lia|lia].
  destruct Hrun as (Hr & Hp & Hsl & Hver & _ & Hok). cbn in *.
  repeat split; try lia; try assumption.
  intros Hrok. destruct (Hok Hrok) as [(m & _ & Hm2 & Hm3 & Hm4)|(Hup & Hsl')].
  - left. exists m. repeat split; try lia. exact Hm3.
  - right. split; [exact Hup|lia].
Qed.

(** X18 ([MW.rebootAgents]): as long as [verifyAllAgentsStatusUp] returns
    [True] or raises, the wait for the reboot ends within 160 polls of
    the reboot operation and 160 seconds of sleep, and calls
    [verifyAllAgentsStatusUp] at most once.  It returns either because
    one of the first 160 polls read [SUCCESS], a second slept for each
    earlier poll, or because 160 polls did not and
    [verifyAllAgentsStatusUp] returned [True]. *)
Theorem rebootAgents_waits_at_most_160_polls W fuel agentIdList tr :
  verifyAllAgentsStatusUp W <> Ok false -> (160 <= fuel)%nat ->
  fst (rebootAgents fuel W agentIdList tr) <> Ok None /\
  (polls (snd (rebootAgents fuel W agentIdList tr)) <= polls tr + 160)%nat /\
  slept (snd (rebootAgents fuel W agentIdList tr)) <= slept tr + 160 /\
  (verifications (snd (rebootAgents fuel W agentIdList tr)) <= verifications tr + 1)%nat /\
  (fst (rebootAgents fuel W agentIdList tr) = Ok (Some tt) ->
   (exists m,
      (m < 160)%nat /\ reboot_state W m = Some "SUCCESS" /\
      slept (snd (rebootAgents fuel W agentIdList tr)) = slept tr + Z.of_nat m) \/
   (verifyAllAgentsStatusUp W = Ok true /\
    slept (snd (rebootAgents fuel W agentIdList tr)) = slept tr + 160)).
Proof.
  intros Hv Hf. destruct (rebootAgents fuel W agentIdList tr) as [r tr'] eqn:Hrun.
  cbn [fst snd]. exact (rebootAgents_run _ _ _ _ _ _ Hv Hf Hrun).
Qed.

Lemma rebootLoop_reboots W : forall fuel counter n tr,
  reboots (snd (rebootLoop fuel W counter n tr)) = reboots tr.
Proof.
  induction fuel as [|fuel IH]; intros counter n tr; [reflexivity|].
  cbn [rebootLoop]. run_st.
  destruct (reboot_state W n) as [status|]; cbn [of_option]; [|reflexivity].
  destruct ((counter <? 160) && negb (String.eqb status "SUCCESS")).
  - destruct ((counter + 1 <? 160) && String.eqb status "SUCCESS"); [reflexivity|].
    destruct ((counter + 1 =? 160) && negb (String.eqb status "SUCCESS")).
    + destruct (verifyAllAgentsStatusUp W) as [[|]|e]; try reflexivity.
      now rewrite IH.
    + now rewrite IH.
  - destruct ((counter <? 160) && String.eqb status "SUCCESS"); [reflexivity|].
    destruct ((counter =? 160) && negb (String.eqb status "SUCCESS")).
    + destruct (verifyAllAgentsStatusUp W) as [[|]|e]; try reflexivity.
      now rewrite IH.
    + now rewrite IH.
Qed.

(** X19 ([MW.rebootAgents] called without a list, [MW.getAllAgents],
    [MW.getAgentInfo]): at most one reboot request is sent, and it names
    exactly the listed agents whose IP address is an item of
    [envParams['agents']], in the order of the list; when the environment
    has no ['agents'], or none of its items is the address of a listed
    agent, the request names no agent. *)
Theorem rebootAgents_names_the_agents_of_the_environment W fuel tr :
  reboots (snd (rebootAgents fuel W None tr)) = reboots tr \/
  reboots (snd (rebootAgents fuel W None tr)) = chosen W :: reboots tr.
Proof.
  unfold rebootAgents, getAllAgents. run_st.
  destruct (negb (agents_code W =? 200)).
  { left. now destruct (agents_message W). }
  pose proof (listAgents_run W (agents W) [] (GetAgents :: tr)) as (_ & _ & _ & Hr & Hl).
  destruct (listAgents W (agents W) [] (GetAgents :: tr)) as [[l|e] tr1]; cbn [fst snd] in *.
  2:{ left. exact Hr. }
  rewrite (Hl l eq_refl). cbn [app].
  destruct (negb (reboot_code W =? 202)).
  { right. destruct (reboot_message W); cbn; now rewrite Hr. }
  destruct (reboot_id W); cbn [of_option].
  2:{ right. cbn. now rewrite Hr. }
  right. rewrite rebootLoop_reboots. cbn. now rewrite Hr.
Qed.

End RebootClaims.

Module RebootCases.
Import Py Reboot RebootSpec RebootClaims.

Lemma rebootAgents_waits_at_most_160_polls_witness :
  fst (rebootAgents 160 lab None []) <> Ok None /\
  (polls (snd (rebootAgents 160 lab None [])) <= polls [] + 160)%nat /\
  slept (snd (rebootAgents 160 lab None [])) <= slept [] + 160 /\
  (verifications (snd (rebootAgents 160 lab None [])) <= verifications [] + 1)%nat /\
  (fst (rebootAgents 160 lab None []) = Ok (Some tt) ->
   (exists m,
      (m < 160)%nat /\ reboot_state lab m = Some "SUCCESS" /\
      slept (snd (rebootAgents 160 lab None [])) = slept [] + Z.of_nat m) \/
   (verifyAllAgentsStatusUp lab = Ok true /\
    slept (snd (rebootAgents 160 lab None [])) = slept [] + 160)).
Proof.
  refine (rebootAgents_waits_at_most_160_polls lab 160 None [] _ _).
  - discriminate.
  - lia.
Defined.

(** The run on [lab]: the second agent alone is rebooted, and the third
    poll ends the wait. *)
Lemma reboot_of_the_lab :
  rebootAgents 160 lab None []
  = (Ok (Some tt),
     [GetReboot 2; Sleep 1; GetReboot 1; Sleep 1; GetReboot 0; PostReboot ["a2"];
      GetAgent "a2"; GetAgent "a1"; GetAgents]).
Proof. vm_compute. reflexivity. Qed.

End RebootCases.

(** ** [startTest]: what a run returns *)

Module StartSound.
Import Py StartTest StartTestLoop StartSpec StartFacts.

Lemma loop_sound W result waitTime code : forall fuel l s r s',
  (operation l <= 1)%nat ->
  loop fuel W result waitTime code l s = (r, s') ->
  forall st,
    r = Ok (Some st) ->
    state st = Some result /\
    (exists t, getTestId W = Ok t /\ testId s' = Some t) /\
    exists k n, (k <= 1)%nat /\ st = get_state W k n.
Proof.
  induction fuel as [|fuel IH]; intros l s r s' Hop; cbn [loop].
  - intros [= <- <-] st. discriminate.
  - destruct (0 <? wait l).
    + cbv [sbind call]. cbn [fst snd trace testId].
      destruct (state (get_state W (operation l) (polls l))) as [x|] eqn:Hx.
      2:{ intros [= <- <-] st. discriminate. }
      destruct (String.eqb_spec x result) as [->|Hne].
      { destruct (getTestId W) as [t|e] eqn:Ht.
        - cbv [set_testId ret]. cbn. intros [= <- <-] st [= <-].
          split; [exact Hx|]. split; [now exists t|].
          now exists (operation l), (polls l).
        - intros [= <- <-] st. discriminate. }
      destruct (String.eqb x "ERROR").
      * destruct (Nat.eqb (retry l) 0).
        -- destruct (recoverFromError W code _) as [[[]|e] s1].
           ++ intros Hrun. eapply IH; [|exact Hrun]. cbn. lia.
           ++ intros [= <- <-] st. discriminate.
        -- destruct (message (get_state W (operation l) (polls l))); cbv [raise];
             intros [= <- <-] st; discriminate.
      * intros Hrun. eapply IH; [|exact Hrun]. cbn. lia.
    + destruct (Nat.eqb (retry l) 0).
      * cbv [sbind]. destruct (recoverFromTimeout W code s) as [[[]|e] s1].
        -- unfold afterLoop. destruct (last l) as [j|]; [|intros [= <- <-] st; discriminate].
           destruct (state j); [|intros [= <- <-] st; discriminate].
           destruct (message j); intros [= <- <-] st; discriminate.
        -- intros [= <- <-] st. discriminate.
      * cbv [raise]. intros [= <- <-] st. discriminate.
Qed.

End StartSound.

Module StartSoundClaims.
Import Py StartTest StartTestLoop StartSpec StartFacts StartSound.

(** X20 ([MW.startTest]): every run ends and posts the start operation
    at most twice; and when the call returns a JSON, the first POST was
    answered with the expected status code, the JSON is a poll of the
    first or of the re-posted operation whose state is the awaited
    [result], and [self.testId] holds the id [getTestId] returned. *)
Theorem startTest_returns_the_awaited_state W result wait code s :
  let r := startTest W result wait code s in
  fst r <> Ok None /\
  (posts (trace (snd r)) <= posts (trace s) + 2)%nat /\
  forall st,
    fst r = Ok (Some st) ->
    start_code W 0 = code /\
    state st = Some result /\
    (exists t, getTestId W = Ok t /\ testId (snd r) = Some t) /\
    exists k n, (k <= 1)%nat /\ st = get_state W k n.
Proof.
  cbv zeta. split; [apply startTest_total|].
  split; [apply startTest_posts_at_most_twice|].
  intros st. unfold startTest, postStart. cbv [sbind call]. cbn [fst snd trace testId].
  destruct (Z.eqb_spec (start_code W 0) code) as [Hc|Hc]; [|discriminate].
  match goal with
  | |- context [loop ?f W result wait code ?l' ?s'] =>
      destruct (loop f W result wait code l' s') as [r s1] eqn:Hrun
  end.
  cbn [fst snd]. intros Hr. split; [exact Hc|].
  refine (loop_sound W result wait code _ _ _ _ _ _ Hrun st Hr). cbn. lia.
Qed.

End StartSoundClaims.

(** ** A CSV file that is missing, a series without snapshots *)

Module EdgeClaims.
Import Py Stats Kpi PollLoop Host Csv Words ParseFacts.

(** X21 ([Utils.convertCsvFileToJsonFile]): the CSV file is opened
    outside the [try]: when it cannot be read the call raises instead of
    returning [False]; it writes no file and logs no warning. *)
Theorem convertCsvFileToJsonFile_raises_without_csv `{Runtime} csvFilePath jsonFilePath env :
  files env !! csvFilePath = None ->
  convertCsvFileToJsonFile csvFilePath jsonFilePath env = (Raise OSError, env).
Proof.
  intros Hnone. unfold convertCsvFileToJsonFile, sbind, read_file. now rewrite Hnone.
Qed.

Lemma empty_series `{Runtime} statName response n :
  status_code response = 200 ->
  columns response = Some ["timestamp"; n] ->
  snapshots response = [] ->
  getAllStats statName response 200 = Ok (Some [(n, Series [])]).
Proof.
  intros Hc Hcols Hsnaps. unfold getAllStats. rewrite Hc, Hcols, Hsnaps. reflexivity.
Qed.

Lemma evaluate_empty_series `{Runtime} locals name op value :
  In op comparison_ops ->
  avoids opchars name = true -> avoids opchars value = true ->
  evaluate locals (name ++ op ++ value) (Series []) = Raise ValueError.
Proof.
  intros Hop Hn Hv. unfold evaluate.
  rewrite (parseExpectation_expr locals name op value Hop Hn Hv). cbn [bind].
  rewrite (runtime_name_expr name op value Hop Hn Hv). reflexivity.
Qed.

(** X22 ([MW.getAllStats] and the polling loop of [Main.runTestcase]):
    when a time series is answered with its columns and no snapshot yet,
    [getAllStats] returns the column with an empty list of samples, and
    an expression matched for that column makes the pass raise
    [ValueError], the [max] of an empty list: the polling loop is left by
    the exception. *)
Theorem series_without_snapshots_aborts_the_poll `{Runtime}
  statName kpiList p r rest s n i name op value :
  Stats.status_code (stat_responses r statName) = 200 ->
  columns (stat_responses r statName) = Some ["timestamp"; n] ->
  snapshots (stat_responses r statName) = [] ->
  matchIndex n kpiList = Ok (Some i) ->
  nth_error kpiList i = Some (name ++ op ++ value) ->
  In op comparison_ops ->
  avoids opchars name = true -> avoids opchars value = true ->
  getAllStats statName (stat_responses r statName) 200 = Ok (Some [(n, Series [])]) /\
  pollLoop [(statName, kpiList)] p (r :: rest) s = Aborted ValueError.
Proof.
  intros Hc Hcols Hsnaps Hidx Hnth Hop Hn Hv.
  pose proof (empty_series statName _ n Hc Hcols Hsnaps) as Hstats.
  split; [exact Hstats|].
  cbn [pollLoop]. unfold iteration, pollStats. cbn [map fst for_each].
  unfold statStep at 1. rewrite Hstats. cbn [bind dict_get].
  rewrite String.eqb_refl. cbn [of_option bind for_each].
  unfold kpiStep at 1. cbn [fst snd]. rewrite Hidx. cbn [bind].
  unfold index. rewrite Hnth. cbn [of_option bind].
  rewrite (evaluate_empty_series _ name op value Hop Hn Hv). reflexivity.
Qed.

End EdgeClaims.

Module EdgeCases.
Import Py Stats Kpi PollLoop Host Csv Words Sample FileSpec PollSpec EdgeSpec EdgeClaims.

Lemma convertCsvFileToJsonFile_raises_without_csv_witness :
  convertCsvFileToJsonFile "/r/a.csv" "/r/a.json" empty_env = (Raise OSError, empty_env).
Proof.
  refine (convertCsvFileToJsonFile_raises_without_csv "/r/a.csv" "/r/a.json" empty_env _).
  reflexivity.
Defined.

Lemma series_without_snapshots_aborts_the_poll_witness :
  getAllStats "Fullcore" (stat_responses early "Fullcore") 200
  = Ok (Some [("Registration Succeeded", Series [])]) /\
  pollLoop [("Fullcore", ["Registration Succeeded>=20"])] None [early] start_state
  = Aborted ValueError.
Proof.
  refine (series_without_snapshots_aborts_the_poll (H := runtime)
            "Fullcore" ["Registration Succeeded>=20"] None early [] start_state
            "Registration Succeeded" 0 "Registration Succeeded" ">=" "20" _ _ _ _ _ _ _ _).
  - reflexivity.
  - reflexivity.
  - reflexivity.
  - vm_compute. reflexivity.
  - reflexivity.
  - cbn. tauto.
  - reflexivity.
  - reflexivity.
Defined.

End EdgeCases.

(** ** [configSustainTime] *)

Module SustainClaims.
Import Py Sustain SustainSpec.

Lemma pick_all : forall testcaseParams acc,
  Forall well_formed testcaseParams ->
  for_each pick testcaseParams acc
  = Ok match last_named testcaseParams with
       | Some v => v
       | None => acc
       end.
Proof.
  induction testcaseParams as [|p l IH] using rev_ind; intros acc Hwf; [reflexivity|].
  apply Forall_app in Hwf. destruct Hwf as (Hl & Hp).
  apply Forall_cons_iff in Hp. destruct Hp as ((name & Hname & Hval) & _).
  rewrite MatchFacts.for_each_app, (IH acc Hl). cbn [bind for_each].
  unfold last_named. rewrite rev_app_distr. cbn [rev app List.filter].
  unfold pick. destruct (named p) eqn:Hnamed; unfold named in Hnamed;
    rewrite Hname in *; cbn [of_option bind]; rewrite Hnamed.
  - destruct (value p) as [v|]; [reflexivity|]. now destruct Hval.
  - reflexivity.
Qed.

(** X23 ([reconfigLoadCore.configSustainTime], [MW.configSustainTime]):
    the sustain time sent is the value of the last parameter named
    [sustainTestingTime], in one PATCH, and the call returns when the
    PATCH is answered with 204.  When no parameter has this name, or the
    last one that has it holds 0, an empty string or null, nothing is
    sent and the call raises as if the parameter were missing. *)
Theorem configSustainTime_sends_the_last_value W testcaseParams tr :
  Forall well_formed testcaseParams ->
  configSustainTime W testcaseParams tr
  = match last_named testcaseParams with
    | Some v =>
        if truthy v then
          (if negb (patch_code W =? 204) then Raise (AbortTest (patch_json W)) else Ok tt,
           PatchSustain v :: tr)
        else (Raise (AbortTest notFoundMsg), tr)
    | None => (Raise (AbortTest notFoundMsg), tr)
    end.
Proof.
  intros Hwf. unfold configSustainTime, sbind, lift. rewrite (pick_all _ _ Hwf).
  destruct (last_named testcaseParams) as [v|]; [|reflexivity].
  destruct (truthy v); reflexivity.
Qed.

End SustainClaims.

Module SustainCases.
Import Py Sustain SustainSpec SustainClaims.

Lemma configSustainTime_sends_the_last_value_witness :
  configSustainTime accepts
    [param "sustainTestingTime" (VInt 60); param "other" (VInt 1);
     param "sustainTestingTime" (VInt 0)] []
  = (Raise (AbortTest notFoundMsg), []).
Proof.
  refine (configSustainTime_sends_the_last_value accepts
            [param "sustainTestingTime" (VInt 60); param "other" (VInt 1);
             param "sustainTestingTime" (VInt 0)] [] _).
  repeat constructor; eexists; (split; [reflexivity|]); cbn; discriminate.
Defined.

End SustainCases.

(** ** The mappings [__create_Mappings] makes *)

Module AgentsFacts.
Import Py Agents AgentsSpec.

Lemma key_eqb_spec a b : reflect (a = b) (key_eqb a b).
Proof.
  destruct a as [x|], b as [y|]; cbn; try (constructor; congruence).
  destruct (String.eqb_spec x y); constructor; congruence.
Qed.

Lemma ns_get_set_eq k v d : ns_get k (ns_set k v d) = Some v.
Proof.
  induction d as [|[k' v'] d IH]; cbn.
  - destruct (key_eqb_spec k k); [reflexivity|contradiction].
  - destruct (key_eqb_spec k k') as [->|Hne]; cbn.
    + destruct (key_eqb_spec k' k'); [reflexivity|contradiction].
    + destruct (key_eqb_spec k k'); [contradiction|exact IH].
Qed.

Lemma ns_get_set_ne k k' v d : k <> k' -> ns_get k' (ns_set k v d) = ns_get k' d.
Proof.
  intros Hne. induction d as [|[k0 v0] d IH]; cbn.
  - destruct (key_eqb_spec k' k); [congruence|reflexivity].
  - destruct (key_eqb_spec k k0) as [->|Hk]; cbn.
    + destruct (key_eqb_spec k' k0); [congruence|reflexivity].
    + destruct (key_eqb_spec k' k0); [reflexivity|exact IH].
Qed.

Lemma tidy_set k v d : tidy d -> NoDup v -> ~ In "none" v -> tidy (ns_set k v d).
Proof.
  intros Hd Hv Hn k' l. destruct (key_eqb_spec k k') as [<-|Hne].
  - rewrite ns_get_set_eq. now intros [= <-].
  - rewrite ns_get_set_ne by exact Hne. apply Hd.
Qed.

Lemma mapInterface_spec agentsInfo node agentIP testInterface AgentNodeID st interface st' :
  mapInterface agentsInfo node agentIP testInterface AgentNodeID st interface = Ok st' ->
  fst st' = (fst st ++ [mapping_of agentsInfo node agentIP testInterface interface])%list /\
  (tidy (snd st) -> tidy (snd st')) /\
  is_Some (ns_get AgentNodeID (snd st')).
Proof.
  unfold mapInterface, mapping_of.
  destruct (ns_get AgentNodeID (snd st)) as [current|] eqn:Hcur; cbn [of_option bind];
    [|discriminate].
  destruct (unmapped node interface).
  - cbn. rewrite andb_false_r. intros [= <-]. cbn. split; [reflexivity|split; [tauto|]].
    rewrite Hcur. now eexists.
  - destruct (existsb (String.eqb testInterface) current) eqn:Hex; cbn [negb andb].
    + intros [= <-]. cbn. split; [reflexivity|split; [tauto|]]. rewrite Hcur. now eexists.
    + destruct (String.eqb_spec testInterface "none") as [->|Hnone]; cbn [negb].
      * intros [= <-]. cbn. split; [reflexivity|split; [tauto|]]. rewrite Hcur. now eexists.
      * intros [= <-]. cbn [fst snd]. split; [reflexivity|]. split.
        -- intros Htidy. destruct (Htidy _ _ Hcur) as (Hnd & Hno).
           apply tidy_set; [exact Htidy| |].
           ++ apply NoDup_app. split; [exact Hnd|]. split; [|apply NoDup_singleton].
              intros x Hx Hin. apply list_elem_of_singleton in Hin. subst x.
              apply list_elem_of_In in Hx.
              assert (existsb (String.eqb testInterface) current = true); [|congruence].
              apply existsb_exists. exists testInterface.
              split; [exact Hx|apply String.eqb_refl].
           ++ intros Hin. apply in_app_or in Hin. destruct Hin as [Hin|[Hin|[]]];
                [now apply Hno|congruence].
        -- rewrite ns_get_set_eq. now eexists.
Qed.

Lemma mapInterfaces_spec agentsInfo node agentIP testInterface AgentNodeID :
  forall interfaces st st',
    is_Some (ns_get AgentNodeID (snd st)) ->
    for_each (mapInterface agentsInfo node agentIP testInterface AgentNodeID) interfaces st
    = Ok st' ->
    fst st'
    = (fst st ++ map (mapping_of agentsInfo node agentIP testInterface) interfaces)%list /\
    (tidy (snd st) -> tidy (snd st')) /\
    is_Some (ns_get AgentNodeID (snd st')).
Proof.
  induction interfaces as [|interface interfaces IH]; intros st st' Hsome Hrun.
  - cbn in Hrun. injection Hrun as <-. cbn. rewrite app_nil_r. tauto.
  - cbn [for_each] in Hrun.
    destruct (mapInterface agentsInfo node agentIP testInterface AgentNodeID st interface)
      as [st1|e] eqn:H1; cbn [bind] in Hrun; [|discriminate].
    destruct (mapInterface_spec _ _ _ _ _ _ _ _ H1) as (Hm1 & Ht1 & Hs1).
    destruct (IH st1 st' Hs1 Hrun) as (Hm & Ht & Hs).
    rewrite Hm, Hm1. cbn [map]. rewrite <- app_assoc. cbn [app]. tauto.
Qed.

(** The loop never fails: the list of the agent is there. *)
Lemma mapInterfaces_total agentsInfo node agentIP testInterface AgentNodeID :
  forall interfaces st,
    is_Some (ns_get AgentNodeID (snd st)) ->
    exists st',
      for_each (mapInterface agentsInfo node agentIP testInterface AgentNodeID) interfaces st
      = Ok st'.
Proof.
  induction interfaces as [|interface interfaces IH]; intros st Hsome.
  - now exists st.
  - cbn [for_each].
    destruct (mapInterface agentsInfo node agentIP testInterface AgentNodeID st interface)
      as [st1|e] eqn:H1.
    + cbn [bind]. apply IH. now destruct (mapInterface_spec _ _ _ _ _ _ _ _ H1) as (_ & _ & Hs).
    + exfalso. unfold mapInterface in H1. destruct Hsome as (current & Hcur).
      rewrite Hcur in H1. cbn [of_option bind] in H1.
      destruct (_ && _) in H1; discriminate.
Qed.

End AgentsFacts.

Module AgentsClaims.
Import Py Agents AgentsSpec AgentsFacts.

(** X24 (the helper [__create_Mappings] of [MW.assignAgents], with
    [MW.getTopologyFromSessionConfig], [MW.getAgentNodeID] and
    [MW.getInterfaceMAC]): for a node of the table that goes with the
    category of the configuration (the SBA table for [SBA], the full-core
    table otherwise), the helper returns and appends one mapping per
    interface of the node, in the order of the table: the interface
    [passthroughDevice], and [n6] of the node [upf], are mapped to
    [none], every other interface to the test interface with the MAC
    address [getInterfaceMAC] finds.  The test interfaces kept for the
    agent stay free of duplicates and of [none]. *)
Theorem create_Mappings_follows_the_node_table category node interfaceMappings agentsInfo
  agentIP testInterface networkSettings interfaces :
  dict_get node (table category) = Some interfaces ->
  exists current networkSettings',
    create_Mappings (Some category) node interfaceMappings agentsInfo agentIP testInterface
      networkSettings
    = Ok (getAgentNodeID agentsInfo agentIP,
          (interfaceMappings
           ++ map (mapping_of agentsInfo node agentIP testInterface) interfaces)%list,
          current, networkSettings') /\
    ns_get (getAgentNodeID agentsInfo agentIP) networkSettings' = Some current /\
    (tidy networkSettings -> tidy networkSettings').
Proof.
  intros Hnode. unfold create_Mappings, getTopologyFromSessionConfig. cbn [of_option bind].
  assert (Hdict :
            dict_get node
              match
                (if String.eqb category "Full Core" then Ok (Some "Config")
                 else if String.eqb category "SBA" then Ok (Some "sbaConfig")
                 else if String.eqb category "UPF Isolation" then Ok (Some "upfIsolationConfig")
                 else if String.eqb category "iRAT" then Ok (Some "IRATConfig")
                 else Ok None) with
              | Ok (Some t) =>
                  if String.eqb t "sbaConfig" then defaultSBATesterDict else defaultFullcoreDict
              | _ => defaultFullcoreDict
              end = Some interfaces).
  { unfold table in Hnode.
    destruct (String.eqb_spec category "Full Core") as [->|_]; [exact Hnode|].
    destruct (String.eqb category "SBA"); [exact Hnode|].
    destruct (String.eqb category "UPF Isolation"); [exact Hnode|].
    destruct (String.eqb category "iRAT"); exact Hnode. }
  destruct (String.eqb category "Full Core"); [|destruct (String.eqb category "SBA");
    [|destruct (String.eqb category "UPF Isolation"); [|destruct (String.eqb category "iRAT")]]];
    cbn [bind] in *; cbn [String.eqb Ascii.eqb Bool.eqb] in *; rewrite Hdict; cbn [of_option bind];
    set (AgentNodeID := getAgentNodeID agentsInfo agentIP);
    set (ns := match ns_get AgentNodeID networkSettings with
               | Some _ => networkSettings
               | None => ns_set AgentNodeID [] networkSettings
               end);
    (assert (Hsome : is_Some (ns_get AgentNodeID ns))
       by (subst ns; destruct (ns_get AgentNodeID networkSettings) eqn:Hg;
           [rewrite Hg; now eexists|rewrite ns_get_set_eq; now eexists]));
    (assert (Htidy : tidy networkSettings -> tidy ns)
       by (subst ns; destruct (ns_get AgentNodeID networkSettings);
           [tauto|intros Ht; apply tidy_set; [exact Ht|apply NoDup_nil_2|intros []]]));
    destruct (mapInterfaces_total agentsInfo node agentIP testInterface AgentNodeID interfaces
                (interfaceMappings, ns) Hsome) as (st' & Hrun);
    rewrite Hrun; cbn [bind];
    destruct (mapInterfaces_spec agentsInfo node agentIP testInterface AgentNodeID interfaces
                (interfaceMappings, ns) st' Hsome Hrun) as (Hm & Ht & (current & Hcur));
    rewrite Hcur; cbn [of_option bind]; cbn [fst snd] in Hm;
    exists current, (snd st'); rewrite Hm; (split; [reflexivity|split; [exact Hcur|tauto]]).
Qed.

End AgentsClaims.

Module AgentsCases.
Import Py Agents AgentsSpec AgentsClaims.

Lemma create_Mappings_follows_the_node_table_witness :
  exists current networkSettings',
    create_Mappings (Some "Full Core") "upf" [] two_agents "10.0.0.2" "ens192" []
    = Ok (getAgentNodeID two_agents "10.0.0.2",
          ([] ++ map (mapping_of two_agents "upf" "10.0.0.2" "ens192")
                   ["n3"; "n4"; "n6"; "n9"])%list,
          current, networkSettings') /\
    ns_get (getAgentNodeID two_agents "10.0.0.2") networkSettings' = Some current /\
    (tidy [] -> tidy networkSettings').
Proof.
  refine (create_Mappings_follows_the_node_table "Full Core" "upf" [] two_agents
            "10.0.0.2" "ens192" [] ["n3"; "n4"; "n6"; "n9"] _).
  reflexivity.
Defined.

(** The mappings of the node [upf] on the second agent: [n6] is left
    unmapped, and the agent keeps the one test interface. *)
Lemma upf_mappings :
  create_Mappings (Some "Full Core") "upf" [] two_agents "10.0.0.2" "ens192" []
  = Ok (Some "a2",
        [ {| agentInterface := "ens192"; agentInterfaceMac := Some "00:03"; nodeInterface := "n3" |};
          {| agentInterface := "ens192"; agentInterfaceMac := Some "00:03"; nodeInterface := "n4" |};
          {| agentInterface := "none"; agentInterfaceMac := Some "none"; nodeInterface := "n6" |};
          {| agentInterface := "ens192"; agentInterfaceMac := Some "00:03"; nodeInterface := "n9" |} ],
        ["ens192"], [(Some "a2", ["ens192"])]).
Proof. vm_compute. reflexivity. Qed.

(** An address no agent has: the mappings are made all the same, with a
    null id and null MAC addresses. *)
Lemma unknown_agent_is_mapped :
  create_Mappings (Some "Full Core") "dn" [] two_agents "10.0.0.9" "ens192" []
  = Ok (None,
        [ {| agentInterface := "ens192"; agentInterfaceMac := None; nodeInterface := "n6" |} ],
        ["ens192"], [(None, ["ens192"])]).
Proof. vm_compute. reflexivity. Qed.

End AgentsCases.

(** ** [readCsvFile] *)

Module ReadCsvClaims.
Import Py Host ReadCsv ReadCsvSpec VerdictFacts StatsClaims.

Lemma valueListOf_no_empty value : ~ In "" (valueListOf value).
Proof.
  unfold valueListOf.
  assert (Hgen : forall pieces acc,
             ~ In "" acc ->
             ~ In "" (fold_left
                        (fun valueList eachValue =>
                           if String.eqb eachValue "" then valueList
                           else (valueList ++ [eachValue])%list)
                        pieces acc)).
  { induction pieces as [|piece pieces IH]; intros acc Hacc; [exact Hacc|].
    cbn [fold_left]. apply IH. destruct (String.eqb_spec piece "") as [_|Hne]; [exact Hacc|].
    intros Hin. apply in_app_or in Hin. destruct Hin as [Hin|[Hin|[]]]; [now apply Hacc|].
    now apply Hne. }
  apply Hgen. intros [].
Qed.

Lemma storeCell_read rows testNo row csvData item csvData' :
  In row rows -> dict_get "Test No" row = Some testNo -> In item row ->
  all_read rows csvData -> storeCell testNo csvData item = Ok csvData' ->
  all_read rows csvData'.
Proof.
  intros Hrow Hno Hitem Hall. unfold storeCell.
  destruct (String.eqb_spec (fst item) "") as [_|Hkey].
  { now intros [= <-]. }
  destruct (dict_get testNo csvData) as [inner|] eqn:Hinner; cbn [of_option bind];
    [|discriminate].
  intros [= <-] testNo' inner' key vl.
  destruct (String.eqb_spec testNo testNo') as [<-|Hne].
  - rewrite dict_get_set_eq. intros [= <-].
    destruct (String.eqb_spec (fst item) key) as [<-|Hk].
    + rewrite dict_get_set_eq. intros [= <-].
      split; [exact Hkey|]. split; [apply valueListOf_no_empty|].
      exists row, (snd item). repeat split; try assumption. now destruct item.
    + rewrite dict_get_set_ne by exact Hk. now apply Hall.
  - rewrite dict_get_set_ne by exact Hne. apply Hall.
Qed.

Lemma storeRow_read rows row csvData csvData' :
  In row rows -> all_read rows csvData -> storeRow csvData row = Ok csvData' ->
  all_read rows csvData'.
Proof.
  intros Hrow Hall. unfold storeRow.
  destruct (dict_get "Test No" row) as [testNo|] eqn:Hno; cbn [of_option bind]; [|discriminate].
  apply (for_each_invariant (all_read rows)).
  - intros d item d' Hitem Hd Hrun. exact (storeCell_read _ _ _ _ _ _ Hrow Hno Hitem Hd Hrun).
  - intros testNo' inner key vl. destruct (String.eqb_spec testNo testNo') as [<-|Hne].
    + rewrite dict_get_set_eq. intros [= <-]. discriminate.
    + rewrite dict_get_set_ne by exact Hne. apply Hall.
Qed.

(** X25 ([Utils.readCsvFile]): the file is only read; and in the
    dictionary returned every list stored for a test number under a
    column name is made of the lines of one cell of that column, in a
    row with that test number, without the empty lines; the column
    without a name is left out. *)
Theorem readCsvFile_keeps_the_nonempty_lines dict_rows csvFile env text csvData env' :
  files env !! csvFile = Some text ->
  readCsvFile dict_rows csvFile env = (Ok csvData, env') ->
  env' = env /\ all_read (dict_rows text) csvData.
Proof.
  intros Htext. unfold readCsvFile, sbind, read_file, lift. rewrite Htext. cbn [of_option].
  intros [= Hrun <-]. split; [reflexivity|].
  refine (for_each_invariant (all_read (dict_rows text)) storeRow _ _ _ _ _ Hrun).
  - intros d row d' Hrow Hd Hstep. exact (storeRow_read _ _ _ _ Hrow Hd Hstep).
  - intros testNo inner key vl. discriminate.
Qed.

End ReadCsvClaims.

Module ReadCsvCases.
Import Py Host ReadCsv ReadCsvSpec ReadCsvClaims.

Lemma readCsvFile_keeps_the_nonempty_lines_witness :
  one_file = one_file /\
  all_read (two_rows "any") [("1", [("Test No", ["1"]); ("Steps", ["a"; "b"])]);
                             ("2", [("Test No", ["2"]); ("Steps", [])])].
Proof.
  refine (readCsvFile_keeps_the_nonempty_lines two_rows "/t/plan.csv" one_file "any" _ _ _ _).
  - reflexivity.
  - vm_compute. reflexivity.
Defined.

End ReadCsvCases.
